(** * Pipeline-stage controllers of the RAG front end

    A shallow embedding of the three page components
    [frontend/src/pages/LoadFile.jsx], [ChunkFile.jsx] and [ParseFile.jsx]:
    their React state, their event handlers (as computations in a small
    state / exception / request-log monad) and the segment preview of their
    right-hand panel, followed by the properties of the stage controllers. *)

From Stdlib Require Import String Ascii List Bool Arith Lia PrimFloat DecimalString.
Import ListNotations.
Open Scope string_scope.

Set Implicit Arguments.
#[global] Set Warnings "-inexact-float,-register-all".

(** ** JavaScript values and the operations the pages use *)

Module JS.

(** A JavaScript value as the pages see it: what [JSON.parse] returns, plus
    [undefined].  Numbers are IEEE binary64, strings are kept as their UTF-8
    bytes (the pages only compare strings, concatenate them and search them
    for ASCII text, which UTF-8 preserves). *)
Inductive value : Type :=
| VUndefined
| VNull
| VBool (b : bool)
| VNum (n : float)
| VStr (s : string)
| VArr (items : list value)
| VObj (props : list (string * value)).

(** What the engine throws and a [catch (error)] clause reads back through
    [error.message]. *)
Inductive exn : Type :=
| TypeError (msg : string)
| SyntaxError (msg : string)
| Error (msg : string).

Definition message (e : exn) : string :=
  match e with TypeError m | SyntaxError m | Error m => m end.

(** Result of evaluating an expression that may throw. *)
Inductive outcome (A : Type) : Type :=
| Return (a : A)
| Throw (e : exn).
Arguments Return {A} a.
Arguments Throw {A} e.

Definition obind {A B} (o : outcome A) (f : A -> outcome B) : outcome B :=
  match o with Return a => f a | Throw e => Throw e end.

(** Text that the language leaves to the engine: the decimal rendering of a
    number and the wording of the [TypeError]s it raises. *)
Class engine : Type := {
  number_to_string : float -> string;
  cannot_read : value -> string -> string;
  not_a_function : string -> string
}.

Definition nl : string := String (ascii_of_nat 10) "".

Definition string_of_nat (n : nat) : string :=
  NilEmpty.string_of_uint (Nat.to_uint n).

(** [ToBoolean]. *)
Definition truthy (v : value) : bool :=
  match v with
  | VUndefined | VNull => false
  | VBool b => b
  | VNum n => negb (PrimFloat.eqb n 0%float || negb (PrimFloat.eqb n n))
  | VStr s => negb (String.eqb s "")
  | VArr _ | VObj _ => true
  end.

Definition nullish (v : value) : bool :=
  match v with VUndefined | VNull => true | _ => false end.

Definition isArray (v : value) : bool :=
  match v with VArr _ => true | _ => false end.

(** [v === 'lit'] for a string literal. *)
Definition is_str (v : value) (lit : string) : bool :=
  match v with VStr s => String.eqb s lit | _ => false end.

Fixpoint lookup (k : string) (ps : list (string * value)) : option value :=
  match ps with
  | [] => None
  | (k', v) :: rest => if String.eqb k k' then Some v else lookup k rest
  end.

(** [{...o, k: v}] / a repeated key of an object literal: the value is
    replaced where the key already stands, else the pair is added last. *)
Fixpoint obj_set (k : string) (v : value) (ps : list (string * value))
  : list (string * value) :=
  match ps with
  | [] => [(k, v)]
  | (k', v') :: rest =>
      if String.eqb k k' then (k, v) :: rest else (k', v') :: obj_set k v rest
  end.

(** An object literal, its pairs written left to right. *)
Definition object (ps : list (string * value)) : list (string * value) :=
  fold_left (fun acc kv => obj_set (fst kv) (snd kv) acc) ps [].

Definition keys (ps : list (string * value)) : list string := map fst ps.

(** [v.k] for the data property names read by the pages (none of them is an
    index, [length] or a prototype member, so only an object can hold one). *)
Definition get_prop {eng : engine} (v : value) (k : string) : outcome value :=
  match v with
  | VUndefined | VNull => Throw (TypeError (cannot_read v k))
  | VObj ps => Return (match lookup k ps with Some x => x | None => VUndefined end)
  | _ => Return VUndefined
  end.

(** [v?.k]. *)
Definition get_prop_opt (v : value) (k : string) : value :=
  match v with
  | VObj ps => match lookup k ps with Some x => x | None => VUndefined end
  | _ => VUndefined
  end.

(** [v[i]] for a numeric literal [i]. *)
Definition get_index {eng : engine} (v : value) (i : nat) : outcome value :=
  match v with
  | VUndefined | VNull => Throw (TypeError (cannot_read v (string_of_nat i)))
  | VArr xs => Return (nth i xs VUndefined)
  | VStr s => Return (match String.get i s with
                      | Some c => VStr (String c "")
                      | None => VUndefined
                      end)
  | VObj ps => Return (match lookup (string_of_nat i) ps with
                       | Some x => x
                       | None => VUndefined
                       end)
  | _ => Return VUndefined
  end.

Fixpoint join (sep : string) (xs : list string) : string :=
  match xs with
  | [] => ""
  | [x] => x
  | x :: rest => x ++ sep ++ join sep rest
  end.

(** [ToString], as a template literal and [new Error(v)] apply it. *)
Fixpoint to_string {eng : engine} (v : value) : string :=
  match v with
  | VUndefined => "undefined"
  | VNull => "null"
  | VBool true => "true"
  | VBool false => "false"
  | VNum n => number_to_string n
  | VStr s => s
  | VArr xs =>
      join "," (map (fun x => if nullish x then "" else to_string x) xs)
  | VObj _ => "[object Object]"
  end.

(** [s.split(c)] for a one-character separator. *)
Fixpoint split (c : ascii) (s : string) : list string :=
  match s with
  | EmptyString => [EmptyString]
  | String a rest =>
      if Ascii.eqb a c then EmptyString :: split c rest
      else match split c rest with
           | h :: t => String a h :: t
           | [] => [String a EmptyString]
           end
  end.

(** [s.endsWith(t)]: [t] is one of the suffixes of [s]. *)
Fixpoint endsWith (s t : string) : bool :=
  String.eqb s t ||
  match s with
  | EmptyString => false
  | String _ rest => endsWith rest t
  end.

(** [s.includes(t)]. *)
Fixpoint includes (s t : string) : bool :=
  String.prefix t s ||
  match s with
  | EmptyString => false
  | String _ rest => includes rest t
  end.

(** [s.toLowerCase()] on the ASCII letters (file extensions). *)
Definition lower (c : ascii) : ascii :=
  let n := nat_of_ascii c in
  if ((65 <=? n)%nat && (n <=? 90)%nat)%bool then ascii_of_nat (n + 32) else c.

Fixpoint toLowerCase (s : string) : string :=
  match s with
  | EmptyString => EmptyString
  | String a rest => String (lower a) (toLowerCase rest)
  end.

(** [xs.pop()] of a list that [split] returned. *)
Definition pop (xs : list string) : string := last xs "".

(** The pairs [{...v}] copies out of [v]. *)
Definition spread (v : value) : list (string * value) :=
  match v with
  | VObj ps => ps
  | VArr xs => combine (map string_of_nat (seq 0 (length xs))) xs
  | VStr s =>
      combine (map string_of_nat (seq 0 (String.length s)))
              (map (fun c => VStr (String c "")) (list_ascii_of_string s))
  | _ => []
  end.

End JS.

(** ** Effects of an event handler: React state, [fetch], dialogs *)

Module Fx.
Import JS.

Inductive http_method : Type := GET | POST | DELETE.

(** A [File] picked in an [<input type="file">]: its name and its bytes. *)
Record File : Type := { file_name : string; file_data : string }.

(** An entry of a [FormData]; [FormJson v] is the text [JSON.stringify(v)]. *)
Inductive form_value : Type :=
| FormFile (f : File)
| FormText (s : string)
| FormJson (v : value).

(** The [body] option of [fetch]; [JsonBody v] is the text
    [JSON.stringify(v)]. *)
Inductive payload : Type :=
| NoBody
| JsonBody (v : value)
| FormBody (entries : list (string * form_value)).

Record request : Type := {
  req_method : http_method;
  req_url : string;
  req_headers : list (string * string);
  req_body : payload
}.

(** The text of a response: JSON, or text on which [response.json()] throws
    the given [SyntaxError]. *)
Inductive body : Type :=
| JsonText (v : value)
| NotJson (syntax_error : string).

Record reply : Type := { status : nat; content : body }.

(** What the network does with a request: the promise of [fetch] rejects
    (no connection) or resolves to a reply of any status. *)
Inductive response : Type :=
| Rejected (msg : string)
| Resolved (r : reply).

Inductive event : Type :=
| Fetch (r : request)
| Confirm (question : string)
| Alert (text : string).

(** Everything outside the page: the configured base URL, the remote service
    and the operator's answers to [window.confirm].  Both are asked with the
    number of events that the handler has produced so far. *)
Class environment : Type := {
  apiBaseUrl : string;
  respond : nat -> request -> response;
  answer : nat -> string -> bool
}.

(** The running handler: the current React state and the events so far, each
    with the state in which it happened. *)
Record world (St : Type) : Type := {
  store : St;
  log : list (St * event)
}.

Definition M (St A : Type) : Type := world St -> outcome A * world St.

Definition ret {St A} (a : A) : M St A := fun w => (Return a, w).

Definition bind {St A B} (m : M St A) (k : A -> M St B) : M St B :=
  fun w => match m w with
           | (Return a, w') => k a w'
           | (Throw e, w') => (Throw e, w')
           end.

Definition throw {St A} (e : exn) : M St A := fun w => (Throw e, w).

(** [try { m } catch (error) { h error }]. *)
Definition try_catch {St A} (m : M St A) (h : exn -> M St A) : M St A :=
  fun w => match m w with
           | (Return a, w') => (Return a, w')
           | (Throw e, w') => h e w'
           end.

Definition lift {St A} (o : outcome A) : M St A := fun w => (o, w).

(** A state setter [setX(v)], as the update it makes. *)
Definition update {St} (f : St -> St) : M St unit :=
  fun w => (Return tt, {| store := f (store w); log := log w |}).

Definition emit {St} (e : event) (w : world St) : world St :=
  {| store := store w; log := log w ++ [(store w, e)] |}.

(** [await fetch(url, options)]. *)
Definition fetch {env : environment} {St} (r : request) : M St reply :=
  fun w => match respond (length (log w)) r with
           | Rejected msg => (Throw (TypeError msg), emit (Fetch r) w)
           | Resolved rp => (Return rp, emit (Fetch r) w)
           end.

Definition window_confirm {env : environment} {St} (question : string) : M St bool :=
  fun w => (Return (answer (length (log w)) question), emit (Confirm question) w).

Definition alert {St} (text : string) : M St unit :=
  fun w => (Return tt, emit (Alert text) w).

(** [response.ok]. *)
Definition ok (r : reply) : bool :=
  ((200 <=? status r)%nat && (status r <=? 299)%nat)%bool.

(** [await response.json()]. *)
Definition json (r : reply) : outcome value :=
  match content r with
  | JsonText v => Return v
  | NotJson m => Throw (SyntaxError m)
  end.

(** [await Promise.all(xs.map(f))], the callbacks taken in list order. *)
Fixpoint mapM {St A B} (f : A -> M St B) (xs : list A) : M St (list B) :=
  match xs with
  | [] => ret []
  | x :: rest =>
      bind (f x) (fun y => bind (mapM f rest) (fun ys => ret (y :: ys)))
  end.

(** An event handler closes over the state of the render that created it;
    firing it runs it on that state. *)
Definition fire {St A} (h : St -> M St A) (w : world St) : outcome A * world St :=
  h (store w) w.

Definition start {St} (s : St) : world St := {| store := s; log := [] |}.

Definition requests {St} (w : world St) : list request :=
  flat_map (fun se => match snd se with Fetch r => [r] | _ => [] end) (log w).

Definition http_error (r : reply) : exn :=
  Error ("HTTP error! status: " ++ string_of_nat (status r)).

Definition get (url : string) : request :=
  {| req_method := GET; req_url := url; req_headers := []; req_body := NoBody |}.

Definition delete (url : string) : request :=
  {| req_method := DELETE; req_url := url; req_headers := []; req_body := NoBody |}.

(** A computation only adds events to the log. *)
Definition grows {St A} (m : M St A) : Prop :=
  forall w, exists rest, log (snd (m w)) = (log w ++ rest)%list.

(** A computation leaves an observation of the state as it was. *)
Definition keeps {St A X} (f : St -> X) (m : M St A) : Prop :=
  forall w, f (store (snd (m w))) = f (store w).

End Fx.

Declare Scope fx_scope.
Delimit Scope fx_scope with fx.
Notation "x <- c ;; k" := (Fx.bind c (fun x => k))
  (at level 61, c at next level, right associativity) : fx_scope.
Notation "c ;; k" := (Fx.bind c (fun _ => k))
  (at level 61, right associativity) : fx_scope.
Open Scope fx_scope.

(** ** What a preview shows *)

Module View.

(** The list of segment cards of a preview: one card per segment, nothing at
    all (React renders no node for [false]), or an explicit message that there
    is nothing to show. *)
Inductive segments (Row : Type) : Type :=
| Cards (rows : list Row)
| Blank
| EmptyState (text : string).
Arguments Blank {Row}.
Arguments EmptyState {Row} text.

(** The preview tab: the [RandomImage] placeholder while there is no result,
    else the result with its segments. *)
Inductive preview (Row : Type) : Type :=
| Placeholder (message : string)
| Result (segs : segments Row).
Arguments Placeholder {Row} message.

Fixpoint mapO {A B} (f : A -> JS.outcome B) (xs : list A) : JS.outcome (list B) :=
  match xs with
  | [] => JS.Return []
  | x :: rest =>
      JS.obind (f x) (fun y => JS.obind (mapO f rest) (fun ys => JS.Return (y :: ys)))
  end.

End View.

(** ** ChunkFile.jsx *)

Module ChunkFile.
Import JS Fx View.

(** The parameter hooks (lines 9-13, 20-23, 30-75). *)
Record params : Type := {
  chunkSize : float;
  chunkOverlap : float;
  minChunkSize : float;
  maxChunkSize : float;
  semanticThreshold : float;
  mergeEmptyPages : bool;
  mergeShortPages : bool;
  maxPageWords : float;
  minPageWords : float;
  paragraphSeparator : string;
  customParagraphSeparator : string;
  sentenceSeparator : string;
  customSentenceSeparator : string;
  keepSeparator : bool;
  semanticChunkSize : float;
  semanticChunkOverlap : float;
  semanticSentenceSeparator : string;
  semanticCustomSentenceSeparator : string;
  semanticKeepSeparator : bool;
  semanticMinChunkSize : float;
  semanticMaxChunkSize : float;
  hybridMaxChunkSize : float;
  hybridMinChunkSize : float;
  hybridParagraphSeparator : string;
  hybridCustomParagraphSeparator : string;
  hybridSentenceSeparator : string;
  hybridCustomSentenceSeparator : string;
  hybridChunkSize : float;
  hybridChunkOverlap : float;
  hybridKeepSeparator : bool;
  hybridSemanticThreshold : float
}.

(** The component state: the remaining hooks, and the parameter hooks kept
    together in [parameters]. *)
Record state : Type := {
  loadedDocuments : value;
  selectedDoc : string;
  chunkingOption : string;
  chunks : value;
  status : string;
  activeTab : string;
  processingStatus : string;
  chunkedDocuments : list value;
  showAdvancedOptions : bool;
  parameters : params
}.

(** The [useState] initial values. *)
Definition initial_params : params := {|
  chunkSize := 1000;
  chunkOverlap := 200;
  minChunkSize := 100;
  maxChunkSize := 5000;
  semanticThreshold := 0.7;
  mergeEmptyPages := false;
  mergeShortPages := false;
  maxPageWords := 2000;
  minPageWords := 50;
  paragraphSeparator := "\n\n";
  customParagraphSeparator := "";
  sentenceSeparator := "。|！|？";
  customSentenceSeparator := "";
  keepSeparator := false;
  semanticChunkSize := 1000;
  semanticChunkOverlap := 200;
  semanticSentenceSeparator := "。|！|？";
  semanticCustomSentenceSeparator := "";
  semanticKeepSeparator := false;
  semanticMinChunkSize := 1;
  semanticMaxChunkSize := 5000;
  hybridMaxChunkSize := 5000;
  hybridMinChunkSize := 1;
  hybridParagraphSeparator := nl ++ nl;
  hybridCustomParagraphSeparator := "";
  hybridSentenceSeparator := "。|！|？";
  hybridCustomSentenceSeparator := "";
  hybridChunkSize := 1000;
  hybridChunkOverlap := 200;
  hybridKeepSeparator := false;
  hybridSemanticThreshold := 0.7
|}.

Definition initial : state := {|
  loadedDocuments := VArr [];
  selectedDoc := "";
  chunkingOption := "by_pages";
  chunks := VNull;
  status := "";
  activeTab := "chunks";
  processingStatus := "";
  chunkedDocuments := [];
  showAdvancedOptions := false;
  parameters := initial_params
|}.

Definition setLoadedDocuments (v : value) (s : state) : state :=
  {| loadedDocuments := v; selectedDoc := selectedDoc s;
     chunkingOption := chunkingOption s; chunks := chunks s;
     status := status s; activeTab := activeTab s;
     processingStatus := processingStatus s;
     chunkedDocuments := chunkedDocuments s;
     showAdvancedOptions := showAdvancedOptions s;
     parameters := parameters s |}.

Definition setSelectedDoc (v : string) (s : state) : state :=
  {| loadedDocuments := loadedDocuments s; selectedDoc := v;
     chunkingOption := chunkingOption s; chunks := chunks s;
     status := status s; activeTab := activeTab s;
     processingStatus := processingStatus s;
     chunkedDocuments := chunkedDocuments s;
     showAdvancedOptions := showAdvancedOptions s;
     parameters := parameters s |}.

Definition setChunkingOption (v : string) (s : state) : state :=
  {| loadedDocuments := loadedDocuments s; selectedDoc := selectedDoc s;
     chunkingOption := v; chunks := chunks s;
     status := status s; activeTab := activeTab s;
     processingStatus := processingStatus s;
     chunkedDocuments := chunkedDocuments s;
     showAdvancedOptions := showAdvancedOptions s;
     parameters := parameters s |}.

Definition setChunks (v : value) (s : state) : state :=
  {| loadedDocuments := loadedDocuments s; selectedDoc := selectedDoc s;
     chunkingOption := chunkingOption s; chunks := v;
     status := status s; activeTab := activeTab s;
     processingStatus := processingStatus s;
     chunkedDocuments := chunkedDocuments s;
     showAdvancedOptions := showAdvancedOptions s;
     parameters := parameters s |}.

Definition setStatus (v : string) (s : state) : state :=
  {| loadedDocuments := loadedDocuments s; selectedDoc := selectedDoc s;
     chunkingOption := chunkingOption s; chunks := chunks s;
     status := v; activeTab := activeTab s;
     processingStatus := processingStatus s;
     chunkedDocuments := chunkedDocuments s;
     showAdvancedOptions := showAdvancedOptions s;
     parameters := parameters s |}.

Definition setActiveTab (v : string) (s : state) : state :=
  {| loadedDocuments := loadedDocuments s; selectedDoc := selectedDoc s;
     chunkingOption := chunkingOption s; chunks := chunks s;
     status := status s; activeTab := v;
     processingStatus := processingStatus s;
     chunkedDocuments := chunkedDocuments s;
     showAdvancedOptions := showAdvancedOptions s;
     parameters := parameters s |}.

Definition setProcessingStatus (v : string) (s : state) : state :=
  {| loadedDocuments := loadedDocuments s; selectedDoc := selectedDoc s;
     chunkingOption := chunkingOption s; chunks := chunks s;
     status := status s; activeTab := activeTab s;
     processingStatus := v;
     chunkedDocuments := chunkedDocuments s;
     showAdvancedOptions := showAdvancedOptions s;
     parameters := parameters s |}.

Definition setChunkedDocuments (v : list value) (s : state) : state :=
  {| loadedDocuments := loadedDocuments s; selectedDoc := selectedDoc s;
     chunkingOption := chunkingOption s; chunks := chunks s;
     status := status s; activeTab := activeTab s;
     processingStatus := processingStatus s;
     chunkedDocuments := v;
     showAdvancedOptions := showAdvancedOptions s;
     parameters := parameters s |}.

Definition setShowAdvancedOptions (v : bool) (s : state) : state :=
  {| loadedDocuments := loadedDocuments s; selectedDoc := selectedDoc s;
     chunkingOption := chunkingOption s; chunks := chunks s;
     status := status s; activeTab := activeTab s;
     processingStatus := processingStatus s;
     chunkedDocuments := chunkedDocuments s;
     showAdvancedOptions := v;
     parameters := parameters s |}.

Definition setParameters (v : params) (s : state) : state :=
  {| loadedDocuments := loadedDocuments s; selectedDoc := selectedDoc s;
     chunkingOption := chunkingOption s; chunks := chunks s;
     status := status s; activeTab := activeTab s;
     processingStatus := processingStatus s;
     chunkedDocuments := chunkedDocuments s;
     showAdvancedOptions := showAdvancedOptions s;
     parameters := v |}.

(** The six [<option>]s of the method select (lines 804-809). *)
Inductive method : Type :=
| by_pages | fixed_size | by_paragraphs | by_sentences | semantic | hybrid.

Definition option_value (m : method) : string :=
  match m with
  | by_pages => "by_pages"
  | fixed_size => "fixed_size"
  | by_paragraphs => "by_paragraphs"
  | by_sentences => "by_sentences"
  | semantic => "semantic"
  | hybrid => "hybrid"
  end.

(** The parameter hooks by name. *)
Inductive field : Type :=
| ChunkSize | ChunkOverlap | MinChunkSize | MaxChunkSize | SemanticThreshold
| MergeEmptyPages | MergeShortPages | MaxPageWords | MinPageWords
| ParagraphSeparator | CustomParagraphSeparator
| SentenceSeparator | CustomSentenceSeparator | KeepSeparator
| SemanticChunkSize | SemanticChunkOverlap
| SemanticSentenceSeparator | SemanticCustomSentenceSeparator
| SemanticKeepSeparator | SemanticMinChunkSize | SemanticMaxChunkSize
| HybridMaxChunkSize | HybridMinChunkSize
| HybridParagraphSeparator | HybridCustomParagraphSeparator
| HybridSentenceSeparator | HybridCustomSentenceSeparator
| HybridChunkSize | HybridChunkOverlap | HybridKeepSeparator
| HybridSemanticThreshold.

Definition read (f : field) (p : params) : value :=
  match f with
  | ChunkSize => VNum (chunkSize p)
  | ChunkOverlap => VNum (chunkOverlap p)
  | MinChunkSize => VNum (minChunkSize p)
  | MaxChunkSize => VNum (maxChunkSize p)
  | SemanticThreshold => VNum (semanticThreshold p)
  | MergeEmptyPages => VBool (mergeEmptyPages p)
  | MergeShortPages => VBool (mergeShortPages p)
  | MaxPageWords => VNum (maxPageWords p)
  | MinPageWords => VNum (minPageWords p)
  | ParagraphSeparator => VStr (paragraphSeparator p)
  | CustomParagraphSeparator => VStr (customParagraphSeparator p)
  | SentenceSeparator => VStr (sentenceSeparator p)
  | CustomSentenceSeparator => VStr (customSentenceSeparator p)
  | KeepSeparator => VBool (keepSeparator p)
  | SemanticChunkSize => VNum (semanticChunkSize p)
  | SemanticChunkOverlap => VNum (semanticChunkOverlap p)
  | SemanticSentenceSeparator => VStr (semanticSentenceSeparator p)
  | SemanticCustomSentenceSeparator => VStr (semanticCustomSentenceSeparator p)
  | SemanticKeepSeparator => VBool (semanticKeepSeparator p)
  | SemanticMinChunkSize => VNum (semanticMinChunkSize p)
  | SemanticMaxChunkSize => VNum (semanticMaxChunkSize p)
  | HybridMaxChunkSize => VNum (hybridMaxChunkSize p)
  | HybridMinChunkSize => VNum (hybridMinChunkSize p)
  | HybridParagraphSeparator => VStr (hybridParagraphSeparator p)
  | HybridCustomParagraphSeparator => VStr (hybridCustomParagraphSeparator p)
  | HybridSentenceSeparator => VStr (hybridSentenceSeparator p)
  | HybridCustomSentenceSeparator => VStr (hybridCustomSentenceSeparator p)
  | HybridChunkSize => VNum (hybridChunkSize p)
  | HybridChunkOverlap => VNum (hybridChunkOverlap p)
  | HybridKeepSeparator => VBool (hybridKeepSeparator p)
  | HybridSemanticThreshold => VNum (hybridSemanticThreshold p)
  end.

(** The hooks that the controls of [renderAdvancedOptions] edit for each
    method (lines 252-645). *)
Definition variant_fields (m : method) : list field :=
  match m with
  | by_pages =>
      [MinChunkSize; MaxPageWords; MinPageWords; MergeEmptyPages; MergeShortPages]
  | fixed_size => [ChunkSize; ChunkOverlap]
  | by_sentences =>
      [ChunkSize; ChunkOverlap; SentenceSeparator; CustomSentenceSeparator;
       KeepSeparator]
  | semantic =>
      [SemanticChunkSize; SemanticChunkOverlap; SemanticSentenceSeparator;
       SemanticCustomSentenceSeparator; SemanticKeepSeparator;
       SemanticThreshold; SemanticMinChunkSize; SemanticMaxChunkSize]
  | hybrid =>
      [HybridMaxChunkSize; HybridMinChunkSize; HybridParagraphSeparator;
       HybridCustomParagraphSeparator; HybridSentenceSeparator;
       HybridCustomSentenceSeparator; HybridChunkSize; HybridChunkOverlap;
       HybridKeepSeparator; HybridSemanticThreshold]
  | by_paragraphs =>
      [MinChunkSize; ParagraphSeparator; CustomParagraphSeparator]
  end.

(** The key of the request body under which [handleChunk] sends a hook
    (lines 153-179); a custom text travels under its selector's key. *)
Definition wire_key (f : field) : string :=
  match f with
  | ChunkSize => "chunk_size"
  | ChunkOverlap => "chunk_overlap"
  | MinChunkSize => "min_chunk_size"
  | MaxChunkSize => "max_chunk_size"
  | SemanticThreshold => "semantic_threshold"
  | MergeEmptyPages => "merge_empty_pages"
  | MergeShortPages => "merge_short_pages"
  | MaxPageWords => "max_page_words"
  | MinPageWords => "min_page_words"
  | ParagraphSeparator | CustomParagraphSeparator => "paragraph_separator"
  | SentenceSeparator | CustomSentenceSeparator => "sentence_separators"
  | KeepSeparator => "keep_separator"
  | SemanticChunkSize => "semantic_chunk_size"
  | SemanticChunkOverlap => "semantic_chunk_overlap"
  | SemanticSentenceSeparator | SemanticCustomSentenceSeparator =>
      "semantic_sentence_separators"
  | SemanticKeepSeparator => "semantic_keep_separator"
  | SemanticMinChunkSize => "semantic_min_chunk_size"
  | SemanticMaxChunkSize => "semantic_max_chunk_size"
  | HybridMaxChunkSize => "hybrid_max_chunk_size"
  | HybridMinChunkSize => "hybrid_min_chunk_size"
  | HybridParagraphSeparator | HybridCustomParagraphSeparator =>
      "hybrid_paragraph_separator"
  | HybridSentenceSeparator | HybridCustomSentenceSeparator =>
      "hybrid_sentence_separators"
  | HybridChunkSize => "hybrid_chunk_size"
  | HybridChunkOverlap => "hybrid_chunk_overlap"
  | HybridKeepSeparator => "hybrid_keep_separator"
  | HybridSemanticThreshold => "hybrid_semantic_threshold"
  end.

Definition strings (xs : list string) : value := VArr (map VStr xs).

(** The object literal handed to [JSON.stringify] (lines 150-180). *)
Definition chunkBody (docId : string) (s : state) : value :=
  let p := parameters s in
  VObj (object [
    ("doc_id", VStr docId);
    ("chunking_option", VStr (chunkingOption s));
    ("chunk_size", VNum (chunkSize p));
    ("chunk_overlap", VNum (chunkOverlap p));
    ("min_chunk_size", VNum (minChunkSize p));
    ("max_chunk_size", VNum (maxChunkSize p));
    ("semantic_threshold", VNum (semanticThreshold p));
    ("merge_empty_pages", VBool (mergeEmptyPages p));
    ("merge_short_pages", VBool (mergeShortPages p));
    ("max_page_words", VNum (maxPageWords p));
    ("min_page_words", VNum (minPageWords p));
    ("paragraph_separator",
      VStr (if String.eqb (paragraphSeparator p) "custom"
            then customParagraphSeparator p else paragraphSeparator p));
    ("sentence_separators",
      if String.eqb (sentenceSeparator p) "custom"
      then strings (split "|" (customSentenceSeparator p))
      else strings (split "|" (sentenceSeparator p)));
    ("keep_separator", VBool (keepSeparator p));
    ("semantic_chunk_size", VNum (semanticChunkSize p));
    ("semantic_chunk_overlap", VNum (semanticChunkOverlap p));
    ("semantic_sentence_separators",
      if String.eqb (semanticSentenceSeparator p) "custom"
      then strings (split "|" (semanticCustomSentenceSeparator p))
      else strings (split "|" (semanticSentenceSeparator p)));
    ("semantic_keep_separator", VBool (semanticKeepSeparator p));
    ("semantic_threshold", VNum (semanticThreshold p));
    ("semantic_min_chunk_size", VNum (semanticMinChunkSize p));
    ("semantic_max_chunk_size", VNum (semanticMaxChunkSize p));
    ("hybrid_max_chunk_size", VNum (hybridMaxChunkSize p));
    ("hybrid_min_chunk_size", VNum (hybridMinChunkSize p));
    ("hybrid_paragraph_separator",
      VStr (if String.eqb (hybridParagraphSeparator p) "custom"
            then hybridCustomParagraphSeparator p
            else hybridParagraphSeparator p));
    ("hybrid_sentence_separators",
      if String.eqb (hybridSentenceSeparator p) "custom"
      then strings (split "|" (hybridCustomSentenceSeparator p))
      else strings (split "|" (hybridSentenceSeparator p)));
    ("hybrid_chunk_size", VNum (hybridChunkSize p));
    ("hybrid_chunk_overlap", VNum (hybridChunkOverlap p));
    ("hybrid_keep_separator", VBool (hybridKeepSeparator p));
    ("hybrid_semantic_threshold", VNum (hybridSemanticThreshold p))
  ]).

(** The keys of that object in the order [JSON.stringify] writes them (a key
    written twice stands where it is first written). *)
Definition bodyKeys : list string := [
  "doc_id"; "chunking_option"; "chunk_size"; "chunk_overlap";
  "min_chunk_size"; "max_chunk_size"; "semantic_threshold";
  "merge_empty_pages"; "merge_short_pages"; "max_page_words";
  "min_page_words"; "paragraph_separator"; "sentence_separators";
  "keep_separator"; "semantic_chunk_size"; "semantic_chunk_overlap";
  "semantic_sentence_separators"; "semantic_keep_separator";
  "semantic_min_chunk_size"; "semantic_max_chunk_size";
  "hybrid_max_chunk_size"; "hybrid_min_chunk_size";
  "hybrid_paragraph_separator"; "hybrid_sentence_separators";
  "hybrid_chunk_size"; "hybrid_chunk_overlap"; "hybrid_keep_separator";
  "hybrid_semantic_threshold"].

Section Handlers.
Context {eng : engine} {env : environment}.

(** The callback of [chunkedData.documents.map] (lines 100-122). *)
Definition withDetails (doc : value) : M state value :=
  try_catch
    (name <- lift (get_prop doc "name") ;;
     detailResponse <-
       fetch (get (apiBaseUrl ++ "/documents/" ++ to_string name ++ "?type=chunked")) ;;
     if negb (ok detailResponse) then ret doc
     else
       detailData <- lift (json detailResponse) ;;
       total_pages <- lift (get_prop detailData "total_pages") ;;
       total_chunks <- lift (get_prop detailData "total_chunks") ;;
       chunking_method <- lift (get_prop detailData "chunking_method") ;;
       chunking_config <- lift (get_prop detailData "chunking_config") ;;
       timestamp <- lift (get_prop detailData "timestamp") ;;
       ret (VObj (obj_set "timestamp" timestamp
                 (obj_set "chunking_config" chunking_config
                 (obj_set "chunking_method" chunking_method
                 (obj_set "total_chunks" total_chunks
                 (obj_set "total_pages" total_pages (spread doc))))))))
    (fun _ => ret doc).

(** [fetchLoadedDocuments] (lines 81-131): the two registry lists, then the
    detail of every chunked document. *)
Definition fetchLoadedDocuments : M state unit :=
  try_catch
    (response <- fetch (get (apiBaseUrl ++ "/documents?type=loaded")) ;;
     data <- lift (json response) ;;
     documents <- lift (get_prop data "documents") ;;
     update (setLoadedDocuments documents) ;;
     chunkedResponse <- fetch (get (apiBaseUrl ++ "/documents?type=chunked")) ;;
     if negb (ok chunkedResponse) then throw (http_error chunkedResponse)
     else
       chunkedData <- lift (json chunkedResponse) ;;
       chunkedDocs <- lift (get_prop chunkedData "documents") ;;
       match chunkedDocs with
       | VArr docs =>
           chunkedDocsWithDetails <- mapM withDetails docs ;;
           update (setChunkedDocuments chunkedDocsWithDetails)
       | _ => ret tt
       end)
    (fun error =>
       update (setProcessingStatus ("Error fetching documents: " ++ message error))).

(** [docId] (line 143). *)
Definition docId (selected : string) : string :=
  if endsWith selected ".json" then selected else selected ++ ".json".

(** The request of lines 145-181. *)
Definition chunkRequest (s : state) : request :=
  {| req_method := POST;
     req_url := apiBaseUrl ++ "/chunk";
     req_headers := [("Content-Type", "application/json")];
     req_body := JsonBody (chunkBody (docId (selectedDoc s)) s) |}.

(** [handleChunk] (lines 133-208).  The call of [fetchLoadedDocuments] is not
    awaited; it is run where it is called, and it writes no hook that the rest
    of the handler writes. *)
Definition handleChunk (s : state) : M state unit :=
  if negb (truthy (VStr (selectedDoc s))) || negb (truthy (VStr (chunkingOption s)))
  then update (setStatus "请选择文档和分块方法")
  else
    update (setStatus "处理中...") ;;
    update (setChunks VNull) ;;
    try_catch
      (response <- fetch (chunkRequest s) ;;
       if negb (ok response) then throw (http_error response)
       else
         data <- lift (json response) ;;
         filename <- lift (get_prop data "filename") ;;
         total_pages <- lift (get_prop data "total_pages") ;;
         total_chunks <- lift (get_prop data "total_chunks") ;;
         loading_method <- lift (get_prop data "loading_method") ;;
         chunking_method <- lift (get_prop data "chunking_method") ;;
         chunking_config <- lift (get_prop data "chunking_config") ;;
         timestamp <- lift (get_prop data "timestamp") ;;
         chunks' <- lift (get_prop data "chunks") ;;
         update (setChunks (VObj (object [
           ("filename", filename);
           ("total_pages", total_pages);
           ("total_chunks", total_chunks);
           ("loading_method", loading_method);
           ("chunking_method", chunking_method);
           ("chunking_config", chunking_config);
           ("timestamp", timestamp);
           ("chunks", chunks')]))) ;;
         update (setStatus "分块完成！") ;;
         fetchLoadedDocuments)
      (fun error => update (setStatus ("错误: " ++ message error))).

(** [handleDeleteDocument] (lines 210-230). *)
Definition handleDeleteDocument (docName : string) (s : state) : M state unit :=
  try_catch
    (response <-
       fetch (delete (apiBaseUrl ++ "/documents/" ++ docName ++ "?type=chunked")) ;;
     if negb (ok response) then throw (http_error response)
     else
       update (setProcessingStatus "文档删除成功") ;;
       fetchLoadedDocuments ;;
       if String.eqb (selectedDoc s) docName
       then update (setSelectedDoc "") ;; update (setChunks VNull)
       else ret tt)
    (fun error =>
       update (setProcessingStatus ("删除文档时出错: " ++ message error))).

(** [handleViewDocument] (lines 232-245). *)
Definition handleViewDocument (docName : string) (s : state) : M state unit :=
  try_catch
    (response <-
       fetch (get (apiBaseUrl ++ "/documents/" ++ docName ++ "?type=chunked")) ;;
     if negb (ok response) then throw (http_error response)
     else
       data <- lift (json response) ;;
       update (setChunks data) ;;
       update (setActiveTab "chunks"))
    (fun error =>
       update (setProcessingStatus ("查看文档时出错: " ++ message error))).

(** The [onChange] of the document select (line 785) and of the method select
    (line 801). *)
Definition selectDocument (v : string) (s : state) : M state unit :=
  update (setSelectedDoc v).

Definition selectMethod (v : string) (s : state) : M state unit :=
  update (setChunkingOption v).

(** A card of the chunk list (lines 703-714). *)
Record row : Type := {
  chunk_id : value;
  page_range : value;
  word_count : value;
  content : value
}.

Definition renderChunk (chunk : value) : outcome row :=
  obind (get_prop chunk "metadata") (fun metadata =>
  obind (get_prop metadata "chunk_id") (fun id =>
  obind (get_prop metadata "page_range") (fun pages =>
  obind (get_prop metadata "word_count") (fun words =>
  obind (get_prop chunk "content") (fun text =>
  Return {| chunk_id := id; page_range := pages; word_count := words;
            content := text |}))))).

(** The preview tab of [renderRightPanel] (lines 676-720), for the value of
    the [chunks] hook. *)
Definition renderPreview (result : value) : outcome (preview row) :=
  if truthy result then
    obind (get_prop result "chunks") (fun segs =>
      match segs with
      | VArr items => obind (mapO renderChunk items) (fun rows => Return (Result (Cards rows)))
      | _ => Return (Result Blank)
      end)
  else Return (Placeholder "选择文档并创建分块以查看结果").

End Handlers.

End ChunkFile.

(** ** LoadFile.jsx *)

Module LoadFile.
Import JS Fx View.

Record state : Type := {
  file : option File;
  loadingMethod : string;
  unstructuredStrategy : string;
  loadedContent : value;
  status : string;
  documents : value;
  activeTab : string;
  selectedDoc : value;
  fileType : option string;
  textConfig : list (string * value);
  unstructuredConfig : list (string * value);
  csvConfig : list (string * value)
}.

Definition initial : state := {|
  file := None;
  loadingMethod := "pymupdf";
  unstructuredStrategy := "fast";
  loadedContent := VNull;
  status := "";
  documents := VArr [];
  activeTab := "preview";
  selectedDoc := VNull;
  fileType := None;
  textConfig := object [
    ("encoding", VStr "utf-8");
    ("preserveNewlines", VBool true);
    ("autoDetectEncoding", VBool false)];
  unstructuredConfig := object [
    ("strategy", VStr "fast");
    ("include_page_breaks", VBool true);
    ("include_metadata", VBool true);
    ("languages", VArr [VStr "eng"]);
    ("pdf_image_processor", VStr "auto")];
  csvConfig := object [
    ("delimiter", VStr "");
    ("hasHeader", VStr "");
    ("sourceColumn", VStr "")]
|}.

Definition setFile (v : option File) (s : state) : state :=
  {| file := v; loadingMethod := loadingMethod s;
     unstructuredStrategy := unstructuredStrategy s;
     loadedContent := loadedContent s; status := status s;
     documents := documents s; activeTab := activeTab s;
     selectedDoc := selectedDoc s; fileType := fileType s;
     textConfig := textConfig s; unstructuredConfig := unstructuredConfig s;
     csvConfig := csvConfig s |}.

Definition setLoadingMethod (v : string) (s : state) : state :=
  {| file := file s; loadingMethod := v;
     unstructuredStrategy := unstructuredStrategy s;
     loadedContent := loadedContent s; status := status s;
     documents := documents s; activeTab := activeTab s;
     selectedDoc := selectedDoc s; fileType := fileType s;
     textConfig := textConfig s; unstructuredConfig := unstructuredConfig s;
     csvConfig := csvConfig s |}.

Definition setLoadedContent (v : value) (s : state) : state :=
  {| file := file s; loadingMethod := loadingMethod s;
     unstructuredStrategy := unstructuredStrategy s;
     loadedContent := v; status := status s;
     documents := documents s; activeTab := activeTab s;
     selectedDoc := selectedDoc s; fileType := fileType s;
     textConfig := textConfig s; unstructuredConfig := unstructuredConfig s;
     csvConfig := csvConfig s |}.

Definition setStatus (v : string) (s : state) : state :=
  {| file := file s; loadingMethod := loadingMethod s;
     unstructuredStrategy := unstructuredStrategy s;
     loadedContent := loadedContent s; status := v;
     documents := documents s; activeTab := activeTab s;
     selectedDoc := selectedDoc s; fileType := fileType s;
     textConfig := textConfig s; unstructuredConfig := unstructuredConfig s;
     csvConfig := csvConfig s |}.

Definition setDocuments (v : value) (s : state) : state :=
  {| file := file s; loadingMethod := loadingMethod s;
     unstructuredStrategy := unstructuredStrategy s;
     loadedContent := loadedContent s; status := status s;
     documents := v; activeTab := activeTab s;
     selectedDoc := selectedDoc s; fileType := fileType s;
     textConfig := textConfig s; unstructuredConfig := unstructuredConfig s;
     csvConfig := csvConfig s |}.

Definition setActiveTab (v : string) (s : state) : state :=
  {| file := file s; loadingMethod := loadingMethod s;
     unstructuredStrategy := unstructuredStrategy s;
     loadedContent := loadedContent s; status := status s;
     documents := documents s; activeTab := v;
     selectedDoc := selectedDoc s; fileType := fileType s;
     textConfig := textConfig s; unstructuredConfig := unstructuredConfig s;
     csvConfig := csvConfig s |}.

Definition setSelectedDoc (v : value) (s : state) : state :=
  {| file := file s; loadingMethod := loadingMethod s;
     unstructuredStrategy := unstructuredStrategy s;
     loadedContent := loadedContent s; status := status s;
     documents := documents s; activeTab := activeTab s;
     selectedDoc := v; fileType := fileType s;
     textConfig := textConfig s; unstructuredConfig := unstructuredConfig s;
     csvConfig := csvConfig s |}.

Definition setFileType (v : option string) (s : state) : state :=
  {| file := file s; loadingMethod := loadingMethod s;
     unstructuredStrategy := unstructuredStrategy s;
     loadedContent := loadedContent s; status := status s;
     documents := documents s; activeTab := activeTab s;
     selectedDoc := selectedDoc s; fileType := v;
     textConfig := textConfig s; unstructuredConfig := unstructuredConfig s;
     csvConfig := csvConfig s |}.

Definition setTextConfig (v : list (string * value)) (s : state) : state :=
  {| file := file s; loadingMethod := loadingMethod s;
     unstructuredStrategy := unstructuredStrategy s;
     loadedContent := loadedContent s; status := status s;
     documents := documents s; activeTab := activeTab s;
     selectedDoc := selectedDoc s; fileType := fileType s;
     textConfig := v; unstructuredConfig := unstructuredConfig s;
     csvConfig := csvConfig s |}.

Definition setUnstructuredConfig (v : list (string * value)) (s : state) : state :=
  {| file := file s; loadingMethod := loadingMethod s;
     unstructuredStrategy := unstructuredStrategy s;
     loadedContent := loadedContent s; status := status s;
     documents := documents s; activeTab := activeTab s;
     selectedDoc := selectedDoc s; fileType := fileType s;
     textConfig := textConfig s; unstructuredConfig := v;
     csvConfig := csvConfig s |}.

Definition setCsvConfig (v : list (string * value)) (s : state) : state :=
  {| file := file s; loadingMethod := loadingMethod s;
     unstructuredStrategy := unstructuredStrategy s;
     loadedContent := loadedContent s; status := status s;
     documents := documents s; activeTab := activeTab s;
     selectedDoc := selectedDoc s; fileType := fileType s;
     textConfig := textConfig s; unstructuredConfig := unstructuredConfig s;
     csvConfig := v |}.

(** [o.k] on a config object. *)
Definition prop (o : list (string * value)) (k : string) : value :=
  match lookup k o with Some x => x | None => VUndefined end.

(** [e.target] of a change event on a config control. *)
Record target : Type := {
  name : string;
  value_ : string;
  type : string;
  checked : bool
}.

Definition changed (t : target) (prev : list (string * value)) : list (string * value) :=
  obj_set (name t) (if String.eqb (type t) "checkbox" then VBool (checked t)
                    else VStr (value_ t)) prev.

Section Handlers.
Context {eng : engine} {env : environment}.

(** [handleFileChange] (lines 44-62); [picked] is [e.target.files[0]]. *)
Definition handleFileChange (picked : option File) (s : state) : M state unit :=
  match picked with
  | Some selectedFile =>
      let fileExt := toLowerCase (pop (split "." (file_name selectedFile))) in
      update (setFileType (Some fileExt)) ;;
      update (setFile (Some selectedFile)) ;;
      if String.eqb fileExt "txt" then update (setLoadingMethod "text")
      else if String.eqb fileExt "pdf" then update (setLoadingMethod "pymupdf")
      else if String.eqb fileExt "csv" then update (setLoadingMethod "csv")
      else if String.eqb fileExt "md" then update (setLoadingMethod "md")
      else ret tt
  | None => ret tt
  end.

(** Lines 64-86. *)
Definition handleTextConfigChange (t : target) (s : state) : M state unit :=
  update (fun cur => setTextConfig (changed t (textConfig cur)) cur).

Definition handleUnstructuredConfigChange (t : target) (s : state) : M state unit :=
  update (fun cur => setUnstructuredConfig (changed t (unstructuredConfig cur)) cur).

Definition handleCsvConfigChange (t : target) (s : state) : M state unit :=
  update (fun cur => setCsvConfig (changed t (csvConfig cur)) cur).

(** [fetchDocuments] (lines 88-96). *)
Definition fetchDocuments : M state unit :=
  try_catch
    (response <- fetch (get (apiBaseUrl ++ "/documents?type=loaded")) ;;
     data <- lift (json response) ;;
     docs <- lift (get_prop data "documents") ;;
     update (setDocuments docs))
    (fun _ => ret tt).

(** The [FormData] of lines 108-124. *)
Definition formData (f : File) (s : state) : list (string * form_value) :=
  [("file", FormFile f); ("loading_method", FormText (loadingMethod s))] ++
  (if String.eqb (loadingMethod s) "unstructured" then
     [("strategy", FormText (to_string (prop (unstructuredConfig s) "strategy")));
      ("chunking_options", FormJson (VObj (object [
         ("include_page_breaks", prop (unstructuredConfig s) "include_page_breaks");
         ("include_metadata", prop (unstructuredConfig s) "include_metadata");
         ("languages", prop (unstructuredConfig s) "languages");
         ("pdf_image_processor", prop (unstructuredConfig s) "pdf_image_processor")])))]
   else if String.eqb (loadingMethod s) "text" then
     [("text_config", FormJson (VObj (textConfig s)))]
   else if String.eqb (loadingMethod s) "csv" then
     [("csv_config", FormJson (VObj (csvConfig s)))]
   else []).

Definition loadRequest (f : File) (s : state) : request :=
  {| req_method := POST;
     req_url := apiBaseUrl ++ "/load";
     req_headers := [];
     req_body := FormBody (formData f s) |}.

Definition csvHelp (msg : string) : string :=
  "CSV文件加载错误: " ++ msg ++ nl ++ "请检查：" ++ nl ++ "1. 文件编码是否正确" ++ nl ++
  "2. 分隔符是否匹配" ++ nl ++ "3. 是否包含特殊字符" ++ nl ++ "4. 列名是否正确".

(** [handleProcess] (lines 98-152). *)
Definition handleProcess (s : state) : M state unit :=
  match file s with
  | Some f =>
      if negb (truthy (VStr (loadingMethod s)))
      then update (setStatus "请选择所有必需的选项")
      else
        update (setStatus "加载中...") ;;
        update (setLoadedContent VNull) ;;
        try_catch
          (response <- fetch (loadRequest f s) ;;
           if negb (ok response) then
             errorData <- lift (json response) ;;
             detail <- lift (get_prop errorData "detail") ;;
             throw (Error (to_string
                      (if truthy detail then detail
                       else VStr (message (http_error response)))))
           else
             data <- lift (json response) ;;
             loaded_content <- lift (get_prop data "loaded_content") ;;
             update (setLoadedContent loaded_content) ;;
             update (setStatus "文件加载成功！") ;;
             fetchDocuments ;;
             update (setActiveTab "preview"))
          (fun error =>
             update (setStatus ("错误: " ++ message error)) ;;
             if includes (message error) "CSV"
             then update (setStatus (csvHelp (message error)))
             else update (setStatus ("错误: " ++ message error)))
  | None => update (setStatus "请选择所有必需的选项")
  end.

(** [handleDeleteDocument] (lines 154-174). *)
Definition handleDeleteDocument (docName : string) (s : state) : M state unit :=
  try_catch
    (response <- fetch (delete (apiBaseUrl ++ "/documents/" ++ docName)) ;;
     if negb (ok response) then throw (http_error response)
     else
       update (setStatus "Document deleted successfully") ;;
       fetchDocuments ;;
       if is_str (get_prop_opt (selectedDoc s) "name") docName
       then update (setSelectedDoc VNull) ;; update (setLoadedContent VNull)
       else ret tt)
    (fun error => update (setStatus ("Error deleting document: " ++ message error))).

(** [handleViewDocument] (lines 176-192). *)
Definition handleViewDocument (doc : value) (s : state) : M state unit :=
  try_catch
    (update (setStatus "Loading document...") ;;
     docName <- lift (get_prop doc "name") ;;
     response <-
       fetch (get (apiBaseUrl ++ "/documents/" ++ to_string docName ++ ".json")) ;;
     if negb (ok response) then throw (http_error response)
     else
       data <- lift (json response) ;;
       update (setSelectedDoc doc) ;;
       update (setLoadedContent data) ;;
       update (setActiveTab "preview") ;;
       update (setStatus ""))
    (fun error => update (setStatus ("Error loading document: " ++ message error))).

(** A card of the chunk list (lines 269-279). *)
Record row : Type := {
  chunk_id : value;
  page_number : value;
  word_count : value;
  page_range : value;
  content : value
}.

Definition renderChunk (chunk : value) : outcome row :=
  obind (get_prop chunk "metadata") (fun metadata =>
  obind (get_prop metadata "chunk_id") (fun id =>
  obind (get_prop metadata "page_number") (fun page =>
  obind (get_prop metadata "word_count") (fun words =>
  obind (get_prop metadata "page_range") (fun pages =>
  obind (get_prop chunk "content") (fun text =>
  Return {| chunk_id := id; page_number := page; word_count := words;
            page_range := pages; content := text |})))))).

(** The guard of the text metadata block (line 249). *)
Definition textMetadata (result : value) : outcome value :=
  obind (get_prop result "loading_method") (fun method =>
    if is_str method "text" then
      obind (get_prop result "chunks") (fun segs =>
      obind (get_index segs 0) (fun first =>
      Return (get_prop_opt first "metadata")))
    else Return (VBool false)).

(** [xs.map(f)] where [xs] is the value read from [what]. *)
Definition array_map {A} (what : string) (xs : value) (f : value -> outcome A)
  : outcome (list A) :=
  match xs with
  | VArr items => mapO f items
  | VUndefined | VNull => Throw (TypeError (cannot_read xs "map"))
  | _ => Throw (TypeError (not_a_function (what ++ ".map")))
  end.

(** The preview tab of [renderRightPanel] (lines 222-285), for the value of
    the [loadedContent] hook. *)
Definition renderPreview (result : value) : outcome (preview row) :=
  if truthy result then
    obind (textMetadata result) (fun _ =>
    obind (get_prop result "chunks") (fun segs =>
    obind (array_map "loadedContent.chunks" segs renderChunk) (fun rows =>
    Return (Result (Cards rows)))))
  else Return (Placeholder
    "Upload and load a file or select an existing document to see the results here").

End Handlers.

End LoadFile.

(** ** ParseFile.jsx *)

Module ParseFile.
Import JS Fx View.

Record state : Type := {
  file : option File;
  loadingMethod : string;
  parsingOption : string;
  parsedContent : value;
  status : string;
  docName : string;
  isProcessed : bool;
  fileType : string;
  tab : string;
  parsedDocs : value;
  parsedLoading : bool;
  parsedError : string
}.

Definition initial : state := {|
  file := None;
  loadingMethod := "pymupdf";
  parsingOption := "all_text";
  parsedContent := VNull;
  status := "";
  docName := "";
  isProcessed := false;
  fileType := "pdf";
  tab := "preview";
  parsedDocs := VArr [];
  parsedLoading := false;
  parsedError := ""
|}.

Definition setFile (v : option File) (s : state) : state :=
  {| file := v; loadingMethod := loadingMethod s;
     parsingOption := parsingOption s; parsedContent := parsedContent s;
     status := status s; docName := docName s; isProcessed := isProcessed s;
     fileType := fileType s; tab := tab s; parsedDocs := parsedDocs s;
     parsedLoading := parsedLoading s; parsedError := parsedError s |}.

Definition setLoadingMethod (v : string) (s : state) : state :=
  {| file := file s; loadingMethod := v;
     parsingOption := parsingOption s; parsedContent := parsedContent s;
     status := status s; docName := docName s; isProcessed := isProcessed s;
     fileType := fileType s; tab := tab s; parsedDocs := parsedDocs s;
     parsedLoading := parsedLoading s; parsedError := parsedError s |}.

Definition setParsingOption (v : string) (s : state) : state :=
  {| file := file s; loadingMethod := loadingMethod s;
     parsingOption := v; parsedContent := parsedContent s;
     status := status s; docName := docName s; isProcessed := isProcessed s;
     fileType := fileType s; tab := tab s; parsedDocs := parsedDocs s;
     parsedLoading := parsedLoading s; parsedError := parsedError s |}.

Definition setParsedContent (v : value) (s : state) : state :=
  {| file := file s; loadingMethod := loadingMethod s;
     parsingOption := parsingOption s; parsedContent := v;
     status := status s; docName := docName s; isProcessed := isProcessed s;
     fileType := fileType s; tab := tab s; parsedDocs := parsedDocs s;
     parsedLoading := parsedLoading s; parsedError := parsedError s |}.

Definition setStatus (v : string) (s : state) : state :=
  {| file := file s; loadingMethod := loadingMethod s;
     parsingOption := parsingOption s; parsedContent := parsedContent s;
     status := v; docName := docName s; isProcessed := isProcessed s;
     fileType := fileType s; tab := tab s; parsedDocs := parsedDocs s;
     parsedLoading := parsedLoading s; parsedError := parsedError s |}.

Definition setDocName (v : string) (s : state) : state :=
  {| file := file s; loadingMethod := loadingMethod s;
     parsingOption := parsingOption s; parsedContent := parsedContent s;
     status := status s; docName := v; isProcessed := isProcessed s;
     fileType := fileType s; tab := tab s; parsedDocs := parsedDocs s;
     parsedLoading := parsedLoading s; parsedError := parsedError s |}.

Definition setIsProcessed (v : bool) (s : state) : state :=
  {| file := file s; loadingMethod := loadingMethod s;
     parsingOption := parsingOption s; parsedContent := parsedContent s;
     status := status s; docName := docName s; isProcessed := v;
     fileType := fileType s; tab := tab s; parsedDocs := parsedDocs s;
     parsedLoading := parsedLoading s; parsedError := parsedError s |}.

Definition setFileType (v : string) (s : state) : state :=
  {| file := file s; loadingMethod := loadingMethod s;
     parsingOption := parsingOption s; parsedContent := parsedContent s;
     status := status s; docName := docName s; isProcessed := isProcessed s;
     fileType := v; tab := tab s; parsedDocs := parsedDocs s;
     parsedLoading := parsedLoading s; parsedError := parsedError s |}.

Definition setTab (v : string) (s : state) : state :=
  {| file := file s; loadingMethod := loadingMethod s;
     parsingOption := parsingOption s; parsedContent := parsedContent s;
     status := status s; docName := docName s; isProcessed := isProcessed s;
     fileType := fileType s; tab := v; parsedDocs := parsedDocs s;
     parsedLoading := parsedLoading s; parsedError := parsedError s |}.

Definition setParsedDocs (v : value) (s : state) : state :=
  {| file := file s; loadingMethod := loadingMethod s;
     parsingOption := parsingOption s; parsedContent := parsedContent s;
     status := status s; docName := docName s; isProcessed := isProcessed s;
     fileType := fileType s; tab := tab s; parsedDocs := v;
     parsedLoading := parsedLoading s; parsedError := parsedError s |}.

Definition setParsedLoading (v : bool) (s : state) : state :=
  {| file := file s; loadingMethod := loadingMethod s;
     parsingOption := parsingOption s; parsedContent := parsedContent s;
     status := status s; docName := docName s; isProcessed := isProcessed s;
     fileType := fileType s; tab := tab s; parsedDocs := parsedDocs s;
     parsedLoading := v; parsedError := parsedError s |}.

Definition setParsedError (v : string) (s : state) : state :=
  {| file := file s; loadingMethod := loadingMethod s;
     parsingOption := parsingOption s; parsedContent := parsedContent s;
     status := status s; docName := docName s; isProcessed := isProcessed s;
     fileType := fileType s; tab := tab s; parsedDocs := parsedDocs s;
     parsedLoading := parsedLoading s; parsedError := v |}.

(** [fileTypeConfig] (lines 23-48): the option values per file type. *)
Definition loadingMethods (fileType : string) : list string :=
  if String.eqb fileType "md" then ["markdown"]
  else ["pymupdf"; "pypdf"; "unstructured"; "pdfplumber"].

Definition parsingOptions (fileType : string) : list string :=
  if String.eqb fileType "md" then ["all_text"; "by_sections"; "text_and_tables"]
  else ["all_text"; "by_pages"; "by_titles"; "text_and_tables"].

(** [name.replace(/\.[^/.]+$/, '')]: the text from the last dot on is dropped
    when it is a dot followed by one or more characters other than a slash. *)
Definition baseName (name : string) : string :=
  match rev (split "." name) with
  | ext :: ((_ :: _) as before) =>
      if negb (String.eqb ext "") && negb (includes ext "/")
      then join "." (rev before) else name
  | _ => name
  end.

(** [xs.filter(f)] where [xs] is the value of a hook. *)
Fixpoint filterO (f : value -> outcome bool) (xs : list value) : outcome (list value) :=
  match xs with
  | [] => Return []
  | x :: rest =>
      obind (f x) (fun keep =>
      obind (filterO f rest) (fun ys => Return (if keep then x :: ys else ys)))
  end.

Section Handlers.
Context {eng : engine} {env : environment}.

(** [handleFileSelect] (lines 51-68); [picked] is [e.target.files[0]]. *)
Definition handleFileSelect (picked : option File) (s : state) : M state unit :=
  match picked with
  | Some f =>
      update (setFile (Some f)) ;;
      update (setDocName (baseName (file_name f))) ;;
      let extension := toLowerCase (pop (split "." (file_name f))) in
      let newFileType := if String.eqb extension "md" then "md" else "pdf" in
      update (setFileType newFileType) ;;
      update (setLoadingMethod (hd "" (loadingMethods newFileType))) ;;
      update (setParsingOption (hd "" (parsingOptions newFileType)))
  | None => ret tt
  end.

Definition parseRequest (f : File) (s : state) : request :=
  {| req_method := POST;
     req_url := apiBaseUrl ++ "/parse";
     req_headers := [];
     req_body := FormBody [
       ("file", FormFile f);
       ("loading_method", FormText (loadingMethod s));
       ("parsing_option", FormText (parsingOption s));
       ("file_type", FormText (fileType s))] |}.

(** [handleProcess] (lines 71-101). *)
Definition handleProcess (s : state) : M state unit :=
  match file s with
  | Some f =>
      if negb (truthy (VStr (loadingMethod s))) || negb (truthy (VStr (parsingOption s)))
      then update (setStatus "请选择所有必需的选项")
      else
        update (setStatus "处理中...") ;;
        update (setParsedContent VNull) ;;
        update (setIsProcessed false) ;;
        try_catch
          (response <- fetch (parseRequest f s) ;;
           if negb (ok response) then throw (http_error response)
           else
             data <- lift (json response) ;;
             parsed_content <- lift (get_prop data "parsed_content") ;;
             update (setParsedContent parsed_content) ;;
             update (setStatus "处理完成！") ;;
             update (setIsProcessed true))
          (fun error => update (setStatus ("错误: " ++ message error)))
  | None => update (setStatus "请选择所有必需的选项")
  end.

(** [fetchParsedDocs] (lines 104-115). *)
Definition fetchParsedDocs : M state unit :=
  update (setParsedLoading true) ;;
  update (setParsedError "") ;;
  try_catch
    (res <- fetch (get (apiBaseUrl ++ "/parsed-docs")) ;;
     data <- lift (json res) ;;
     docs <- lift (get_prop data "documents") ;;
     update (setParsedDocs (if truthy docs then docs else VArr [])))
    (fun _ => update (setParsedError "获取解析文档失败")) ;;
  update (setParsedLoading false).

(** [handleViewParsed] (lines 118-127). *)
Definition handleViewParsed (name : string) (s : state) : M state unit :=
  try_catch
    (res <- fetch (get (apiBaseUrl ++ "/parsed-docs/" ++ name)) ;;
     data <- lift (json res) ;;
     update (setParsedContent data) ;;
     update (setTab "preview"))
    (fun _ => update (setParsedContent VNull)).

(** [parsedDocs.filter(d => d.name !== docName)] (line 134). *)
Definition withoutDoc (name : string) (docs : value) : outcome value :=
  match docs with
  | VArr items =>
      obind (filterO (fun d => obind (get_prop d "name") (fun n =>
                                 Return (negb (is_str n name)))) items)
            (fun kept => Return (VArr kept))
  | VUndefined | VNull => Throw (TypeError (cannot_read docs "filter"))
  | _ => Throw (TypeError (not_a_function "parsedDocs.filter"))
  end.

(** [handleDeleteParsed] (lines 130-138). *)
Definition handleDeleteParsed (name : string) (s : state) : M state unit :=
  confirmed <- window_confirm ("确定要删除 " ++ name ++ " 吗？") ;;
  if negb confirmed then ret tt
  else
    try_catch
      (_ <- fetch (delete (apiBaseUrl ++ "/parsed-docs/" ++ name)) ;;
       docs <- lift (withoutDoc name (parsedDocs s)) ;;
       update (setParsedDocs docs))
      (fun _ => alert "删除失败").

(** A click on a tab button (lines 205, 211) with the effect of lines
    140-142, which runs when [tab] has changed. *)
Definition selectTab (v : string) (s : state) : M state unit :=
  update (setTab v) ;;
  if negb (String.eqb (tab s) v) && String.eqb v "manage"
  then fetchParsedDocs else ret tt.

(** A card of the content list (lines 232-246). *)
Record row : Type := {
  kind : value;
  page : option value;
  level : option value;
  title : option value;
  content : value
}.

Definition renderItem (item : value) : outcome row :=
  obind (get_prop item "type") (fun type =>
  obind (get_prop item "page") (fun page =>
  obind (get_prop item "level") (fun level =>
  obind (get_prop item "title") (fun title =>
  obind (get_prop item "content") (fun text =>
  Return {| kind := type;
            page := if nullish page then None else Some page;
            level := if truthy level then Some level else None;
            title := if truthy title then Some title else None;
            content := text |}))))).

Definition emptyText : string := "无内容，建议检查后端返回结构或文档格式".

(** The preview tab (lines 217-255), for the value of the [parsedContent]
    hook. *)
Definition renderPreview (result : value) : outcome (preview row) :=
  if truthy result then
    match get_prop_opt result "content" with
    | VArr ((_ :: _) as items) =>
        obind (mapO renderItem items) (fun rows => Return (Result (Cards rows)))
    | _ => Return (Result (EmptyState emptyText))
    end
  else Return (Placeholder "Upload and parse a file to see the results here").

End Handlers.

End ParseFile.

(** ** The three stage controllers side by side *)

Module Stage.
Import JS Fx View.

Inductive stage : Type := Load | Chunk | Parse.

Definition state (st : stage) : Type :=
  match st with
  | Load => LoadFile.state
  | Chunk => ChunkFile.state
  | Parse => ParseFile.state
  end.

(** The hook that holds the displayed result. *)
Definition result (st : stage) : state st -> value :=
  match st with
  | Load => LoadFile.loadedContent
  | Chunk => ChunkFile.chunks
  | Parse => ParseFile.parsedContent
  end.

(** The hook that holds the status message of the submit button. *)
Definition status (st : stage) : state st -> string :=
  match st with
  | Load => LoadFile.status
  | Chunk => ChunkFile.status
  | Parse => ParseFile.status
  end.

Definition setStatus (st : stage) : string -> state st -> state st :=
  match st with
  | Load => LoadFile.setStatus
  | Chunk => ChunkFile.setStatus
  | Parse => ParseFile.setStatus
  end.

(** An input document or file is selected. *)
Definition inputSelected (st : stage) : state st -> bool :=
  match st with
  | Load => fun s => match LoadFile.file s with Some _ => true | None => false end
  | Chunk => fun s => negb (String.eqb (ChunkFile.selectedDoc s) "")
  | Parse => fun s => match ParseFile.file s with Some _ => true | None => false end
  end.

(** Every method select of the stage holds a method. *)
Definition methodSelected (st : stage) : state st -> bool :=
  match st with
  | Load => fun s => negb (String.eqb (LoadFile.loadingMethod s) "")
  | Chunk => fun s => negb (String.eqb (ChunkFile.chunkingOption s) "")
  | Parse => fun s => negb (String.eqb (ParseFile.loadingMethod s) "") &&
                      negb (String.eqb (ParseFile.parsingOption s) "")
  end.

(** The status text shown when a selection is missing. *)
Definition missingSelection (st : stage) : string :=
  match st with
  | Load => "请选择所有必需的选项"
  | Chunk => "请选择文档和分块方法"
  | Parse => "请选择所有必需的选项"
  end.

(** The status text shown while the request is in flight. *)
Definition inFlight (st : stage) : string :=
  match st with
  | Load => "加载中..."
  | Chunk => "处理中..."
  | Parse => "处理中..."
  end.

(** The name of the segments field of a result. *)
Definition segmentsField (st : stage) : string :=
  match st with
  | Load => "chunks"
  | Chunk => "chunks"
  | Parse => "content"
  end.

(** What a preview shows, the cards counted. *)
Inductive shape : Type :=
| ShowsPlaceholder
| ShowsCards (n : nat)
| ShowsNothing
| ShowsEmptyState (text : string).

Definition shape_of {Row} (p : preview Row) : shape :=
  match p with
  | Placeholder _ => ShowsPlaceholder
  | Result (Cards rows) => ShowsCards (length rows)
  | Result Blank => ShowsNothing
  | Result (EmptyState text) => ShowsEmptyState text
  end.

(** The network failed the request: the promise rejected or the status is
    not 2xx. *)
Definition failed (r : response) : bool :=
  match r with
  | Rejected _ => true
  | Resolved rp => negb (ok rp)
  end.

Section Controllers.
Context {eng : engine} {env : environment}.

(** The submit handler of the stage. *)
Definition submit (st : stage) : state st -> M (state st) unit :=
  match st with
  | Load => LoadFile.handleProcess
  | Chunk => ChunkFile.handleChunk
  | Parse => ParseFile.handleProcess
  end.

(** The processing request that [submit] sends. *)
Definition submitRequest (st : stage) : state st -> option request :=
  match st with
  | Load => fun s => option_map (fun f => LoadFile.loadRequest f s) (LoadFile.file s)
  | Chunk => fun s => Some (ChunkFile.chunkRequest s)
  | Parse => fun s => option_map (fun f => ParseFile.parseRequest f s) (ParseFile.file s)
  end.

(** The preview of the stage for a value of its result hook. *)
Definition render (st : stage) (v : value) : outcome shape :=
  match st with
  | Load => obind (LoadFile.renderPreview v) (fun p => Return (shape_of p))
  | Chunk => obind (ChunkFile.renderPreview v) (fun p => Return (shape_of p))
  | Parse => obind (ParseFile.renderPreview v) (fun p => Return (shape_of p))
  end.

(** What the operator picks as input: a file, or the name of a loaded
    document. *)
Definition input (st : stage) : Type :=
  match st with
  | Load => File
  | Chunk => string
  | Parse => File
  end.

(** The handler that runs when the operator picks an input. *)
Definition select (st : stage) : input st -> state st -> M (state st) unit :=
  match st with
  | Load => fun f => LoadFile.handleFileChange (Some f)
  | Chunk => fun name => ChunkFile.selectDocument name
  | Parse => fun f => ParseFile.handleFileSelect (Some f)
  end.

(** The hook of the picked input holds [i]: [file] on the Load and Parse
    pages, [selectedDoc] on the Chunk page. *)
Definition holds (st : stage) : input st -> state st -> Prop :=
  match st with
  | Load => fun f s => LoadFile.file s = Some f
  | Chunk => fun name s => ChunkFile.selectedDoc s = name
  | Parse => fun f s => ParseFile.file s = Some f
  end.

(** The pick names an input.  The first option of the document select of the
    Chunk page (line 788) has the value [""], which names none; a picked file
    always is one. *)
Definition names (st : stage) : input st -> bool :=
  match st with
  | Load => fun _ => true
  | Chunk => fun name => negb (String.eqb name "")
  | Parse => fun _ => true
  end.

(** The delete handler of the stage's document management. *)
Definition delete (st : stage) : string -> state st -> M (state st) unit :=
  match st with
  | Load => LoadFile.handleDeleteDocument
  | Chunk => ChunkFile.handleDeleteDocument
  | Parse => ParseFile.handleDeleteParsed
  end.

(** The request that [delete] sends. *)
Definition deleteRequest (st : stage) (name : string) : request :=
  match st with
  | Load => Fx.delete (apiBaseUrl ++ "/documents/" ++ name)
  | Chunk => Fx.delete (apiBaseUrl ++ "/documents/" ++ name ++ "?type=chunked")
  | Parse => Fx.delete (apiBaseUrl ++ "/parsed-docs/" ++ name)
  end.

(** The first list request of the stage's registry refresh
    ([fetchDocuments], [fetchLoadedDocuments], [fetchParsedDocs]). *)
Definition listRequest (st : stage) : request :=
  match st with
  | Load => get (apiBaseUrl ++ "/documents?type=loaded")
  | Chunk => get (apiBaseUrl ++ "/documents?type=loaded")
  | Parse => get (apiBaseUrl ++ "/parsed-docs")
  end.

(** The hook that this list request fills. *)
Definition listed (st : stage) : state st -> value :=
  match st with
  | Load => LoadFile.documents
  | Chunk => ChunkFile.loadedDocuments
  | Parse => ParseFile.parsedDocs
  end.

(** The [documents] of a registry list reply, or [old] when the reply cannot
    be read. *)
Definition relisted (r : response) (old : value) : value :=
  match r with
  | Resolved rp =>
      match obind (json rp) (fun data => get_prop data "documents") with
      | Return docs => docs
      | Throw _ => old
      end
  | Rejected _ => old
  end.

End Controllers.

(** The controller states of the specification, read off the hooks: a result
    is displayed ([Ready]), the request is in flight, an error is displayed,
    input and method are chosen, or nothing is. *)
Inductive phase : Type := Idle | Configured | Submitting | Ready | Failed.

Definition showsError (st : stage) (text : string) : bool :=
  match st with
  | Load => String.prefix "错误: " text || String.prefix "CSV文件加载错误: " text
  | _ => String.prefix "错误: " text
  end.

Definition phase_of (st : stage) (s : state st) : phase :=
  if truthy (result st s) then Ready
  else if String.eqb (status st s) (inFlight st) then Submitting
  else if showsError st (status st s) then Failed
  else if inputSelected st s && methodSelected st s then Configured
  else Idle.

End Stage.

(** ** The separator fields of the chunk request *)

Module Separators.
Import JS ChunkFile.

Inductive kind : Type := ParagraphType | SentenceType.

(** A separator field of the request body: its key, its kind, the hook of the
    preset select and the hook of the custom text. *)
Record separator : Type := {
  key : string;
  type : kind;
  preset : field;
  custom : field
}.

Definition all : list separator := [
  {| key := "paragraph_separator"; type := ParagraphType;
     preset := ParagraphSeparator; custom := CustomParagraphSeparator |};
  {| key := "sentence_separators"; type := SentenceType;
     preset := SentenceSeparator; custom := CustomSentenceSeparator |};
  {| key := "semantic_sentence_separators"; type := SentenceType;
     preset := SemanticSentenceSeparator; custom := SemanticCustomSentenceSeparator |};
  {| key := "hybrid_paragraph_separator"; type := ParagraphType;
     preset := HybridParagraphSeparator; custom := HybridCustomParagraphSeparator |};
  {| key := "hybrid_sentence_separators"; type := SentenceType;
     preset := HybridSentenceSeparator; custom := HybridCustomSentenceSeparator |}
].

(** The resolution rule as the specification words it: the custom text when
    the preset is the sentinel, else the preset; a sentence-type value is
    split on the bar, a paragraph-type value is used as it is. *)
Definition sentinel : string := "custom".

Definition as_sent (k : kind) (text : string) : value :=
  match k with
  | ParagraphType => VStr text
  | SentenceType => VArr (map VStr (split "|" text))
  end.

Definition resolve (k : kind) (preset custom : value) : option value :=
  match preset, custom with
  | VStr p, VStr c => Some (as_sent k (if String.eqb p sentinel then c else p))
  | _, _ => None
  end.

End Separators.

(** ** Sample runs *)

Module Scenario.
Import JS Fx.

(** An engine with V8's wording of the [TypeError]s.  The runs below convert
    no number to text; zero and NaN are rendered, other numbers are not. *)
Definition sampleEngine : engine := {|
  number_to_string := fun n =>
    if PrimFloat.eqb n 0%float then "0"
    else if PrimFloat.eqb n n then "" else "NaN";
  cannot_read := fun v k =>
    "Cannot read properties of " ++
    (match v with VNull => "null" | _ => "undefined" end) ++
    " (reading '" ++ k ++ "')";
  not_a_function := fun what => what ++ " is not a function"
|}.

Definition jsonReply (code : nat) (v : value) : response :=
  Resolved {| status := code; content := JsonText v |}.

Definition base : string := "http://localhost:8001".

(** A chunked artifact as the registry returns it. *)
Definition chunkedArtifact : value :=
  VObj [("filename", VStr "report.json");
        ("total_chunks", VNum 1);
        ("chunks", VArr [VObj [
           ("content", VStr "hello");
           ("metadata", VObj [("chunk_id", VNum 1);
                              ("page_range", VStr "1");
                              ("word_count", VNum 1)])]])].

(** A parsed artifact as the registry returns it. *)
Definition parsedArtifact : value :=
  VObj [("metadata", VObj [("total_pages", VNum 1)]);
        ("content", VArr [VObj [("type", VStr "text");
                                ("content", VStr "hello")]])].

(** A service whose registries are empty, that answers every detail request
    with the artifact above and accepts every processing request and every
    delete; the operator confirms every dialog. *)
Definition registry (artifact : value) : environment := {|
  apiBaseUrl := base;
  respond := fun _ r =>
    match req_method r with
    | GET =>
        if includes (req_url r) "/documents/" || includes (req_url r) "/parsed-docs/"
        then jsonReply 200 artifact
        else jsonReply 200 (VObj [("documents", VArr [])])
    | POST => jsonReply 200 artifact
    | DELETE => jsonReply 200 (VObj [("status", VStr "success")])
    end;
  answer := fun _ _ => true
|}.

(** A service that refuses every processing request with status 500 and a
    [detail] text, and whose registries are empty. *)
Definition refusing (detail : string) : environment := {|
  apiBaseUrl := base;
  respond := fun _ r =>
    match req_method r with
    | POST => jsonReply 500 (VObj [("detail", VStr detail)])
    | _ => jsonReply 200 (VObj [("documents", VArr [])])
    end;
  answer := fun _ _ => true
|}.

Definition report : File := {| file_name := "report.pdf"; file_data := "%PDF-1.7" |}.

(** The chunk page with the document [report] selected. *)
Definition reportSelected : ChunkFile.state :=
  ChunkFile.setSelectedDoc "report" ChunkFile.initial.

(** The chunk page showing a result. *)
Definition showingChunks : ChunkFile.state :=
  ChunkFile.setChunks chunkedArtifact reportSelected.

(** The load page with a file picked and a result displayed. *)
Definition showingLoaded : LoadFile.state :=
  LoadFile.setLoadedContent
    (VObj [("filename", VStr "report.pdf"); ("chunks", VArr [])])
    (LoadFile.setFile (Some report) LoadFile.initial).

(** The parse page with a file picked. *)
Definition reportPicked : ParseFile.state :=
  ParseFile.setFile (Some report) ParseFile.initial.

(** The parse page listing two parsed documents. *)
Definition twoParsed : ParseFile.state :=
  ParseFile.setParsedDocs
    (VArr [VObj [("name", VStr "a")]; VObj [("name", VStr "b")]])
    ParseFile.initial.

(** The chunk page on its initial method [by_pages] with the minimum page
    words set to 77 (the initial value is 50). *)
Definition tuned : ChunkFile.state :=
  ChunkFile.setParameters
    {| ChunkFile.chunkSize := 1000;
       ChunkFile.chunkOverlap := 200;
       ChunkFile.minChunkSize := 100;
       ChunkFile.maxChunkSize := 5000;
       ChunkFile.semanticThreshold := 0.7;
       ChunkFile.mergeEmptyPages := false;
       ChunkFile.mergeShortPages := false;
       ChunkFile.maxPageWords := 2000;
       ChunkFile.minPageWords := 77;
       ChunkFile.paragraphSeparator := "custom";
       ChunkFile.customParagraphSeparator := "---";
       ChunkFile.sentenceSeparator := "custom";
       ChunkFile.customSentenceSeparator := ";|:";
       ChunkFile.keepSeparator := false;
       ChunkFile.semanticChunkSize := 1000;
       ChunkFile.semanticChunkOverlap := 200;
       ChunkFile.semanticSentenceSeparator := ".|!|?";
       ChunkFile.semanticCustomSentenceSeparator := "";
       ChunkFile.semanticKeepSeparator := false;
       ChunkFile.semanticMinChunkSize := 1;
       ChunkFile.semanticMaxChunkSize := 5000;
       ChunkFile.hybridMaxChunkSize := 5000;
       ChunkFile.hybridMinChunkSize := 1;
       ChunkFile.hybridParagraphSeparator := "###";
       ChunkFile.hybridCustomParagraphSeparator := "";
       ChunkFile.hybridSentenceSeparator := "custom";
       ChunkFile.hybridCustomSentenceSeparator := "";
       ChunkFile.hybridChunkSize := 1000;
       ChunkFile.hybridChunkOverlap := 200;
       ChunkFile.hybridKeepSeparator := false;
       ChunkFile.hybridSemanticThreshold := 0.7 |}
    reportSelected.

(** A result without a segments field. *)
Definition noSegments : value := VObj [("filename", VStr "report.json")].

End Scenario.

(** ** The document lists of the pages *)

Module Lists.
Import JS Fx View.

Section Render.
Context {eng : engine}.

(** The cards of the document management tab of LoadFile.jsx (lines
    291-326), each by the name it shows; the text of line 324 stands for an
    empty list. *)
Definition loadDocuments (docs : value) : outcome (segments value) :=
  obind (LoadFile.array_map "documents" docs (fun doc => get_prop doc "name"))
    (fun names =>
       Return (match names with
               | [] => EmptyState "No documents available"
               | _ => Cards names
               end)).

(** The options of the document select of ChunkFile.jsx (lines 789-793),
    each by its value. *)
Definition documentOptions (docs : value) : outcome (list value) :=
  LoadFile.array_map "loadedDocuments" docs (fun doc => get_prop doc "name").

End Render.

(** A segment that the card of the stage can be drawn from: the cards of the
    Load and Chunk previews read [chunk.metadata.chunk_id], the card of the
    Parse preview reads [item.type]. *)
Definition drawable (st : Stage.stage) (segment : value) : bool :=
  match st with
  | Stage.Parse => negb (nullish segment)
  | _ => negb (nullish segment) && negb (nullish (get_prop_opt segment "metadata"))
  end.

(** The text that a sentence-type separator field is split from. *)
Definition effective (preset custom : string) : string :=
  if String.eqb preset "custom" then custom else preset.

End Lists.

(** ** More sample runs *)

Module Samples.
Import JS Fx.

(** A service on which every request fails to connect. *)
Definition offline : environment := {|
  apiBaseUrl := Scenario.base;
  respond := fun _ _ => Rejected "Failed to fetch";
  answer := fun _ _ => true
|}.

(** A service that answers every request with status [code] and the JSON
    body [v]; the operator answers every dialog with [yes]. *)
Definition always (code : nat) (v : value) (yes : bool) : environment := {|
  apiBaseUrl := Scenario.base;
  respond := fun _ _ => Scenario.jsonReply code v;
  answer := fun _ _ => yes
|}.

(** A service that answers every request with status 200 and a body that is
    not JSON. *)
Definition garbled : environment := {|
  apiBaseUrl := Scenario.base;
  respond := fun _ _ =>
    Resolved {| status := 200;
                content := NotJson "Unexpected token < in JSON at position 0" |};
  answer := fun _ _ => true
|}.

(** A service whose two registry lists hold the documents [a] and [b] and
    that has no detail for any document. *)
Definition listing : environment := {|
  apiBaseUrl := Scenario.base;
  respond := fun _ r =>
    if includes (req_url r) "/documents/"
    then Scenario.jsonReply 404 (VObj [("detail", VStr "Not found")])
    else Scenario.jsonReply 200
           (VObj [("documents",
                   VArr [VObj [("name", VStr "a")]; VObj [("name", VStr "b")]])]);
  answer := fun _ _ => true
|}.

(** A service that answers the first request of a handler and refuses every
    later one with status 500. *)
Definition halfway : environment := {|
  apiBaseUrl := Scenario.base;
  respond := fun n _ =>
    match n with
    | O => Scenario.jsonReply 200 (VObj [("documents", VArr [VObj [("name", VStr "a")]])])
    | S _ => Scenario.jsonReply 500 (VObj [("detail", VStr "Internal Server Error")])
    end;
  answer := fun _ _ => true
|}.

(** The change event of the language select of the unstructured options. *)
Definition chinese : LoadFile.target := {|
  LoadFile.name := "languages";
  LoadFile.value_ := "chi_sim";
  LoadFile.type := "select-one";
  LoadFile.checked := false
|}.

(** A chunked result one of whose chunks has no metadata. *)
Definition bareChunk : value :=
  VObj [("filename", VStr "report.json");
        ("chunks", VArr [VObj [("content", VStr "hello")]])].

End Samples.

(** * Properties of the controllers *)

Import JS Fx View.

(** ** Strings *)

Lemma endsWith_self (s : string) : endsWith s s = true.
Proof.
  destruct s; simpl; [reflexivity|].
  rewrite Ascii.eqb_refl, String.eqb_refl. reflexivity.
Qed.

Lemma endsWith_append (s t : string) : endsWith (s ++ t) t = true.
Proof.
  induction s as [|a s IH]; simpl.
  - apply endsWith_self.
  - rewrite IH. apply orb_true_r.
Qed.

Lemma docId_suffix (selected : string) :
  endsWith (ChunkFile.docId selected) ".json" = true.
Proof.
  unfold ChunkFile.docId.
  destruct (endsWith selected ".json") eqn:E; [exact E|apply endsWith_append].
Qed.

(** ** The event log only grows *)

Section LogFacts.
Context {env : environment} {St : Type}.

Lemma grows_ret {A} (a : A) : grows (ret (St := St) a).
Proof. intros w. exists []. simpl. now rewrite app_nil_r. Qed.

Lemma grows_throw {A} (e : exn) : grows (throw (St := St) (A := A) e).
Proof. intros w. exists []. simpl. now rewrite app_nil_r. Qed.

Lemma grows_lift {A} (o : outcome A) : grows (lift (St := St) o).
Proof. intros w. exists []. simpl. now rewrite app_nil_r. Qed.

Lemma grows_update (f : St -> St) : grows (update f).
Proof. intros w. exists []. simpl. now rewrite app_nil_r. Qed.

Lemma grows_fetch (r : request) : grows (fetch (St := St) r).
Proof.
  intros w. exists [(store w, Fetch r)]. unfold fetch.
  destruct (respond _ _); reflexivity.
Qed.

Lemma grows_confirm (q : string) : grows (window_confirm (St := St) q).
Proof. intros w. exists [(store w, Confirm q)]. reflexivity. Qed.

Lemma grows_alert (t : string) : grows (alert (St := St) t).
Proof. intros w. exists [(store w, Alert t)]. reflexivity. Qed.

Lemma grows_bind {A B} (m : M St A) (k : A -> M St B) :
  grows m -> (forall a, grows (k a)) -> grows (bind m k).
Proof.
  intros Hm Hk w. unfold bind.
  destruct (Hm w) as [r1 E1]. destruct (m w) as [[a|e] w1]; simpl in *.
  - destruct (Hk a w1) as [r2 E2]. exists (r1 ++ r2)%list.
    now rewrite E2, E1, app_assoc.
  - now exists r1.
Qed.

Lemma grows_try_catch {A} (m : M St A) (h : exn -> M St A) :
  grows m -> (forall e, grows (h e)) -> grows (try_catch m h).
Proof.
  intros Hm Hh w. unfold try_catch.
  destruct (Hm w) as [r1 E1]. destruct (m w) as [[a|e] w1]; simpl in *.
  - now exists r1.
  - destruct (Hh e w1) as [r2 E2]. exists (r1 ++ r2)%list.
    now rewrite E2, E1, app_assoc.
Qed.

Lemma grows_mapM {A B} (f : A -> M St B) (xs : list A) :
  (forall x, grows (f x)) -> grows (mapM f xs).
Proof.
  intros Hf. induction xs as [|x xs IH]; simpl.
  - apply grows_ret.
  - apply grows_bind; [apply Hf|]. intros y.
    apply grows_bind; [apply IH|]. intros ys. apply grows_ret.
Qed.

End LogFacts.

Create HintDb fx.
#[local] Hint Resolve grows_ret grows_throw grows_lift grows_update grows_fetch
  grows_confirm grows_alert : fx.

(** Splits a goal [grows m] along the shape of [m]. *)
Ltac grow :=
  repeat first
    [ apply grows_bind; [|intros ?]
    | apply grows_try_catch; [|intros ?]
    | apply grows_mapM; intros ?
    | solve [auto with fx]
    | match goal with
      | |- grows (if ?b then _ else _) => destruct b
      | |- grows (match ?x with _ => _ end) => destruct x
      end ].

(** ** Submitting *)

Section Submit.
Context {eng : engine} {env : environment}.

(** C3. In every stage, submitting while no input is selected or no method is
    selected produces no event at all (so no network request), leaves every
    hook but the status as it was and sets the status to the stage's
    missing-selection text. *)
Theorem submit_without_selection (st : Stage.stage) (w : world (Stage.state st)) :
  Stage.inputSelected st (store w) = false \/
  Stage.methodSelected st (store w) = false ->
  fire (Stage.submit st) w =
    (Return tt,
     {| store := Stage.setStatus st (Stage.missingSelection st) (store w);
        log := log w |}).
Proof.
  destruct st; cbn [Stage.state Stage.inputSelected Stage.methodSelected
                    Stage.submit Stage.setStatus Stage.missingSelection] in *;
    unfold fire; destruct w as [s l]; cbn [store log]; intros [Hsel|Hsel].
  - unfold LoadFile.handleProcess.
    destruct (LoadFile.file s); [discriminate|reflexivity].
  - unfold LoadFile.handleProcess.
    destruct (LoadFile.file s); [|reflexivity].
    cbn [truthy]. rewrite Hsel. reflexivity.
  - unfold ChunkFile.handleChunk. cbn [truthy]. rewrite Hsel. reflexivity.
  - unfold ChunkFile.handleChunk. cbn [truthy]. rewrite Hsel.
    rewrite orb_true_r. reflexivity.
  - unfold ParseFile.handleProcess.
    destruct (ParseFile.file s); [discriminate|reflexivity].
  - unfold ParseFile.handleProcess.
    destruct (ParseFile.file s); [|reflexivity].
    cbn [truthy]. apply andb_false_iff in Hsel.
    destruct Hsel as [Hsel|Hsel]; rewrite Hsel; cbn [orb];
      rewrite ?orb_true_r; reflexivity.
Qed.

(** The event that follows the state updates of a handler of the shape
    [try { await fetch(r); ... } catch ...] is the request [r]. *)
Lemma first_fetch {St A} (r : request) (k : reply -> M St A) (h : exn -> M St A)
    (w : world St) :
  (forall a, grows (k a)) -> (forall e, grows (h e)) ->
  exists rest,
    log (snd (try_catch (bind (fetch r) k) h w)) =
    (log w ++ (store w, Fetch r) :: rest)%list.
Proof.
  intros Hk Hh. unfold try_catch, bind, fetch.
  destruct (respond (length (log w)) r) as [msg|rp].
  - destruct (Hh (TypeError msg) (emit (Fetch r) w)) as [rest E].
    exists rest. rewrite E. unfold emit; simpl. now rewrite <- app_assoc.
  - pose proof (Hk rp (emit (Fetch r) w)) as [rest E].
    destruct (k rp (emit (Fetch r) w)) as [[a|e] w1]; simpl in *.
    + exists rest. rewrite E. now rewrite <- app_assoc.
    + destruct (Hh e w1) as [rest2 E2]. exists (rest ++ rest2)%list.
      rewrite E2, E. now rewrite <- !app_assoc.
Qed.

(** Unfolds the monad and splits on everything the run depends on, the
    innermost scrutinee first. *)
Ltac split_run :=
  match goal with
  | |- context [match ?x with _ => _ end] =>
      lazymatch x with
      | context [match _ with _ => _ end] => fail
      | _ => destruct x eqn:?
      end
  end.

Ltac run :=
  unfold fire, bind, try_catch, fetch, update, throw, lift, ret, emit in *;
  cbn [fst snd store log] in *;
  repeat (split_run; cbn [fst snd store log negb] in *; try discriminate).

(** C10. In every stage the submit handler empties the result hook before it
    sends the processing request: the request is logged in a state whose result
    is [null], and when the network fails that request the result is [null]
    after the handler, whatever was displayed before. *)
Theorem submit_clears_result_first (st : Stage.stage) (w : world (Stage.state st)) :
  Stage.inputSelected st (store w) = true ->
  Stage.methodSelected st (store w) = true ->
  exists req,
    Stage.submitRequest st (store w) = Some req /\
    (exists s rest,
       log (snd (fire (Stage.submit st) w)) = (log w ++ (s, Fetch req) :: rest)%list /\
       Stage.result st s = VNull) /\
    (Stage.failed (respond (length (log w)) req) = true ->
     Stage.result st (store (snd (fire (Stage.submit st) w))) = VNull).
Proof.
  destruct st; cbn [Stage.state Stage.inputSelected Stage.methodSelected
                    Stage.submit Stage.submitRequest Stage.result] in *;
    destruct w as [s l]; unfold fire; cbn [store log]; intros Hin Hm.
  - unfold LoadFile.handleProcess.
    destruct (LoadFile.file s) as [f|] eqn:Hf; [|discriminate].
    cbn [truthy]. rewrite Hm. cbn [negb option_map].
    exists (LoadFile.loadRequest f s). split; [reflexivity|]. split.
    + match goal with
      | |- context [bind (update ?u1) (fun _ => bind (update ?u2) (fun _ => try_catch (bind (fetch ?r) ?k) ?h))] =>
          destruct (first_fetch r k h
                      {| store := u2 (u1 s); log := l |}) as [rest E]
      end.
      * intros a. grow.
      * intros e. grow.
      * eexists _, rest. split; [exact E|reflexivity].
    + unfold Stage.failed. intros Hfail. run; try reflexivity.
      all: try (unfold ok in *; cbn in *; congruence).
  - unfold ChunkFile.handleChunk. cbn [truthy]. rewrite Hin, Hm. cbn [negb orb].
    exists (ChunkFile.chunkRequest s). split; [reflexivity|]. split.
    + match goal with
      | |- context [bind (update ?u1) (fun _ => bind (update ?u2) (fun _ => try_catch (bind (fetch ?r) ?k) ?h))] =>
          destruct (first_fetch r k h
                      {| store := u2 (u1 s); log := l |}) as [rest E]
      end.
      * intros a. grow.
      * intros e. grow.
      * eexists _, rest. split; [exact E|reflexivity].
    + unfold Stage.failed. intros Hfail. run; try reflexivity.
      all: try (unfold ok in *; cbn in *; congruence).
  - unfold ParseFile.handleProcess.
    destruct (ParseFile.file s) as [f|] eqn:Hf; [|discriminate].
    apply andb_true_iff in Hm. destruct Hm as [Hm1 Hm2].
    cbn [truthy]. rewrite Hm1, Hm2. cbn [negb orb option_map].
    exists (ParseFile.parseRequest f s). split; [reflexivity|]. split.
    + match goal with
      | |- context [bind (update ?u1) (fun _ => bind (update ?u2) (fun _ => bind (update ?u3) (fun _ => try_catch (bind (fetch ?r) ?k) ?h)))] =>
          destruct (first_fetch r k h
                      {| store := u3 (u2 (u1 s)); log := l |}) as [rest E]
      end.
      * intros a. grow.
      * intros e. grow.
      * eexists _, rest. split; [exact E|reflexivity].
    + unfold Stage.failed. intros Hfail. run; try reflexivity.
      all: try (unfold ok in *; cbn in *; congruence).
Qed.

End Submit.

(** ** The chunk request *)

Section ChunkRequest.
Context {eng : engine} {env : environment}.
Import ChunkFile.

Lemma option_value_not_empty (m : method) : String.eqb (option_value m) "" = false.
Proof. destruct m; reflexivity. Qed.

(** With a document and a method selected, the event that follows the state
    updates of [handleChunk] is the request of lines 145-181. *)
Lemma handleChunk_sends (w : world state) :
  selectedDoc (store w) <> "" ->
  String.eqb (chunkingOption (store w)) "" = false ->
  exists s rest,
    log (snd (fire handleChunk w)) =
    (log w ++ (s, Fetch (chunkRequest (store w))) :: rest)%list.
Proof.
  intros Hdoc Hopt. apply String.eqb_neq in Hdoc.
  destruct w as [s l]. unfold fire, handleChunk. cbn [store log truthy] in *.
  rewrite Hdoc, Hopt. cbn [negb orb].
  match goal with
  | |- context [bind (update ?u1) (fun _ => bind (update ?u2)
                  (fun _ => try_catch (bind (fetch ?r) ?k) ?h))] =>
      destruct (first_fetch r k h {| store := u2 (u1 s); log := l |})
        as [rest E]
  end.
  - intros a. grow.
  - intros e. grow.
  - eexists _, rest. exact E.
Qed.

(** C1. Whichever of the six methods is selected, the body of the request
    that [handleChunk] sends holds, under the key of each separator field,
    the value that the resolution rule gives for the field's preset and custom
    hooks: the custom text when the preset is ["custom"], else the preset,
    split on the bar for a sentence-type field and as it is for a
    paragraph-type field. *)
Theorem separator_resolution (w : world state) (m : method)
    (sep : Separators.separator) :
  selectedDoc (store w) <> "" ->
  chunkingOption (store w) = option_value m ->
  In sep Separators.all ->
  exists s rest entries sent,
    log (snd (fire handleChunk w)) =
      (log w ++ (s, Fetch (chunkRequest (store w))) :: rest)%list /\
    req_body (chunkRequest (store w)) = JsonBody (VObj entries) /\
    Separators.resolve (Separators.type sep)
      (read (Separators.preset sep) (parameters (store w)))
      (read (Separators.custom sep) (parameters (store w))) = Some sent /\
    lookup (Separators.key sep) entries = Some sent.
Proof.
  intros Hdoc Hopt Hsep.
  destruct (handleChunk_sends w Hdoc) as (s & rest & E).
  { rewrite Hopt. apply option_value_not_empty. }
  exists s, rest. unfold Separators.all in Hsep. cbn [In] in Hsep.
  destruct Hsep as [<-|[<-|[<-|[<-|[<-|[]]]]]];
    eexists _, _; (split; [exact E|]);
    unfold chunkRequest, chunkBody; cbn [req_body];
    (split; [reflexivity|]);
    cbn [Separators.type Separators.preset Separators.custom Separators.key
         read Separators.resolve Separators.as_sent];
    (split; [reflexivity|]); unfold Separators.sentinel;
    repeat match goal with
           | |- context [String.eqb ?a "custom"] =>
               destruct (String.eqb a "custom")
           end; reflexivity.
Qed.

(** C8. The body of every request that [handleChunk] sends holds a [doc_id]
    that ends in [.json] (the selected name itself when it already ends in
    [.json], else the name with [.json] added once), and its keys are the
    fixed list [bodyKeys], which holds each key once and the key of every
    parameter of each of the six methods, whatever method is selected. *)
Theorem chunk_request_body (w : world state) :
  selectedDoc (store w) <> "" ->
  chunkingOption (store w) <> "" ->
  exists s rest id entries,
    log (snd (fire handleChunk w)) =
      (log w ++
       (s, Fetch {| req_method := POST;
                    req_url := apiBaseUrl ++ "/chunk";
                    req_headers := [("Content-Type", "application/json")];
                    req_body := JsonBody (VObj entries) |}) :: rest)%list /\
    lookup "doc_id" entries = Some (VStr id) /\
    lookup "chunking_option" entries = Some (VStr (chunkingOption (store w))) /\
    endsWith id ".json" = true /\
    (endsWith (selectedDoc (store w)) ".json" = true -> id = selectedDoc (store w)) /\
    (endsWith (selectedDoc (store w)) ".json" = false ->
     id = selectedDoc (store w) ++ ".json") /\
    keys entries = bodyKeys /\
    NoDup bodyKeys /\
    (forall m f, In f (variant_fields m) -> In (wire_key f) (keys entries)).
Proof.
  intros Hdoc Hopt. apply String.eqb_neq in Hopt.
  destruct (handleChunk_sends w Hdoc Hopt) as (s & rest & E).
  exists s, rest, (docId (selectedDoc (store w))).
  unfold chunkRequest, chunkBody in E. eexists. split; [exact E|].
  split; [reflexivity|]. split; [reflexivity|].
  split; [apply docId_suffix|].
  split; [unfold docId; intros ->; reflexivity|].
  split; [unfold docId; intros ->; reflexivity|].
  assert (K : keys (object [
    ("doc_id", VStr (docId (selectedDoc (store w))));
    ("chunking_option", VStr (chunkingOption (store w)))]) =
    ["doc_id"; "chunking_option"]) by reflexivity.
  split; [reflexivity|].
  split.
  - unfold bodyKeys.
    repeat (constructor; [cbn [In]; intuition discriminate|]). constructor.
  - intros m f Hf. change (In (wire_key f) bodyKeys).
    destruct m; cbn [variant_fields In] in Hf;
      repeat (destruct Hf as [<-|Hf]; [cbn; tauto|]); destruct Hf.
Qed.

(** C2 (as the code has it). Choosing a method in the method select writes the
    [chunkingOption] hook and nothing else: every parameter hook, shared with
    the previous method or not, keeps its value (none goes back to its initial
    value), and no event is produced. *)
Theorem method_switch_keeps_every_parameter (w : world state) (m : method)
    (f : field) :
  chunkingOption (store (snd (fire (selectMethod (option_value m)) w))) =
    option_value m /\
  read f (parameters (store (snd (fire (selectMethod (option_value m)) w)))) =
    read f (parameters (store w)) /\
  fire (selectMethod (option_value m)) w =
    (Return tt, {| store := setChunkingOption (option_value m) (store w);
                   log := log w |}).
Proof. repeat split. Qed.

End ChunkRequest.

(** C2 (as stated) fails: on the page with method [by_pages] and the minimum
    page words set to 77, choosing [fixed_size] leaves that hook, which the
    new method does not have, at 77; its initial value is 50. *)
Lemma method_switch_resets_nothing :
  let s := Scenario.tuned in
  let s' := store (snd (fire (ChunkFile.selectMethod "fixed_size") (start s))) in
  ChunkFile.chunkingOption s = ChunkFile.option_value ChunkFile.by_pages /\
  In ChunkFile.MinPageWords (ChunkFile.variant_fields ChunkFile.by_pages) /\
  ~ In ChunkFile.MinPageWords (ChunkFile.variant_fields ChunkFile.fixed_size) /\
  ChunkFile.chunkingOption s' = ChunkFile.option_value ChunkFile.fixed_size /\
  ChunkFile.read ChunkFile.MinPageWords (ChunkFile.parameters s') = VNum 77 /\
  ChunkFile.read ChunkFile.MinPageWords ChunkFile.initial_params = VNum 50 /\
  VNum 77 <> VNum 50.
Proof.
  cbv zeta. repeat split.
  - cbn. tauto.
  - cbn. intuition discriminate.
  - intros H.
    apply (f_equal (fun v => match v with
                             | VNum x => PrimFloat.eqb x 50
                             | _ => false
                             end)) in H.
    vm_compute in H. discriminate.
Qed.

(** ** The preview of a result without segments *)

Section Preview.
Context {eng : engine}.

(** In the Load stage the list is mapped without a test: a result whose
    [chunks] is not an array makes the render throw. *)
Lemma load_preview_throws (result : value) :
  truthy result = true ->
  isArray (get_prop_opt result (Stage.segmentsField Stage.Load)) = false ->
  exists e, Stage.render Stage.Load result = Throw e.
Proof.
  cbn [Stage.segmentsField Stage.render]. intros Ht Ha.
  unfold LoadFile.renderPreview. rewrite Ht.
  destruct result as [| |b|n|s|xs|ps]; try discriminate;
    cbn [LoadFile.textMetadata get_prop get_prop_opt obind is_str] in *;
    try (eexists; reflexivity).
  unfold LoadFile.textMetadata. cbn [get_prop obind].
  destruct (lookup "chunks" ps) as [[| |b|n|s|xs|qs]|];
    try discriminate;
    destruct (is_str _ "text"); cbn [obind get_index LoadFile.array_map];
    eexists; reflexivity.
Qed.

(** C4 (as the code has it). For a result whose segments field is missing or
    not an array, the Parse preview shows its empty-state text and the Chunk
    preview shows no segment card and no text in their place; neither throws. *)
Theorem preview_without_segments (st : Stage.stage) (result : value) :
  truthy result = true ->
  isArray (get_prop_opt result (Stage.segmentsField st)) = false ->
  st <> Stage.Load ->
  Stage.render st result =
    Return (match st with
            | Stage.Parse => Stage.ShowsEmptyState ParseFile.emptyText
            | _ => Stage.ShowsNothing
            end).
Proof.
  intros Ht Ha Hst. destruct st; [congruence| |];
    cbn [Stage.segmentsField Stage.render] in *.
  - unfold ChunkFile.renderPreview. rewrite Ht.
    destruct result as [| |b|n|s|xs|ps]; try discriminate;
      cbn [get_prop get_prop_opt obind] in *; try reflexivity.
    destruct (lookup "chunks" ps) as [[| |b|n|s|xs|qs]|];
      try discriminate; reflexivity.
  - unfold ParseFile.renderPreview. rewrite Ht.
    destruct (get_prop_opt result "content"); try discriminate; reflexivity.
Qed.

End Preview.

#[local] Existing Instance Scenario.sampleEngine.

(** C4 for the Parse preview of a result without segments. *)
Lemma preview_without_segments_witness :
  truthy Scenario.noSegments = true /\
  Stage.render Stage.Parse Scenario.noSegments =
    Return (Stage.ShowsEmptyState ParseFile.emptyText).
Proof.
  split; [reflexivity|].
  apply (@preview_without_segments Scenario.sampleEngine Stage.Parse
           Scenario.noSegments); [reflexivity|reflexivity|discriminate].
Defined.

(** C4 (as stated) fails: the Chunk preview of a result that has no [chunks]
    shows nothing where the cards would be, not an empty-state text. *)
Lemma chunk_preview_has_no_empty_state :
  truthy Scenario.noSegments = true /\
  get_prop_opt Scenario.noSegments (Stage.segmentsField Stage.Chunk) = VUndefined /\
  Stage.render Stage.Chunk Scenario.noSegments = Return Stage.ShowsNothing /\
  ~ (exists text,
       Stage.render Stage.Chunk Scenario.noSegments =
         Return (Stage.ShowsEmptyState text)).
Proof.
  repeat split. intros [text H]. discriminate H.
Qed.

(** ** Selecting an input *)

Section Select.
Context {eng : engine} {env : environment}.

(** C9 (as the code has it). Picking an input document or file records the
    pick in the hook of the input, produces no event and leaves the displayed
    result as it was: a controller that shows a result keeps showing it
    ([Ready]), and an [Idle] controller whose method is selected becomes
    [Configured] when the pick names an input. *)
Theorem select_keeps_result (st : Stage.stage) (i : Stage.input st)
    (w : world (Stage.state st)) :
  let s' := store (snd (fire (Stage.select st i) w)) in
  Stage.holds st i s' /\
  Stage.result st s' = Stage.result st (store w) /\
  log (snd (fire (Stage.select st i) w)) = log w /\
  (Stage.phase_of st (store w) = Stage.Ready ->
   Stage.phase_of st s' = Stage.Ready) /\
  (Stage.phase_of st (store w) = Stage.Idle ->
   Stage.names st i = true ->
   Stage.methodSelected st (store w) = true ->
   Stage.phase_of st s' = Stage.Configured).
Proof.
  cbv zeta.
  assert (G : forall s' : Stage.state st,
            Stage.result st s' = Stage.result st (store w) ->
            Stage.status st s' = Stage.status st (store w) ->
            (Stage.names st i = true -> Stage.inputSelected st s' = true) ->
            (Stage.methodSelected st (store w) = true ->
             Stage.methodSelected st s' = true) ->
            (Stage.phase_of st (store w) = Stage.Ready ->
             Stage.phase_of st s' = Stage.Ready) /\
            (Stage.phase_of st (store w) = Stage.Idle ->
             Stage.names st i = true ->
             Stage.methodSelected st (store w) = true ->
             Stage.phase_of st s' = Stage.Configured)).
  { intros s' Hr Hs Hi Hm. unfold Stage.phase_of. rewrite Hr, Hs.
    destruct (truthy (Stage.result st (store w))); [split; congruence|].
    destruct (String.eqb _ _); [split; congruence|].
    destruct (Stage.showsError _ _); [split; congruence|].
    split; [destruct (_ && _); congruence|].
    intros _ Hn Hb. rewrite (Hi Hn), (Hm Hb). reflexivity. }
  assert (E : Stage.holds st i (store (snd (fire (Stage.select st i) w))) /\
              Stage.result st (store (snd (fire (Stage.select st i) w))) =
                Stage.result st (store w) /\
              Stage.status st (store (snd (fire (Stage.select st i) w))) =
                Stage.status st (store w) /\
              log (snd (fire (Stage.select st i) w)) = log w /\
              (Stage.methodSelected st (store w) = true ->
               Stage.methodSelected st
                 (store (snd (fire (Stage.select st i) w))) = true)).
  { destruct st;
      cbn [Stage.select Stage.result Stage.status Stage.state Stage.input
           Stage.holds Stage.methodSelected] in *;
      unfold fire.
    - unfold LoadFile.handleFileChange.
      repeat match goal with
             | |- context [if ?b then _ else _] => destruct b
             end; repeat split; auto.
    - repeat split; auto.
    - unfold ParseFile.handleFileSelect.
      repeat split.
      intros _. cbn. destruct (String.eqb _ "md"); reflexivity. }
  destruct E as (Eh & Er & Es & El & Em).
  split; [exact Eh|]. split; [exact Er|]. split; [exact El|].
  apply G; try assumption.
  intros Hn. clear - Eh Hn.
  destruct st; cbn [Stage.holds Stage.inputSelected Stage.names Stage.state
                    Stage.input] in *.
  - rewrite Eh. reflexivity.
  - rewrite Eh. exact Hn.
  - rewrite Eh. reflexivity.
Qed.

End Select.

(** C9 on the initial Chunk page, which is [Idle] with the method [by_pages]
    selected: picking the document [report] records it and makes the
    controller [Configured]. *)
Lemma select_keeps_result_witness :
  let w := start ChunkFile.initial in
  let s' := store (snd (fire (Stage.select Stage.Chunk "report") w)) in
  Stage.phase_of Stage.Chunk (store w) = Stage.Idle /\
  ChunkFile.selectedDoc s' = "report" /\
  Stage.phase_of Stage.Chunk s' = Stage.Configured.
Proof.
  cbv zeta.
  pose proof (@select_keeps_result Stage.Chunk "report"
                (start ChunkFile.initial)) as H.
  cbv zeta in H. destruct H as (Hh & _ & _ & _ & Hc).
  split; [reflexivity|]. split; [exact Hh|].
  apply Hc; reflexivity.
Defined.

(** C9 (as stated) fails: on the chunk page that shows a result, picking
    another document leaves the result displayed; the controller is still
    [Ready], not [Configured] with the result cleared. *)
Lemma select_does_not_clear_result :
  let s := Scenario.showingChunks in
  let s' := store (snd (fire (Stage.select Stage.Chunk "other") (start s))) in
  Stage.phase_of Stage.Chunk s = Stage.Ready /\
  ChunkFile.selectedDoc s' = "other" /\
  ChunkFile.chunks s' = Scenario.chunkedArtifact /\
  ChunkFile.chunks s' <> VNull /\
  Stage.phase_of Stage.Chunk s' = Stage.Ready.
Proof.
  cbv zeta. repeat split. discriminate.
Qed.

(** ** A refused request *)

Section Refused.
Context {eng : engine} {env : environment}.

(** In the Chunk and Parse stages the status after a reply that is not 2xx is
    made of the status code alone, whatever the body of the reply holds; the
    result stays empty and the request is the only event. *)
Lemma refused_status_ignores_body (st : Stage.stage) (w : world (Stage.state st))
    (req : request) (rp : reply) :
  st <> Stage.Load ->
  Stage.inputSelected st (store w) = true ->
  Stage.methodSelected st (store w) = true ->
  Stage.submitRequest st (store w) = Some req ->
  respond (length (log w)) req = Resolved rp ->
  ok rp = false ->
  Stage.status st (store (snd (fire (Stage.submit st) w))) =
    "错误: HTTP error! status: " ++ string_of_nat (status rp) /\
  Stage.result st (store (snd (fire (Stage.submit st) w))) = VNull /\
  exists s1,
    log (snd (fire (Stage.submit st) w)) = (log w ++ [(s1, Fetch req)])%list.
Proof.
  intros Hst Hin Hm Hreq Hresp Hok.
  destruct st; [congruence| |];
    cbn [Stage.state Stage.inputSelected Stage.methodSelected Stage.submit
         Stage.submitRequest Stage.status Stage.setStatus Stage.inFlight] in *;
    destruct w as [s l]; unfold fire; cbn [store log] in *.
  - injection Hreq as <-.
    unfold ChunkFile.handleChunk. cbn [truthy]. rewrite Hin, Hm. cbn [negb orb].
    unfold bind, try_catch, fetch, update. cbn [store log].
    rewrite Hresp. cbn [fst snd store log emit]. rewrite Hok.
    split; [reflexivity|]. split; [reflexivity|]. eexists. reflexivity.
  - unfold ParseFile.handleProcess.
    destruct (ParseFile.file s) as [f|]; [|discriminate].
    injection Hreq as <-. apply andb_true_iff in Hm. destruct Hm as [Hm1 Hm2].
    cbn [truthy]. rewrite Hm1, Hm2. cbn [negb orb].
    unfold bind, try_catch, fetch, update. cbn [store log].
    rewrite Hresp. cbn [fst snd store log emit]. rewrite Hok.
    split; [reflexivity|]. split; [reflexivity|]. eexists. reflexivity.
Qed.

(** In the Load stage the status after a reply that is not 2xx shows the
    [detail] text of the reply's body. *)
Lemma load_refused_shows_detail (w : world LoadFile.state) (f : File)
    (rp : reply) (body : list (string * value)) (detail : string) :
  LoadFile.file (store w) = Some f ->
  LoadFile.loadingMethod (store w) <> "" ->
  respond (length (log w)) (LoadFile.loadRequest f (store w)) = Resolved rp ->
  ok rp = false ->
  json rp = Return (VObj body) ->
  lookup "detail" body = Some (VStr detail) ->
  detail <> "" ->
  LoadFile.status (store (snd (fire LoadFile.handleProcess w))) =
    if includes detail "CSV" then LoadFile.csvHelp detail
    else "错误: " ++ detail.
Proof.
  destruct w as [s l]; unfold fire; cbn [store log].
  intros Hf Hm Hresp Hok Hjson Hd Hne.
  apply String.eqb_neq in Hm. apply String.eqb_neq in Hne.
  unfold LoadFile.handleProcess. rewrite Hf. cbn [truthy]. rewrite Hm.
  cbn [negb]. unfold bind, try_catch, fetch, update, lift, throw.
  cbn [store log]. rewrite Hresp. cbn [fst snd store log emit].
  rewrite Hok. cbn [negb]. rewrite Hjson. cbn [get_prop]. rewrite Hd.
  cbn [truthy]. rewrite Hne. cbn [negb to_string message].
  destruct (includes detail "CSV"); reflexivity.
Qed.

End Refused.

(** C5 fails in the Chunk and Parse stages. The service refuses the processing
    request with status 500 and the detail "Document not found": the Load page
    shows the detail, the Chunk and Parse pages show the status code only.
    No stage sends the request a second time. *)
Lemma refused_submit_drops_detail :
  let env := Scenario.refusing "Document not found" in
  let load := snd (fire (Stage.submit (env := env) Stage.Load)
                        (start Scenario.showingLoaded)) in
  let chunk := snd (fire (Stage.submit (env := env) Stage.Chunk)
                         (start Scenario.reportSelected)) in
  let parse := snd (fire (Stage.submit (env := env) Stage.Parse)
                         (start Scenario.reportPicked)) in
  LoadFile.status (store load) = "错误: Document not found" /\
  ChunkFile.status (store chunk) = "错误: HTTP error! status: 500" /\
  ParseFile.status (store parse) = "错误: HTTP error! status: 500" /\
  includes (ChunkFile.status (store chunk)) "Document not found" = false /\
  includes (ParseFile.status (store parse)) "Document not found" = false /\
  Stage.phase_of Stage.Chunk (store chunk) = Stage.Failed /\
  Stage.phase_of Stage.Parse (store parse) = Stage.Failed /\
  map req_url (requests load) = [Scenario.base ++ "/load"] /\
  map req_url (requests chunk) = [Scenario.base ++ "/chunk"] /\
  map req_url (requests parse) = [Scenario.base ++ "/parse"].
Proof. cbv zeta. repeat split. Qed.

(** ** Deleting the displayed artifact *)

(** C6 fails in the Chunk and Parse stages. The operator views an artifact
    and then deletes it, and the delete succeeds: the Load page clears the
    result and the selection, the Chunk and Parse pages keep showing the
    deleted artifact. *)
Lemma delete_of_viewed_artifact :
  let load :=
    let env := Scenario.registry Scenario.chunkedArtifact in
    snd (fire (LoadFile.handleDeleteDocument (env := env) "report")
          (snd (fire (LoadFile.handleViewDocument (env := env)
                        (VObj [("name", VStr "report")]))
                     (start LoadFile.initial)))) in
  let chunk :=
    let env := Scenario.registry Scenario.chunkedArtifact in
    snd (fire (ChunkFile.handleDeleteDocument (env := env) "report")
          (snd (fire (ChunkFile.handleViewDocument (env := env) "report")
                     (start ChunkFile.initial)))) in
  let parse :=
    let env := Scenario.registry Scenario.parsedArtifact in
    snd (fire (ParseFile.handleDeleteParsed (env := env) "a")
          (snd (fire (ParseFile.handleViewParsed (env := env) "a")
                     (start Scenario.twoParsed)))) in
  (LoadFile.status (store load) = "Document deleted successfully" /\
   LoadFile.loadedContent (store load) = VNull /\
   LoadFile.selectedDoc (store load) = VNull) /\
  (ChunkFile.processingStatus (store chunk) = "文档删除成功" /\
   ChunkFile.chunks (store chunk) = Scenario.chunkedArtifact /\
   Stage.phase_of Stage.Chunk (store chunk) = Stage.Ready) /\
  (ParseFile.parsedDocs (store parse) = VArr [VObj [("name", VStr "b")]] /\
   ParseFile.parsedContent (store parse) = Scenario.parsedArtifact /\
   Stage.phase_of Stage.Parse (store parse) = Stage.Ready).
Proof. cbv zeta. repeat split. Qed.

(** ** Refreshing the registry view *)

Section StoreFacts.
Context {env : environment} {St X : Type} (f : St -> X).

Lemma keeps_ret {A} (a : A) : keeps f (ret (St := St) a).
Proof. intros w. reflexivity. Qed.

Lemma keeps_throw {A} (e : exn) : keeps f (throw (St := St) (A := A) e).
Proof. intros w. reflexivity. Qed.

Lemma keeps_lift {A} (o : outcome A) : keeps f (lift (St := St) o).
Proof. intros w. reflexivity. Qed.

Lemma keeps_fetch (r : request) : keeps f (fetch (St := St) r).
Proof. intros w. unfold fetch. destruct (respond _ _); reflexivity. Qed.

Lemma keeps_update (g : St -> St) :
  (forall s, f (g s) = f s) -> keeps f (update g).
Proof. intros Hg w. apply Hg. Qed.

Lemma keeps_bind {A B} (m : M St A) (k : A -> M St B) :
  keeps f m -> (forall a, keeps f (k a)) -> keeps f (bind m k).
Proof.
  intros Hm Hk w. unfold bind. pose proof (Hm w) as E1.
  destruct (m w) as [[a|e] w1]; simpl in *; [|exact E1].
  now rewrite Hk.
Qed.

Lemma keeps_try_catch {A} (m : M St A) (h : exn -> M St A) :
  keeps f m -> (forall e, keeps f (h e)) -> keeps f (try_catch m h).
Proof.
  intros Hm Hh w. unfold try_catch. pose proof (Hm w) as E1.
  destruct (m w) as [[a|e] w1]; simpl in *; [exact E1|].
  now rewrite Hh.
Qed.

Lemma keeps_mapM {A B} (g : A -> M St B) (xs : list A) :
  (forall x, keeps f (g x)) -> keeps f (mapM g xs).
Proof.
  intros Hg. induction xs as [|x xs IH]; simpl.
  - apply keeps_ret.
  - apply keeps_bind; [apply Hg|]. intros y.
    apply keeps_bind; [apply IH|]. intros ys. apply keeps_ret.
Qed.

End StoreFacts.

(** Splits a goal [keeps f m] along the shape of [m]. *)
Ltac keep :=
  repeat first
    [ apply keeps_bind; [|intros ?]
    | apply keeps_try_catch; [|intros ?]
    | apply keeps_mapM; intros ?
    | apply keeps_ret | apply keeps_throw | apply keeps_lift | apply keeps_fetch
    | apply keeps_update; intros ?; reflexivity
    | match goal with
      | |- keeps _ (if ?b then _ else _) => destruct b
      | |- keeps _ (match ?x with _ => _ end) => destruct x
      end ].

Section Refresh.
Context {eng : engine} {env : environment}.

(** [fetchDocuments]: one list request, and the [documents] hook is what the
    reply listed. *)
Lemma fetchDocuments_run (w : world LoadFile.state) :
  fst (LoadFile.fetchDocuments w) = Return tt /\
  log (snd (LoadFile.fetchDocuments w)) =
    (log w ++ [(store w, Fetch (Stage.listRequest Stage.Load))])%list /\
  LoadFile.documents (store (snd (LoadFile.fetchDocuments w))) =
    Stage.relisted (respond (length (log w)) (Stage.listRequest Stage.Load))
      (LoadFile.documents (store w)) /\
  LoadFile.loadedContent (store (snd (LoadFile.fetchDocuments w))) =
    LoadFile.loadedContent (store w).
Proof.
  unfold LoadFile.fetchDocuments, Stage.relisted, Stage.listRequest.
  unfold try_catch, bind, fetch, lift, update, ret.
  destruct (respond _ _) as [msg|rp]; cbn [fst snd store log emit].
  - repeat split.
  - destruct (json rp) as [data|e]; cbn [obind fst snd store log]; [|repeat split].
    destruct (get_prop data "documents"); repeat split.
Qed.

(** [fetchLoadedDocuments] returns, starts with the list request for the loaded
    documents, fills the [loadedDocuments] hook with what the reply listed and
    leaves the result and the selection alone. *)
Lemma fetchLoadedDocuments_run (w : world ChunkFile.state) :
  fst (ChunkFile.fetchLoadedDocuments w) = Return tt /\
  (exists rest,
     log (snd (ChunkFile.fetchLoadedDocuments w)) =
       (log w ++ (store w, Fetch (Stage.listRequest Stage.Chunk)) :: rest)%list) /\
  ChunkFile.loadedDocuments (store (snd (ChunkFile.fetchLoadedDocuments w))) =
    Stage.relisted (respond (length (log w)) (Stage.listRequest Stage.Chunk))
      (ChunkFile.loadedDocuments (store w)).
Proof.
  split; [|split].
  - unfold ChunkFile.fetchLoadedDocuments, try_catch.
    match goal with |- context [match ?m w with _ => _ end] => destruct (m w) as [[[]|e] w1] end;
      reflexivity.
  - unfold ChunkFile.fetchLoadedDocuments. apply first_fetch.
    + intros a. grow.
    + intros e. grow.
  - unfold ChunkFile.fetchLoadedDocuments, Stage.relisted, Stage.listRequest.
    unfold try_catch at 1. unfold bind at 1. unfold fetch at 1.
    destruct (respond _ _) as [msg|rp]; cbn [fst snd store log]; [reflexivity|].
    unfold bind at 1, lift at 1.
    destruct (json rp) as [data|e]; cbn [obind fst snd store log]; [|reflexivity].
    unfold bind at 1, lift at 1.
    destruct (get_prop data "documents") as [docs|e];
      cbn [obind fst snd store log]; [|reflexivity].
    unfold bind at 1, update at 1. cbn [store log].
    match goal with
    | |- context [match ?m ?w1 with _ => _ end] =>
        assert (K : keeps ChunkFile.loadedDocuments m) by keep;
        specialize (K w1); destruct (m w1) as [[a|e] w2]
    end; cbn [fst snd store log] in *; exact K.
Qed.

End Refresh.

Section Registry.
Context {eng : engine} {env : environment}.

Lemma get_prop_of_value (data : value) (k : string) :
  nullish data = false -> exists v, get_prop data k = Return v.
Proof. destruct data; try discriminate; intros _; eexists; reflexivity. Qed.

(** After an accepted submit the Load and Chunk pages send the list request
    next, and the list hook then holds what the reply listed. *)
Lemma relist_after_submit (st : Stage.stage) (w : world (Stage.state st))
    (req : request) (rp : reply) (data : value) :
  st <> Stage.Parse ->
  Stage.inputSelected st (store w) = true ->
  Stage.methodSelected st (store w) = true ->
  Stage.submitRequest st (store w) = Some req ->
  respond (length (log w)) req = Resolved rp ->
  ok rp = true ->
  json rp = Return data ->
  nullish data = false ->
  (exists s1 s2 rest,
     log (snd (fire (Stage.submit st) w)) =
       (log w ++ (s1, Fetch req) :: (s2, Fetch (Stage.listRequest st)) :: rest)%list) /\
  Stage.listed st (store (snd (fire (Stage.submit st) w))) =
    Stage.relisted (respond (S (length (log w))) (Stage.listRequest st))
      (Stage.listed st (store w)).
Proof.
  intros Hst Hin Hm Hreq Hresp Hok Hjson Hdata.
  destruct st; [| |congruence];
    cbn [Stage.state Stage.inputSelected Stage.methodSelected Stage.submit
         Stage.submitRequest Stage.listed] in *;
    destruct w as [s l]; unfold fire; cbn [store log] in *.
  - remember (LoadFile.handleProcess s {| store := s; log := l |}) as run eqn:Hrun.
    unfold LoadFile.handleProcess in Hrun.
    destruct (LoadFile.file s) as [f|]; [|discriminate].
    injection Hreq as <-. cbn [truthy] in Hrun. rewrite Hm in Hrun.
    cbn [negb] in Hrun.
    destruct (get_prop_of_value data "loaded_content" Hdata) as [c Hc].
    unfold bind at 1 2, update at 1 2, try_catch at 1 in Hrun.
    cbn [store log] in Hrun.
    unfold bind at 1, fetch at 1 in Hrun. cbn [store log] in Hrun.
    rewrite Hresp, Hok in Hrun. cbn [negb] in Hrun.
    unfold bind at 1, lift at 1 in Hrun. rewrite Hjson in Hrun.
    unfold bind at 1, lift at 1 in Hrun. rewrite Hc in Hrun.
    unfold bind at 1 2, update at 1 2 in Hrun. cbn [store log emit] in Hrun.
    unfold bind at 1 in Hrun.
    match type of Hrun with
    | context [LoadFile.fetchDocuments ?w2] =>
        destruct (fetchDocuments_run w2) as (R & L & D & _);
        destruct (LoadFile.fetchDocuments w2) as [o w3]
    end.
    cbn [fst snd store log] in *. subst o run. cbn [fst snd store log update].
    split.
    + rewrite L, <- app_assoc. eexists _, _, []. reflexivity.
    + rewrite length_app, Nat.add_1_r in D. exact D.
  - injection Hreq as <-.
    remember (ChunkFile.handleChunk s {| store := s; log := l |}) as run eqn:Hrun.
    unfold ChunkFile.handleChunk in Hrun. cbn [truthy] in Hrun.
    rewrite Hin, Hm in Hrun. cbn [negb orb] in Hrun.
    destruct (get_prop_of_value data "filename" Hdata) as [v1 H1].
    destruct (get_prop_of_value data "total_pages" Hdata) as [v2 H2].
    destruct (get_prop_of_value data "total_chunks" Hdata) as [v3 H3].
    destruct (get_prop_of_value data "loading_method" Hdata) as [v4 H4].
    destruct (get_prop_of_value data "chunking_method" Hdata) as [v5 H5].
    destruct (get_prop_of_value data "chunking_config" Hdata) as [v6 H6].
    destruct (get_prop_of_value data "timestamp" Hdata) as [v7 H7].
    destruct (get_prop_of_value data "chunks" Hdata) as [v8 H8].
    unfold bind at 1 2, update at 1 2, try_catch at 1 in Hrun.
    cbn [store log] in Hrun.
    unfold bind at 1, fetch at 1 in Hrun. cbn [store log] in Hrun.
    rewrite Hresp, Hok in Hrun. cbn [negb] in Hrun.
    unfold bind at 1, lift at 1 in Hrun. rewrite Hjson in Hrun.
    unfold bind, lift in Hrun. rewrite H1, H2, H3, H4, H5, H6, H7, H8 in Hrun.
    unfold update in Hrun. cbn [store log emit] in Hrun.
    match type of Hrun with
    | context [ChunkFile.fetchLoadedDocuments ?w2] =>
        destruct (fetchLoadedDocuments_run w2) as (R & (rest & L) & D);
        destruct (ChunkFile.fetchLoadedDocuments w2) as [o w3]
    end.
    cbn [fst snd store log] in *. subst o run. cbn [fst snd store log].
    split.
    + rewrite L, <- app_assoc. eexists _, _, rest. reflexivity.
    + rewrite length_app, Nat.add_1_r in D. exact D.
Qed.

(** After an accepted delete the Load and Chunk pages send the list request
    next, and the list hook then holds what the reply listed. *)
Lemma relist_after_delete (st : Stage.stage) (w : world (Stage.state st))
    (name : string) (rp : reply) :
  st <> Stage.Parse ->
  respond (length (log w)) (Stage.deleteRequest st name) = Resolved rp ->
  ok rp = true ->
  (exists s1 s2 rest,
     log (snd (fire (Stage.delete st name) w)) =
       (log w ++ (s1, Fetch (Stage.deleteRequest st name)) ::
        (s2, Fetch (Stage.listRequest st)) :: rest)%list) /\
  Stage.listed st (store (snd (fire (Stage.delete st name) w))) =
    Stage.relisted (respond (S (length (log w))) (Stage.listRequest st))
      (Stage.listed st (store w)).
Proof.
  intros Hst Hresp Hok.
  destruct st; [| |congruence];
    cbn [Stage.state Stage.delete Stage.deleteRequest Stage.listed] in *;
    destruct w as [s l]; unfold fire; cbn [store log] in *.
  - remember (LoadFile.handleDeleteDocument name s {| store := s; log := l |})
      as run eqn:Hrun.
    unfold LoadFile.handleDeleteDocument in Hrun.
    unfold try_catch at 1 in Hrun. unfold bind at 1, fetch at 1 in Hrun.
    cbn [store log] in Hrun. rewrite Hresp, Hok in Hrun. cbn [negb] in Hrun.
    unfold bind at 1 2, update at 1 in Hrun. cbn [store log emit] in Hrun.
    match type of Hrun with
    | context [LoadFile.fetchDocuments ?w2] =>
        destruct (fetchDocuments_run w2) as (R & L & D & _);
        destruct (LoadFile.fetchDocuments w2) as [o w3]
    end.
    cbn [fst snd store log] in *. subst o.
    destruct (is_str _ name); subst run;
      cbn [fst snd store log bind update ret];
      (split; [rewrite L, <- app_assoc; eexists _, _, []; reflexivity|]);
      rewrite length_app, Nat.add_1_r in D; exact D.
  - remember (ChunkFile.handleDeleteDocument name s {| store := s; log := l |})
      as run eqn:Hrun.
    unfold ChunkFile.handleDeleteDocument in Hrun.
    unfold try_catch at 1 in Hrun. unfold bind at 1, fetch at 1 in Hrun.
    cbn [store log] in Hrun. rewrite Hresp, Hok in Hrun. cbn [negb] in Hrun.
    unfold bind at 1 2, update at 1 in Hrun. cbn [store log emit] in Hrun.
    match type of Hrun with
    | context [ChunkFile.fetchLoadedDocuments ?w2] =>
        destruct (fetchLoadedDocuments_run w2) as (R & (rest & L) & D);
        destruct (ChunkFile.fetchLoadedDocuments w2) as [o w3]
    end.
    cbn [fst snd store log] in *. subst o.
    destruct (String.eqb _ name); subst run;
      cbn [fst snd store log bind update ret];
      (split; [rewrite L, <- app_assoc; eexists _, _, rest; reflexivity|]);
      rewrite length_app, Nat.add_1_r in D; exact D.
Qed.

(** The Parse page sends nothing after the processing request. *)
Lemma parse_submit_sends_once (w : world ParseFile.state) (req : request)
    (rp : reply) :
  Stage.inputSelected Stage.Parse (store w) = true ->
  Stage.methodSelected Stage.Parse (store w) = true ->
  Stage.submitRequest Stage.Parse (store w) = Some req ->
  respond (length (log w)) req = Resolved rp ->
  exists s1,
    log (snd (fire (Stage.submit Stage.Parse) w)) =
      (log w ++ [(s1, Fetch req)])%list.
Proof.
  cbn [Stage.state Stage.inputSelected Stage.methodSelected Stage.submit
       Stage.submitRequest].
  destruct w as [s l]; unfold fire; cbn [store log].
  intros Hin Hm Hreq Hresp. unfold ParseFile.handleProcess.
  destruct (ParseFile.file s) as [f|]; [|discriminate].
  injection Hreq as <-. apply andb_true_iff in Hm. destruct Hm as [Hm1 Hm2].
  cbn [truthy]. rewrite Hm1, Hm2. cbn [negb orb].
  unfold bind, try_catch, fetch, update, lift, throw. cbn [store log].
  rewrite Hresp. cbn [fst snd store log emit].
  destruct (ok rp); cbn [negb fst snd store log]; [|eexists; reflexivity].
  destruct (json rp) as [data|e]; cbn [fst snd store log]; [|eexists; reflexivity].
  destruct (get_prop data "parsed_content"); eexists; reflexivity.
Qed.

(** A confirmed delete on the Parse page sends the delete request and nothing
    after it, and takes the name out of the list that the page holds. *)
Lemma parse_delete_filters (w : world ParseFile.state) (name : string)
    (rp : reply) (docs : value) :
  answer (length (log w)) ("确定要删除 " ++ name ++ " 吗？") = true ->
  respond (S (length (log w))) (Stage.deleteRequest Stage.Parse name) = Resolved rp ->
  ok rp = true ->
  ParseFile.withoutDoc name (ParseFile.parsedDocs (store w)) = Return docs ->
  log (snd (fire (Stage.delete Stage.Parse name) w)) =
    (log w ++ [(store w, Confirm ("确定要删除 " ++ name ++ " 吗？"));
               (store w, Fetch (Stage.deleteRequest Stage.Parse name))])%list /\
  ParseFile.parsedDocs (store (snd (fire (Stage.delete Stage.Parse name) w))) = docs.
Proof.
  cbn [Stage.state Stage.delete Stage.deleteRequest].
  destruct w as [s l]; unfold fire; cbn [store log].
  intros Hans Hresp _ Hdocs.
  remember (ParseFile.handleDeleteParsed name s {| store := s; log := l |})
    as run eqn:Hrun.
  unfold ParseFile.handleDeleteParsed in Hrun.
  unfold bind at 1, window_confirm at 1 in Hrun. cbn [store log] in Hrun.
  rewrite Hans in Hrun. cbn [negb] in Hrun.
  unfold try_catch, bind, fetch, lift, update in Hrun.
  cbn [store log emit] in Hrun.
  rewrite length_app, Nat.add_1_r, Hresp in Hrun.
  cbn [fst snd store log emit] in Hrun. rewrite Hdocs in Hrun.
  subst run. cbn [fst snd store log]. split; [|reflexivity].
  now rewrite <- app_assoc.
Qed.

(** Opening the manage tab of the Parse page sends the list request, and
    nothing else. *)
Lemma parse_list_on_manage_tab (w : world ParseFile.state) :
  ParseFile.tab (store w) <> "manage" ->
  exists s1,
    log (snd (fire (ParseFile.selectTab "manage") w)) =
      (log w ++ [(s1, Fetch (Stage.listRequest Stage.Parse))])%list.
Proof.
  destruct w as [s l]; unfold fire; cbn [store log].
  intros Htab. apply String.eqb_neq in Htab.
  unfold ParseFile.selectTab. rewrite Htab, String.eqb_refl. cbn [negb andb].
  unfold ParseFile.fetchParsedDocs, Stage.listRequest.
  unfold bind, try_catch, fetch, update, lift. cbn [store log].
  destruct (respond _ _) as [msg|rp]; cbn [fst snd store log emit];
    [eexists; reflexivity|].
  destruct (json rp) as [data|e]; cbn [fst snd store log];
    [|eexists; reflexivity].
  destruct (get_prop data "documents"); eexists; reflexivity.
Qed.

(** C7 (as the code has it). After an accepted submit and after an accepted
    delete, the Load and Chunk pages send the registry list request next and
    fill the list hook with what the reply listed.  The Parse page sends no
    list request after either: a submit sends the processing request only, and
    a confirmed delete sends the delete request only and removes the name
    from the list held by the page; the page sends its list request when the
    manage tab is opened. *)
Theorem registry_refresh :
  (forall (st : Stage.stage) (w : world (Stage.state st)) (req : request)
          (rp : reply) (data : value),
     st <> Stage.Parse ->
     Stage.inputSelected st (store w) = true ->
     Stage.methodSelected st (store w) = true ->
     Stage.submitRequest st (store w) = Some req ->
     respond (length (log w)) req = Resolved rp ->
     ok rp = true ->
     json rp = Return data ->
     nullish data = false ->
     (exists s1 s2 rest,
        log (snd (fire (Stage.submit st) w)) =
          (log w ++ (s1, Fetch req) ::
           (s2, Fetch (Stage.listRequest st)) :: rest)%list) /\
     Stage.listed st (store (snd (fire (Stage.submit st) w))) =
       Stage.relisted (respond (S (length (log w))) (Stage.listRequest st))
         (Stage.listed st (store w))) /\
  (forall (st : Stage.stage) (w : world (Stage.state st)) (name : string)
          (rp : reply),
     st <> Stage.Parse ->
     respond (length (log w)) (Stage.deleteRequest st name) = Resolved rp ->
     ok rp = true ->
     (exists s1 s2 rest,
        log (snd (fire (Stage.delete st name) w)) =
          (log w ++ (s1, Fetch (Stage.deleteRequest st name)) ::
           (s2, Fetch (Stage.listRequest st)) :: rest)%list) /\
     Stage.listed st (store (snd (fire (Stage.delete st name) w))) =
       Stage.relisted (respond (S (length (log w))) (Stage.listRequest st))
         (Stage.listed st (store w))) /\
  (forall (w : world ParseFile.state) (req : request) (rp : reply),
     Stage.inputSelected Stage.Parse (store w) = true ->
     Stage.methodSelected Stage.Parse (store w) = true ->
     Stage.submitRequest Stage.Parse (store w) = Some req ->
     respond (length (log w)) req = Resolved rp ->
     exists s1,
       log (snd (fire (Stage.submit Stage.Parse) w)) =
         (log w ++ [(s1, Fetch req)])%list) /\
  (forall (w : world ParseFile.state) (name : string) (rp : reply)
          (docs : value),
     answer (length (log w)) ("确定要删除 " ++ name ++ " 吗？") = true ->
     respond (S (length (log w))) (Stage.deleteRequest Stage.Parse name) =
       Resolved rp ->
     ok rp = true ->
     ParseFile.withoutDoc name (ParseFile.parsedDocs (store w)) = Return docs ->
     log (snd (fire (Stage.delete Stage.Parse name) w)) =
       (log w ++ [(store w, Confirm ("确定要删除 " ++ name ++ " 吗？"));
                  (store w, Fetch (Stage.deleteRequest Stage.Parse name))])%list /\
     ParseFile.parsedDocs (store (snd (fire (Stage.delete Stage.Parse name) w))) =
       docs) /\
  (forall (w : world ParseFile.state),
     ParseFile.tab (store w) <> "manage" ->
     exists s1,
       log (snd (fire (ParseFile.selectTab "manage") w)) =
         (log w ++ [(s1, Fetch (Stage.listRequest Stage.Parse))])%list).
Proof.
  split; [exact relist_after_submit|].
  split; [exact relist_after_delete|].
  split; [exact parse_submit_sends_once|].
  split; [exact parse_delete_filters|exact parse_list_on_manage_tab].
Qed.

(** The delete handler of the Parse page never writes the result hook. *)
Lemma parse_delete_keeps_result (name : string) (s : ParseFile.state) :
  keeps ParseFile.parsedContent (ParseFile.handleDeleteParsed name s).
Proof.
  unfold ParseFile.handleDeleteParsed.
  apply keeps_bind; [intros w; reflexivity|]. intros confirmed. keep.
  intros w; reflexivity.
Qed.

(** The view handler of the Chunk page never writes the selection, and its
    delete handler writes the result only for the selected name. *)
Lemma chunk_view_keeps_selection (name : string) (s : ChunkFile.state) :
  keeps ChunkFile.selectedDoc (ChunkFile.handleViewDocument name s).
Proof. unfold ChunkFile.handleViewDocument. keep. Qed.

Lemma chunk_delete_keeps_result (name : string) (s : ChunkFile.state) :
  ChunkFile.selectedDoc s <> name ->
  keeps ChunkFile.chunks (ChunkFile.handleDeleteDocument name s).
Proof.
  intros Hne. apply String.eqb_neq in Hne.
  unfold ChunkFile.handleDeleteDocument. rewrite Hne.
  unfold ChunkFile.fetchLoadedDocuments, ChunkFile.withDetails. keep.
Qed.

End Registry.

(** C7 (as stated) fails on the Parse page. The registry of the service is
    empty; the operator deletes [a] from a page that lists [a] and [b]. The
    page sends the delete request and no list request, and its list is the old
    one without [a], not the registry's. A submit sends the processing request
    and no list request. *)
Lemma parse_page_patches_its_list :
  let env := Scenario.registry Scenario.parsedArtifact in
  let deleted := snd (fire (Stage.delete (env := env) Stage.Parse "a")
                           (start Scenario.twoParsed)) in
  let submitted := snd (fire (Stage.submit (env := env) Stage.Parse)
                             (start Scenario.reportPicked)) in
  requests deleted = [Stage.deleteRequest (env := env) Stage.Parse "a"] /\
  ~ In (Stage.listRequest (env := env) Stage.Parse) (requests deleted) /\
  ParseFile.parsedDocs (store deleted) = VArr [VObj [("name", VStr "b")]] /\
  @respond env 2 (Stage.listRequest (env := env) Stage.Parse) =
    Scenario.jsonReply 200 (VObj [("documents", VArr [])]) /\
  ParseFile.status (store submitted) = "处理完成！" /\
  map req_url (requests submitted) = [Scenario.base ++ "/parse"].
Proof.
  cbv zeta. repeat split.
  intros [H|[]]. discriminate H.
Qed.

(** ** The theorems at sample inputs *)

(** C3 on the initial chunk page, where no document is selected. *)
Lemma submit_without_selection_witness :
  Stage.inputSelected Stage.Chunk ChunkFile.initial = false /\
  fire (Stage.submit (env := Scenario.refusing "") Stage.Chunk)
       (start ChunkFile.initial) =
    (Return tt,
     {| store := ChunkFile.setStatus "请选择文档和分块方法" ChunkFile.initial;
        log := [] |}).
Proof.
  split; [reflexivity|].
  apply (@submit_without_selection Scenario.sampleEngine (Scenario.refusing "")
           Stage.Chunk (start ChunkFile.initial)).
  left. reflexivity.
Defined.

(** C10 on the chunk page that shows a result, with a service that refuses the request. *)
Lemma submit_clears_result_first_witness :
  let env := Scenario.refusing "Document not found" in
  let w := start Scenario.showingChunks in
  Stage.result Stage.Chunk (store w) = Scenario.chunkedArtifact /\
  exists req,
    Stage.submitRequest (env := env) Stage.Chunk (store w) = Some req /\
    (exists s rest,
       log (snd (fire (Stage.submit (env := env) Stage.Chunk) w)) =
         (log w ++ (s, Fetch req) :: rest)%list /\
       Stage.result Stage.Chunk s = VNull) /\
    (Stage.failed (@respond env (length (log w)) req) = true ->
     Stage.result Stage.Chunk
       (store (snd (fire (Stage.submit (env := env) Stage.Chunk) w))) = VNull).
Proof.
  cbv zeta. split; [reflexivity|].
  apply (@submit_clears_result_first Scenario.sampleEngine
           (Scenario.refusing "Document not found") Stage.Chunk
           (start Scenario.showingChunks)); reflexivity.
Defined.

(** C1 for the custom sentence separators of the tuned chunk page. *)
Lemma separator_resolution_witness :
  let env := Scenario.refusing "" in
  let w := start Scenario.tuned in
  let sep := {| Separators.key := "sentence_separators";
                Separators.type := Separators.SentenceType;
                Separators.preset := ChunkFile.SentenceSeparator;
                Separators.custom := ChunkFile.CustomSentenceSeparator |} in
  Separators.resolve (Separators.type sep)
    (ChunkFile.read (Separators.preset sep) (ChunkFile.parameters (store w)))
    (ChunkFile.read (Separators.custom sep) (ChunkFile.parameters (store w))) =
    Some (VArr [VStr ";"; VStr ":"]) /\
  exists s rest entries sent,
    log (snd (fire (ChunkFile.handleChunk (env := env)) w)) =
      (log w ++ (s, Fetch (ChunkFile.chunkRequest (env := env) (store w))) :: rest)%list /\
    req_body (ChunkFile.chunkRequest (env := env) (store w)) =
      JsonBody (VObj entries) /\
    Separators.resolve (Separators.type sep)
      (ChunkFile.read (Separators.preset sep) (ChunkFile.parameters (store w)))
      (ChunkFile.read (Separators.custom sep) (ChunkFile.parameters (store w))) =
      Some sent /\
    lookup (Separators.key sep) entries = Some sent.
Proof.
  cbv zeta. split; [reflexivity|].
  apply (@separator_resolution Scenario.sampleEngine (Scenario.refusing "")
           (start Scenario.tuned) ChunkFile.by_pages).
  - discriminate.
  - reflexivity.
  - cbn. tauto.
Defined.

(** C8 on the chunk page with the document [report] selected. *)
Lemma chunk_request_body_witness :
  let env := Scenario.registry Scenario.chunkedArtifact in
  let w := start Scenario.reportSelected in
  exists s rest id entries,
    log (snd (fire (ChunkFile.handleChunk (env := env)) w)) =
      (log w ++
       (s, Fetch {| req_method := POST;
                    req_url := Scenario.base ++ "/chunk";
                    req_headers := [("Content-Type", "application/json")];
                    req_body := JsonBody (VObj entries) |}) :: rest)%list /\
    lookup "doc_id" entries = Some (VStr id) /\
    lookup "chunking_option" entries =
      Some (VStr (ChunkFile.chunkingOption (store w))) /\
    endsWith id ".json" = true /\
    (endsWith (ChunkFile.selectedDoc (store w)) ".json" = true ->
     id = ChunkFile.selectedDoc (store w)) /\
    (endsWith (ChunkFile.selectedDoc (store w)) ".json" = false ->
     id = ChunkFile.selectedDoc (store w) ++ ".json") /\
    keys entries = ChunkFile.bodyKeys /\
    NoDup ChunkFile.bodyKeys /\
    (forall m f, In f (ChunkFile.variant_fields m) ->
                 In (ChunkFile.wire_key f) (keys entries)).
Proof.
  cbv zeta.
  apply (@chunk_request_body Scenario.sampleEngine
           (Scenario.registry Scenario.chunkedArtifact)
           (start Scenario.reportSelected)); discriminate.
Defined.

(** C7 for a confirmed delete on the Parse page that lists two documents. *)
Lemma registry_refresh_witness :
  let env := Scenario.registry Scenario.parsedArtifact in
  let w := start Scenario.twoParsed in
  log (snd (fire (Stage.delete (env := env) Stage.Parse "a") w)) =
    [(store w, Confirm "确定要删除 a 吗？");
     (store w, Fetch (Stage.deleteRequest (env := env) Stage.Parse "a"))] /\
  ParseFile.parsedDocs
    (store (snd (fire (Stage.delete (env := env) Stage.Parse "a") w))) =
    VArr [VObj [("name", VStr "b")]].
Proof.
  cbv zeta.
  apply (proj1 (proj2 (proj2 (proj2
           (@registry_refresh Scenario.sampleEngine
              (Scenario.registry Scenario.parsedArtifact)))))
           (start Scenario.twoParsed) "a"
           {| status := 200;
              content := JsonText (VObj [("status", VStr "success")]) |});
    reflexivity.
Defined.

(** * Further properties of the pages *)

(** ** Splitting and joining *)

Lemma append_assoc (a b d : string) : (a ++ b) ++ d = a ++ (b ++ d).
Proof. induction a as [|x a IH]; simpl; [reflexivity|now rewrite IH]. Qed.

Lemma prefix_append (a b : string) : String.prefix a (a ++ b) = true.
Proof.
  induction a as [|x a IH]; simpl; [destruct b; reflexivity|].
  destruct (ascii_dec x x); [exact IH|congruence].
Qed.

Lemma prefix_nil (s : string) : String.prefix "" s = true.
Proof. destruct s; reflexivity. Qed.

Section Splitting.
Variable c : ascii.

Lemma split_not_nil (s : string) : split c s <> [].
Proof.
  destruct s as [|a r]; simpl; [discriminate|].
  destruct (Ascii.eqb a c); [discriminate|].
  destruct (split c r); discriminate.
Qed.

Lemma includes_char (a : ascii) (r : string) :
  includes (String a r) (String c "") =
  Ascii.eqb a c || includes r (String c "").
Proof.
  cbn [includes String.prefix].
  destruct (ascii_dec c a) as [->|Hne].
  - rewrite Ascii.eqb_refl. destruct r; reflexivity.
  - assert (E : Ascii.eqb a c = false) by (apply Ascii.eqb_neq; congruence).
    rewrite E. reflexivity.
Qed.

Lemma split_parts_clean (s : string) :
  Forall (fun p => includes p (String c "") = false) (split c s).
Proof.
  induction s as [|a r IH]; simpl.
  - constructor; [reflexivity|constructor].
  - destruct (Ascii.eqb a c) eqn:E.
    + constructor; [reflexivity|exact IH].
    + destruct (split c r) as [|h t].
      * constructor; [|constructor]. rewrite includes_char, E. reflexivity.
      * inversion IH as [|? ? Hh Ht]; subst. constructor; [|exact Ht].
        rewrite includes_char, E. exact Hh.
Qed.

Lemma join_split (s : string) : join (String c "") (split c s) = s.
Proof.
  induction s as [|a r IH]; simpl; [reflexivity|].
  destruct (Ascii.eqb a c) eqn:E.
  - apply Ascii.eqb_eq in E. subst a.
    pose proof (split_not_nil r) as Hn.
    destruct (split c r) as [|h t]; [congruence|].
    change (join (String c "") ("" :: h :: t))
      with ("" ++ String c "" ++ join (String c "") (h :: t)).
    rewrite IH. reflexivity.
  - pose proof (split_not_nil r) as Hn.
    destruct (split c r) as [|h t]; [congruence|].
    destruct t as [|h2 t].
    + cbn [join] in *. now rewrite IH.
    + change (join (String c "") (String a h :: h2 :: t))
        with (String a (h ++ String c "" ++ join (String c "") (h2 :: t))).
      change (join (String c "") (h :: h2 :: t))
        with (h ++ String c "" ++ join (String c "") (h2 :: t)) in IH.
      now rewrite IH.
Qed.

Lemma split_clean (s : string) :
  includes s (String c "") = false -> split c s = [s].
Proof.
  induction s as [|a r IH]; [reflexivity|].
  rewrite includes_char. intros H. apply orb_false_iff in H.
  destruct H as [E Hr]. simpl. rewrite E, (IH Hr). reflexivity.
Qed.

Lemma split_app (s1 s2 : string) :
  split c (s1 ++ String c s2) = (split c s1 ++ split c s2)%list.
Proof.
  induction s1 as [|a r IH]; simpl.
  - rewrite Ascii.eqb_refl. reflexivity.
  - destruct (Ascii.eqb a c); rewrite IH; [reflexivity|].
    pose proof (split_not_nil r) as Hn.
    destruct (split c r) as [|h t]; [congruence|reflexivity].
Qed.

Lemma join_snoc (sep : string) (l : list string) (e : string) :
  l <> [] -> join sep (l ++ [e]) = join sep l ++ sep ++ e.
Proof.
  induction l as [|x l IH]; [congruence|]. intros _.
  destruct l as [|y l].
  - reflexivity.
  - change (join sep ((x :: y :: l) ++ [e]))
      with (x ++ sep ++ join sep ((y :: l) ++ [e])).
    rewrite IH by discriminate.
    change (join sep (x :: y :: l)) with (x ++ sep ++ join sep (y :: l)).
    now rewrite !append_assoc.
Qed.

(** [s.split(c).pop()] is the text after the last [c] of [s], or [s] when
    it holds no [c]. *)
Lemma pop_split (s : string) :
  includes (pop (split c s)) (String c "") = false /\
  (s = pop (split c s) \/
   exists stem, s = stem ++ String c (pop (split c s))).
Proof.
  pose proof (split_not_nil s) as Hn.
  pose proof (split_parts_clean s) as Hc.
  pose proof (join_split s) as Hj.
  destruct (exists_last Hn) as (l & e & El). unfold pop.
  rewrite El in *. rewrite last_last.
  split.
  - apply Forall_app in Hc. destruct Hc as [_ Hc]. now inversion Hc.
  - destruct l as [|x l]; [left; now rewrite <- Hj|].
    right. exists (join (String c "") (x :: l)).
    rewrite <- Hj at 1. now rewrite join_snoc by discriminate.
Qed.

End Splitting.

(** ** The chunk request, hook by hook *)

Section ChunkBody.
Import ChunkFile.

(** X1. A sentence-type separator field of the chunk request is never an empty
    list, none of its items holds a bar, and joining its items with a bar
    gives back the text it was split from: the custom text when the preset is
    ["custom"], else the preset. *)
Theorem sentence_separators_round_trip (s : state) (id : string)
    (sep : Separators.separator) :
  In sep Separators.all ->
  Separators.type sep = Separators.SentenceType ->
  exists preset custom parts,
    read (Separators.preset sep) (parameters s) = VStr preset /\
    read (Separators.custom sep) (parameters s) = VStr custom /\
    get_prop_opt (chunkBody id s) (Separators.key sep) = VArr (map VStr parts) /\
    parts <> [] /\
    Forall (fun part => includes part "|" = false) parts /\
    join "|" parts = Lists.effective preset custom.
Proof.
  intros Hsep Hty. unfold Separators.all in Hsep. cbn [In] in Hsep.
  destruct Hsep as [<-|[<-|[<-|[<-|[<-|[]]]]]]; try discriminate Hty;
    cbn [Separators.preset Separators.custom Separators.key read];
    eexists _, _, (split "|" (Lists.effective _ _));
    (split; [reflexivity|]); (split; [reflexivity|]);
    (split; [|split; [apply split_not_nil|
              split; [apply split_parts_clean|apply join_split]]]);
    unfold Lists.effective, chunkBody; cbn [get_prop_opt];
    repeat match goal with
           | |- context [String.eqb ?a "custom"] =>
               destruct (String.eqb a "custom")
           end; reflexivity.
Qed.

(** X2. Choosing another method changes one entry of the chunk request, the
    [chunking_option]: every other key holds what it held. *)
Theorem method_changes_one_entry (s : state) (id v k : string) :
  k <> "chunking_option" ->
  get_prop_opt (chunkBody id (setChunkingOption v s)) k =
  get_prop_opt (chunkBody id s) k.
Proof.
  intros Hk. apply String.eqb_neq in Hk.
  unfold chunkBody. cbn [get_prop_opt parameters setChunkingOption chunkingOption].
  set (p := parameters s).
  cbv [object fold_left obj_set fst snd String.eqb Ascii.eqb Bool.eqb].
  cbn [lookup]. destruct (String.eqb k "doc_id"); [reflexivity|].
  rewrite Hk. reflexivity.
Qed.

End ChunkBody.

(** ** Picking a file *)

Section Picking.

(** X3. Picking a file on the Load page sends nothing, records the file and
    takes as file type the lower-cased text after the last dot of its name
    (the whole name when it has no dot).  The loading method follows the type
    for txt, pdf, csv and md, and stays what it was for any other type. *)
Theorem load_file_type_is_last_extension (w : world LoadFile.state) (f : File) :
  exists ext,
    includes ext "." = false /\
    (file_name f = ext \/ exists stem, file_name f = stem ++ "." ++ ext) /\
    LoadFile.fileType (store (snd (fire (LoadFile.handleFileChange (Some f)) w))) =
      Some (toLowerCase ext) /\
    LoadFile.file (store (snd (fire (LoadFile.handleFileChange (Some f)) w))) =
      Some f /\
    LoadFile.loadingMethod
      (store (snd (fire (LoadFile.handleFileChange (Some f)) w))) =
      (if String.eqb (toLowerCase ext) "txt" then "text"
       else if String.eqb (toLowerCase ext) "pdf" then "pymupdf"
       else if String.eqb (toLowerCase ext) "csv" then "csv"
       else if String.eqb (toLowerCase ext) "md" then "md"
       else LoadFile.loadingMethod (store w)) /\
    log (snd (fire (LoadFile.handleFileChange (Some f)) w)) = log w.
Proof.
  exists (pop (split "." (file_name f))).
  destruct (pop_split "." (file_name f)) as [Hclean Hname].
  split; [exact Hclean|]. split; [exact Hname|].
  unfold fire, LoadFile.handleFileChange.
  set (ext := toLowerCase (pop (split "." (file_name f)))).
  destruct (String.eqb ext "txt"); [repeat split|].
  destruct (String.eqb ext "pdf"); [repeat split|].
  destruct (String.eqb ext "csv"); [repeat split|].
  destruct (String.eqb ext "md"); repeat split.
Qed.

(** X4. A file name that ends in a dot and an extension (one or more
    characters, none of them a dot or a slash) loses exactly that ending in
    [baseName]. *)
Theorem baseName_strips_extension (stem ext : string) :
  ext <> "" ->
  includes ext "." = false ->
  includes ext "/" = false ->
  ParseFile.baseName (stem ++ "." ++ ext) = stem.
Proof.
  intros Hne Hdot Hslash. apply String.eqb_neq in Hne.
  unfold ParseFile.baseName.
  change (stem ++ "." ++ ext) with (stem ++ String "." ext).
  rewrite split_app, (split_clean "." ext Hdot), rev_app_distr.
  cbn [rev app].
  pose proof (split_not_nil "." stem) as Hn.
  destruct (rev (split "." stem)) as [|x xs] eqn:E.
  - apply (f_equal (@rev string)) in E. rewrite rev_involutive in E.
    cbn in E. congruence.
  - rewrite Hne, Hslash. cbn [negb andb].
    rewrite <- E, rev_involutive. apply join_split.
Qed.

(** X5. Whatever the file name, [baseName] returns it whole or without one
    final extension: a dot followed by one or more characters, none of them a
    dot or a slash. *)
Theorem baseName_only_strips_extension (name : string) :
  ParseFile.baseName name = name \/
  exists ext,
    ext <> "" /\
    includes ext "." = false /\
    includes ext "/" = false /\
    name = ParseFile.baseName name ++ "." ++ ext.
Proof.
  unfold ParseFile.baseName.
  pose proof (split_parts_clean "." name) as Hc.
  pose proof (join_split "." name) as Hj.
  destruct (rev (split "." name)) as [|ext [|x xs]] eqn:E; [now left|now left|].
  destruct (negb (String.eqb ext "") && negb (includes ext "/")) eqn:Hcond;
    [|now left].
  apply andb_true_iff in Hcond. destruct Hcond as [Hne Hslash].
  apply negb_true_iff in Hne, Hslash. apply String.eqb_neq in Hne.
  right. exists ext.
  apply (f_equal (@rev string)) in E. rewrite rev_involutive in E.
  cbn [rev] in E. rewrite <- app_assoc in E. cbn [app] in E.
  assert (E' : split "." name = (rev (x :: xs) ++ [ext])%list).
  { rewrite E. cbn [rev]. now rewrite <- app_assoc. }
  split; [exact Hne|]. split.
  - rewrite E' in Hc. apply Forall_app in Hc. destruct Hc as [_ Hc].
    now inversion Hc.
  - split; [exact Hslash|].
    rewrite <- Hj at 1. rewrite E'. apply join_snoc.
    cbn [rev]. intros H. apply app_eq_nil in H. destruct H; discriminate.
Qed.

(** X6. After a file is picked on the Parse page the submit guard passes: the
    file is recorded, the file type is [md] or [pdf], and the loading method
    and the parsing option are options of that file type.  The document name
    is the base name of the file, and nothing is sent. *)
Theorem parse_file_select_is_ready (w : world ParseFile.state) (f : File) :
  let s' := store (snd (fire (ParseFile.handleFileSelect (Some f)) w)) in
  ParseFile.file s' = Some f /\
  ParseFile.docName s' = ParseFile.baseName (file_name f) /\
  ParseFile.fileType s' =
    (if String.eqb (toLowerCase (pop (split "." (file_name f)))) "md"
     then "md" else "pdf") /\
  In (ParseFile.loadingMethod s') (ParseFile.loadingMethods (ParseFile.fileType s')) /\
  In (ParseFile.parsingOption s') (ParseFile.parsingOptions (ParseFile.fileType s')) /\
  Stage.inputSelected Stage.Parse s' = true /\
  Stage.methodSelected Stage.Parse s' = true /\
  log (snd (fire (ParseFile.handleFileSelect (Some f)) w)) = log w.
Proof.
  cbv zeta. unfold fire, ParseFile.handleFileSelect.
  destruct (String.eqb (toLowerCase (pop (split "." (file_name f)))) "md");
    cbn; repeat split; tauto.
Qed.

End Picking.

(** X4 for the name [report.final.pdf]. *)
Lemma baseName_strips_extension_witness :
  ParseFile.baseName "report.final.pdf" = "report.final".
Proof.
  apply (@baseName_strips_extension "report.final" "pdf");
    [discriminate|reflexivity|reflexivity].
Defined.

(** ** Viewing a stored artifact *)

Section Viewing.
Context {eng : engine} {env : environment}.

(** X7. On the Load and Chunk pages a view request that is rejected or
    answered with a status that is not 2xx leaves the displayed result, the
    selection and the active tab as they were; the page sends that one request
    and reports the failure in its status line. *)
Theorem failed_view_keeps_result :
  (forall (w : world LoadFile.state) (name : string) (fields : list (string * value)),
     lookup "name" fields = Some (VStr name) ->
     Stage.failed (respond (length (log w))
                     (get (apiBaseUrl ++ "/documents/" ++ name ++ ".json"))) = true ->
     let w' := snd (fire (LoadFile.handleViewDocument (VObj fields)) w) in
     LoadFile.loadedContent (store w') = LoadFile.loadedContent (store w) /\
     LoadFile.selectedDoc (store w') = LoadFile.selectedDoc (store w) /\
     LoadFile.activeTab (store w') = LoadFile.activeTab (store w) /\
     String.prefix "Error loading document: " (LoadFile.status (store w')) = true /\
     requests w' =
       (requests w ++ [get (apiBaseUrl ++ "/documents/" ++ name ++ ".json")])%list) /\
  (forall (w : world ChunkFile.state) (name : string),
     Stage.failed (respond (length (log w))
                     (get (apiBaseUrl ++ "/documents/" ++ name ++ "?type=chunked"))) = true ->
     let w' := snd (fire (ChunkFile.handleViewDocument name) w) in
     ChunkFile.chunks (store w') = ChunkFile.chunks (store w) /\
     ChunkFile.selectedDoc (store w') = ChunkFile.selectedDoc (store w) /\
     ChunkFile.activeTab (store w') = ChunkFile.activeTab (store w) /\
     ChunkFile.status (store w') = ChunkFile.status (store w) /\
     String.prefix "查看文档时出错: " (ChunkFile.processingStatus (store w')) = true /\
     requests w' =
       (requests w ++ [get (apiBaseUrl ++ "/documents/" ++ name ++ "?type=chunked")])%list).
Proof.
  split.
  - intros [s l] name fields Hname Hfail. cbv zeta.
    unfold fire, LoadFile.handleViewDocument, requests.
    cbn [store log get_prop] in *. rewrite Hname. cbn [to_string].
    unfold bind, try_catch, update, lift, fetch, throw. cbn [store log fst snd].
    unfold Stage.failed in Hfail.
    destruct (respond _ _) as [msg|rp]; cbn [fst snd store log emit].
    + rewrite flat_map_app. cbn. repeat split; apply prefix_nil.
    + rewrite Hfail. unfold emit. cbn [fst snd store log].
      rewrite flat_map_app. cbn. repeat split; apply prefix_nil.
  - intros [s l] name Hfail. cbv zeta.
    unfold fire, ChunkFile.handleViewDocument, requests. cbn [store log] in *.
    unfold bind, try_catch, update, lift, fetch, throw. cbn [store log fst snd].
    unfold Stage.failed in Hfail.
    destruct (respond _ _) as [msg|rp]; cbn [fst snd store log emit].
    + rewrite flat_map_app. cbn. repeat split; apply prefix_nil.
    + rewrite Hfail. unfold emit. cbn [fst snd store log].
      rewrite flat_map_app. cbn. repeat split; apply prefix_nil.
Qed.

(** X8. The Parse page does not look at the status of a view reply: the JSON
    body of any reply becomes the displayed result and the preview tab opens;
    a rejected request or a body that is not JSON empties the displayed result
    and leaves the tab. Either way one request is sent. *)
Theorem parse_view_ignores_status (w : world ParseFile.state) (name : string) :
  let request := get (apiBaseUrl ++ "/parsed-docs/" ++ name) in
  let w' := snd (fire (ParseFile.handleViewParsed name) w) in
  log w' = (log w ++ [(store w, Fetch request)])%list /\
  (forall code v,
     respond (length (log w)) request =
       Resolved {| status := code; content := JsonText v |} ->
     ParseFile.parsedContent (store w') = v /\
     ParseFile.tab (store w') = "preview") /\
  ((exists msg, respond (length (log w)) request = Rejected msg) \/
   (exists code msg,
      respond (length (log w)) request =
        Resolved {| status := code; content := NotJson msg |}) ->
   ParseFile.parsedContent (store w') = VNull /\
   ParseFile.tab (store w') = ParseFile.tab (store w)).
Proof.
  destruct w as [s l]. cbv zeta.
  unfold fire, ParseFile.handleViewParsed. cbn [store log].
  unfold bind, try_catch, update, lift, fetch, json. cbn [store log].
  destruct (respond _ _) as [msg|[code [v|msg]]];
    cbn [fst snd store log emit content];
    (split; [reflexivity|]); split.
  - intros code v H. discriminate H.
  - intros _. split; reflexivity.
  - intros code' v' H. injection H as _ <-. split; reflexivity.
  - intros [[m H]|(c' & m & H)]; discriminate H.
  - intros code' v' H. discriminate H.
  - intros _. split; reflexivity.
Qed.

(** X9. On the Load page, deleting the document that was just viewed empties
    the result and the selection, whatever the registry then lists. *)
Theorem load_delete_after_view_clears (w : world LoadFile.state) (name : string)
    (fields : list (string * value)) (viewed deleted : reply) (data : value) :
  lookup "name" fields = Some (VStr name) ->
  respond (length (log w))
    (get (apiBaseUrl ++ "/documents/" ++ name ++ ".json")) = Resolved viewed ->
  ok viewed = true ->
  json viewed = Return data ->
  respond (S (length (log w)))
    (Fx.delete (apiBaseUrl ++ "/documents/" ++ name)) = Resolved deleted ->
  ok deleted = true ->
  let w1 := snd (fire (LoadFile.handleViewDocument (VObj fields)) w) in
  let w2 := snd (fire (LoadFile.handleDeleteDocument name) w1) in
  (LoadFile.loadedContent (store w1) = data /\
   LoadFile.selectedDoc (store w1) = VObj fields) /\
  (LoadFile.loadedContent (store w2) = VNull /\
   LoadFile.selectedDoc (store w2) = VNull /\
   LoadFile.status (store w2) = "Document deleted successfully").
Proof.
  destruct w as [s l]. cbn [store log]. intros Hname Hview Hok Hjson Hdel Hokd.
  cbv zeta.
  remember (snd (fire (LoadFile.handleViewDocument (VObj fields))
                      {| store := s; log := l |})) as w1 eqn:E1.
  unfold fire, LoadFile.handleViewDocument in E1. cbn [store log get_prop] in E1.
  rewrite Hname in E1. cbn [to_string] in E1.
  unfold bind, try_catch, update, lift, fetch, throw in E1.
  cbn [store log fst snd] in E1.
  change (to_string (VStr name)) with name in E1. rewrite Hview in E1.
  cbn [fst snd store log emit] in E1. rewrite Hok, Hjson in E1.
  cbn [negb fst snd store log] in E1. subst w1.
  split; [split; reflexivity|].
  unfold fire. cbn [store log].
  remember (LoadFile.handleDeleteDocument _ _ _) as run eqn:Hrun.
  unfold LoadFile.handleDeleteDocument in Hrun.
  cbn [LoadFile.selectedDoc LoadFile.setStatus LoadFile.setActiveTab
       LoadFile.setLoadedContent LoadFile.setSelectedDoc get_prop_opt is_str]
    in Hrun.
  rewrite Hname in Hrun. cbn [is_str] in Hrun. rewrite String.eqb_refl in Hrun.
  unfold try_catch at 1 in Hrun. unfold bind at 1, fetch at 1 in Hrun.
  unfold emit in Hrun.
  cbn [store log] in Hrun. rewrite length_app, Nat.add_1_r in Hrun.
  cbn [length] in Hrun. rewrite Hdel, Hokd in Hrun. cbn [negb] in Hrun.
  unfold bind at 1 2, update at 1 in Hrun. cbn [store log emit] in Hrun.
  match type of Hrun with
  | context [LoadFile.fetchDocuments ?w2] =>
      destruct (fetchDocuments_run w2) as (R & _);
      assert (K : keeps LoadFile.status LoadFile.fetchDocuments)
        by (unfold LoadFile.fetchDocuments; keep);
      specialize (K w2);
      destruct (LoadFile.fetchDocuments w2) as [o w3]
  end.
  cbn [fst snd store log] in *. subst o run.
  cbn [fst snd store log bind update]. repeat split. exact K.
Qed.

End Viewing.

(** ** The registry of parsed documents *)

Section ParsedRegistry.
Context {eng : engine} {env : environment}.

(** X10. [fetchParsedDocs] always returns, sends exactly the list request and
    ends with the loading flag off, the displayed result untouched.  What it
    leaves in the list and in the error text is fixed by the reply to that
    request: a reply that is read as JSON with a [documents] member clears the
    error and stores the member, or the empty list when the member is missing
    or falsy; a request that is rejected, or a reply that is not JSON or is
    [null], leaves the list as it was and sets the error text.  So the list is
    never made [null] or [undefined]. *)
Theorem fetchParsedDocs_settles (w : world ParseFile.state) :
  let w' := snd (ParseFile.fetchParsedDocs w) in
  let read :=
    match respond (length (log w)) (Stage.listRequest Stage.Parse) with
    | Resolved rp => obind (json rp) (fun data => get_prop data "documents")
    | Rejected msg => Throw (TypeError msg)
    end in
  fst (ParseFile.fetchParsedDocs w) = Return tt /\
  (exists s1, log w' = (log w ++ [(s1, Fetch (Stage.listRequest Stage.Parse))])%list) /\
  ParseFile.parsedLoading (store w') = false /\
  ParseFile.parsedContent (store w') = ParseFile.parsedContent (store w) /\
  (nullish (ParseFile.parsedDocs (store w)) = false ->
   nullish (ParseFile.parsedDocs (store w')) = false) /\
  (forall docs, read = Return docs ->
     ParseFile.parsedError (store w') = "" /\
     ParseFile.parsedDocs (store w') = (if truthy docs then docs else VArr [])) /\
  (forall e, read = Throw e ->
     ParseFile.parsedError (store w') = "获取解析文档失败" /\
     ParseFile.parsedDocs (store w') = ParseFile.parsedDocs (store w)).
Proof.
  destruct w as [s l]. cbv zeta.
  unfold ParseFile.fetchParsedDocs, Stage.listRequest.
  unfold bind, try_catch, update, lift, fetch. cbn [store log].
  destruct (respond _ _) as [msg|rp]; cbn [fst snd store log emit].
  - split; [reflexivity|]. split; [eexists; reflexivity|].
    split; [reflexivity|]. split; [reflexivity|]. split; [auto|].
    split; [discriminate|]. intros e _. split; reflexivity.
  - destruct (json rp) as [data|e]; cbn [fst snd store log obind].
    + destruct (get_prop data "documents") as [docs|e] eqn:Hd;
        cbn [fst snd store log].
      * split; [reflexivity|]. split; [eexists; reflexivity|].
        split; [reflexivity|]. split; [reflexivity|]. split.
        -- intros _. cbn. destruct docs; cbn; try reflexivity.
           ++ destruct b; reflexivity.
           ++ destruct (_ || _); reflexivity.
           ++ destruct (s0 =? ""); reflexivity.
        -- split; [|discriminate].
           intros docs' [= <-]. split; reflexivity.
      * split; [reflexivity|]. split; [eexists; reflexivity|].
        split; [reflexivity|]. split; [reflexivity|]. split; [auto|].
        split; [discriminate|]. intros e' _. split; reflexivity.
    + split; [reflexivity|]. split; [eexists; reflexivity|].
      split; [reflexivity|]. split; [reflexivity|]. split; [auto|].
      split; [discriminate|]. intros e' _. split; reflexivity.
Qed.

(** X11. A delete on the Parse page that the operator declines sends nothing;
    one that cannot reach the service is reported in an alert.  In both cases
    no hook changes. *)
Theorem parse_delete_without_effect (w : world ParseFile.state) (name : string) :
  let question := "确定要删除 " ++ name ++ " 吗？" in
  let w' := snd (fire (ParseFile.handleDeleteParsed name) w) in
  (answer (length (log w)) question = false ->
   store w' = store w /\
   log w' = (log w ++ [(store w, Confirm question)])%list) /\
  (answer (length (log w)) question = true ->
   (exists msg,
      respond (S (length (log w))) (Stage.deleteRequest Stage.Parse name) =
        Rejected msg) ->
   store w' = store w /\
   log w' = (log w ++ [(store w, Confirm question);
                       (store w, Fetch (Stage.deleteRequest Stage.Parse name));
                       (store w, Alert "删除失败")])%list).
Proof.
  destruct w as [s l]. cbv zeta. cbn [Stage.deleteRequest].
  unfold fire. cbn [store log].
  remember (ParseFile.handleDeleteParsed name s {| store := s; log := l |})
    as run eqn:Hrun.
  unfold ParseFile.handleDeleteParsed in Hrun.
  unfold bind at 1, window_confirm at 1, emit in Hrun. cbn [store log] in Hrun.
  split.
  - intros Ha. rewrite Ha in Hrun. cbn [negb ret] in Hrun. subst run.
    split; reflexivity.
  - intros Ha [msg Hr]. rewrite Ha in Hrun. cbn [negb] in Hrun.
    unfold try_catch, bind, fetch, alert, emit in Hrun. cbn [store log] in Hrun.
    rewrite length_app, Nat.add_1_r in Hrun. cbn [length] in Hrun.
    rewrite Hr in Hrun. cbn [fst snd store log] in Hrun. subst run.
    cbn [fst snd store log]. split; [reflexivity|].
    now rewrite <- !app_assoc.
Qed.

Lemma filterO_names (name : string) (items : list value) :
  forallb (fun d => negb (nullish d)) items = true ->
  ParseFile.filterO
    (fun d => obind (get_prop d "name") (fun n => Return (negb (is_str n name))))
    items =
  Return (filter (fun d => negb (is_str (get_prop_opt d "name") name)) items).
Proof.
  induction items as [|d items IH]; [reflexivity|]. cbn [forallb].
  intros H. apply andb_true_iff in H. destruct H as [Hd Hrest].
  cbn [ParseFile.filterO filter]. rewrite (IH Hrest).
  destruct d; try discriminate Hd; reflexivity.
Qed.

(** X12. A confirmed delete on the Parse page takes out of the list every
    document of that name and keeps the others in their order, whatever
    status the service answers with: the status of the reply is not looked
    at. *)
Theorem parse_delete_ignores_status (w : world ParseFile.state) (name : string)
    (items : list value) (rp : reply) :
  answer (length (log w)) ("确定要删除 " ++ name ++ " 吗？") = true ->
  respond (S (length (log w))) (Stage.deleteRequest Stage.Parse name) = Resolved rp ->
  ParseFile.parsedDocs (store w) = VArr items ->
  forallb (fun d => negb (nullish d)) items = true ->
  ParseFile.parsedDocs (store (snd (fire (ParseFile.handleDeleteParsed name) w))) =
    VArr (filter (fun d => negb (is_str (get_prop_opt d "name") name)) items) /\
  ParseFile.parsedContent (store (snd (fire (ParseFile.handleDeleteParsed name) w))) =
    ParseFile.parsedContent (store w).
Proof.
  destruct w as [s l]. cbn [store log Stage.deleteRequest].
  intros Hans Hresp Hdocs Hitems. unfold fire. cbn [store log].
  remember (ParseFile.handleDeleteParsed name s {| store := s; log := l |})
    as run eqn:Hrun.
  unfold ParseFile.handleDeleteParsed in Hrun.
  unfold bind at 1, window_confirm at 1 in Hrun. cbn [store log] in Hrun.
  rewrite Hans in Hrun. cbn [negb] in Hrun.
  unfold try_catch, bind, fetch, lift, update, emit in Hrun.
  cbn [store log] in Hrun.
  rewrite length_app, Nat.add_1_r in Hrun. cbn [length] in Hrun.
  rewrite Hresp in Hrun. cbn [fst snd store log] in Hrun.
  unfold ParseFile.withoutDoc in Hrun. rewrite Hdocs in Hrun.
  rewrite (filterO_names name items Hitems) in Hrun.
  cbn [obind fst snd store log] in Hrun. subst run. split; reflexivity.
Qed.

(** X13. A click on a tab button of the Parse page sends the list request
    only when it changes the tab to [manage]: a click on the tab that is
    already shown, or on the preview tab, sets the tab and does nothing
    else. *)
Theorem parse_tab_click_without_request (w : world ParseFile.state) (v : string) :
  v <> "manage" \/ ParseFile.tab (store w) = v ->
  fire (ParseFile.selectTab v) w =
    (Return tt, {| store := ParseFile.setTab v (store w); log := log w |}).
Proof.
  destruct w as [s l]. unfold fire, ParseFile.selectTab. cbn [store log].
  intros [Hv|Ht].
  - apply String.eqb_neq in Hv. rewrite Hv, andb_false_r. reflexivity.
  - rewrite Ht, String.eqb_refl. reflexivity.
Qed.

End ParsedRegistry.

(** ** Replies that cannot be used *)

Section Replies.
Context {eng : engine} {env : environment}.

(** X14. In every stage a processing reply with a 2xx status whose body is
    not JSON, or is JSON [null], ends the submit as a failure: the result
    stays empty, the status line shows an error, and the stage sends nothing
    after the processing request (in particular no registry refresh). *)
Theorem unreadable_reply_fails (st : Stage.stage) (w : world (Stage.state st))
    (req : request) (rp : reply) :
  Stage.inputSelected st (store w) = true ->
  Stage.methodSelected st (store w) = true ->
  Stage.submitRequest st (store w) = Some req ->
  respond (length (log w)) req = Resolved rp ->
  ok rp = true ->
  (exists e, json rp = Throw e) \/ json rp = Return VNull ->
  Stage.result st (store (snd (fire (Stage.submit st) w))) = VNull /\
  Stage.phase_of st (store (snd (fire (Stage.submit st) w))) = Stage.Failed /\
  exists s1,
    log (snd (fire (Stage.submit st) w)) = (log w ++ [(s1, Fetch req)])%list.
Proof.
  intros Hin Hm Hreq Hresp Hok Hbody.
  destruct st;
    cbn [Stage.state Stage.inputSelected Stage.methodSelected Stage.submit
         Stage.submitRequest Stage.result] in *;
    destruct w as [s l]; unfold fire, Stage.phase_of;
    cbn [store log Stage.result Stage.status Stage.inFlight Stage.showsError] in *.
  - unfold LoadFile.handleProcess.
    destruct (LoadFile.file s) as [f|]; [|discriminate].
    injection Hreq as <-. cbn [truthy]. rewrite Hm. cbn [negb].
    unfold bind, try_catch, update, lift, fetch, throw, emit. cbn [store log].
    rewrite Hresp. cbn [fst snd store log]. rewrite Hok. cbn [negb].
    destruct Hbody as [[e He]|He]; rewrite He; cbn [get_prop fst snd store log];
      destruct (includes _ "CSV"); cbn; (split; [reflexivity|]);
      rewrite ?prefix_nil; (split; [reflexivity|]); eexists; reflexivity.
  - injection Hreq as <-.
    unfold ChunkFile.handleChunk. cbn [truthy]. rewrite Hin, Hm. cbn [negb orb].
    unfold bind, try_catch, update, lift, fetch, throw, emit. cbn [store log].
    rewrite Hresp. cbn [fst snd store log]. rewrite Hok. cbn [negb].
    destruct Hbody as [[e He]|He]; rewrite He; cbn [get_prop fst snd store log];
      cbn; (split; [reflexivity|]);
      rewrite ?prefix_nil; (split; [reflexivity|]); eexists; reflexivity.
  - unfold ParseFile.handleProcess.
    destruct (ParseFile.file s) as [f|]; [|discriminate].
    injection Hreq as <-. apply andb_true_iff in Hm. destruct Hm as [Hm1 Hm2].
    cbn [truthy]. rewrite Hm1, Hm2. cbn [negb orb].
    unfold bind, try_catch, update, lift, fetch, throw, emit. cbn [store log].
    rewrite Hresp. cbn [fst snd store log]. rewrite Hok. cbn [negb].
    destruct Hbody as [[e He]|He]; rewrite He; cbn [get_prop fst snd store log];
      cbn; (split; [reflexivity|]);
      rewrite ?prefix_nil; (split; [reflexivity|]); eexists; reflexivity.
Qed.

(** X15. On the Load and Parse pages a 2xx reply whose JSON object lacks the
    result field is taken as a success: the status line says so, while the
    result hook holds [undefined] and the preview shows the placeholder. *)
Theorem success_without_result :
  (forall (w : world LoadFile.state) (f : File) (rp : reply)
          (fields : list (string * value)),
     LoadFile.file (store w) = Some f ->
     LoadFile.loadingMethod (store w) <> "" ->
     respond (length (log w)) (LoadFile.loadRequest f (store w)) = Resolved rp ->
     ok rp = true ->
     json rp = Return (VObj fields) ->
     lookup "loaded_content" fields = None ->
     let s' := store (snd (fire LoadFile.handleProcess w)) in
     LoadFile.status s' = "文件加载成功！" /\
     LoadFile.loadedContent s' = VUndefined /\
     Stage.render Stage.Load (LoadFile.loadedContent s') =
       Return Stage.ShowsPlaceholder) /\
  (forall (w : world ParseFile.state) (f : File) (rp : reply)
          (fields : list (string * value)),
     ParseFile.file (store w) = Some f ->
     ParseFile.loadingMethod (store w) <> "" ->
     ParseFile.parsingOption (store w) <> "" ->
     respond (length (log w)) (ParseFile.parseRequest f (store w)) = Resolved rp ->
     ok rp = true ->
     json rp = Return (VObj fields) ->
     lookup "parsed_content" fields = None ->
     let s' := store (snd (fire ParseFile.handleProcess w)) in
     ParseFile.status s' = "处理完成！" /\
     ParseFile.isProcessed s' = true /\
     ParseFile.parsedContent s' = VUndefined /\
     Stage.render Stage.Parse (ParseFile.parsedContent s') =
       Return Stage.ShowsPlaceholder).
Proof.
  split.
  - intros [s l] f rp fields Hf Hm Hresp Hok Hjson Hmiss. cbv zeta.
    cbn [store log] in *. apply String.eqb_neq in Hm.
    assert (E : exists w3,
              snd (fire LoadFile.handleProcess {| store := s; log := l |}) =
                {| store := LoadFile.setActiveTab "preview" (store w3);
                   log := log w3 |} /\
              LoadFile.status (store w3) = "文件加载成功！" /\
              LoadFile.loadedContent (store w3) = VUndefined).
    { unfold fire, LoadFile.handleProcess. cbn [store log].
      rewrite Hf. cbn [truthy]. rewrite Hm. cbn [negb].
      unfold bind at 1 2, update at 1 2, try_catch at 1. cbn [store log].
      unfold bind at 1, fetch at 1. cbn [store log]. rewrite Hresp, Hok.
      cbn [negb]. unfold bind at 1, lift at 1. rewrite Hjson.
      unfold bind at 1, lift at 1. cbn [get_prop]. rewrite Hmiss.
      unfold bind at 1 2, update at 1 2. cbn [store log emit].
      unfold bind at 1.
      match goal with
      | |- context [LoadFile.fetchDocuments ?w2] =>
          destruct (fetchDocuments_run w2) as (R & _ & _ & C);
          assert (K : keeps LoadFile.status LoadFile.fetchDocuments)
            by (unfold LoadFile.fetchDocuments; keep);
          specialize (K w2);
          destruct (LoadFile.fetchDocuments w2) as [o w3]
      end.
      cbn [fst snd store log] in *. subst o. exists w3.
      split; [reflexivity|]. split; [exact K|exact C]. }
    destruct E as (w3 & -> & Hs & Hc). cbn [store].
    change (LoadFile.status (LoadFile.setActiveTab "preview" (store w3)))
      with (LoadFile.status (store w3)).
    change (LoadFile.loadedContent (LoadFile.setActiveTab "preview" (store w3)))
      with (LoadFile.loadedContent (store w3)).
    rewrite Hs, Hc. repeat split.
  - intros [s l] f rp fields Hf Hm1 Hm2 Hresp Hok Hjson Hmiss. cbv zeta.
    cbn [store log] in *.
    apply String.eqb_neq in Hm1. apply String.eqb_neq in Hm2.
    unfold fire, ParseFile.handleProcess. cbn [store log].
    rewrite Hf. cbn [truthy]. rewrite Hm1, Hm2. cbn [negb orb].
    unfold bind, try_catch, update, lift, fetch, throw, emit. cbn [store log].
    rewrite Hresp. cbn [fst snd store log]. rewrite Hok, Hjson.
    cbn [negb get_prop]. rewrite Hmiss. cbn [fst snd store log].
    repeat split.
Qed.

End Replies.

(** ** The cards of a preview *)

Section Cards.
Context {eng : engine}.

Lemma mapO_returns {A B} (f : A -> outcome B) (xs : list A) :
  (forall x, In x xs -> exists y, f x = Return y) ->
  exists ys, mapO f xs = Return ys /\ length ys = length xs.
Proof.
  induction xs as [|x xs IH]; intros Hf.
  - exists []. split; reflexivity.
  - destruct (Hf x (or_introl eq_refl)) as [y Hy].
    destruct IH as (ys & Hys & Hl); [intros z Hz; apply Hf; now right|].
    exists (y :: ys). cbn [mapO]. rewrite Hy, Hys. cbn. now rewrite Hl.
Qed.

Lemma mapO_throws {A B} (f : A -> outcome B) (xs : list A) (x : A) :
  In x xs -> (exists e, f x = Throw e) -> exists e, mapO f xs = Throw e.
Proof.
  induction xs as [|z xs IH]; [intros []|]. intros Hin Hx. cbn [mapO].
  destruct (f z) as [y|e] eqn:Hz; [|eexists; reflexivity]. cbn [obind].
  destruct Hin as [->|Hin].
  - destruct Hx as [e He]. congruence.
  - destruct (IH Hin Hx) as [e He]. rewrite He. eexists; reflexivity.
Qed.

Lemma drawable_renders (st : Stage.stage) (segment : value) :
  Lists.drawable st segment = true ->
  match st with
  | Stage.Load => exists r, LoadFile.renderChunk segment = Return r
  | Stage.Chunk => exists r, ChunkFile.renderChunk segment = Return r
  | Stage.Parse => exists r, ParseFile.renderItem segment = Return r
  end.
Proof.
  destruct st; cbn [Lists.drawable]; intros H.
  - apply andb_true_iff in H. destruct H as [Hs Hm].
    destruct segment as [| |b|n|s|xs|ps]; try discriminate Hs;
      try discriminate Hm.
    unfold LoadFile.renderChunk. cbn [get_prop get_prop_opt obind] in *.
    destruct (lookup "metadata" ps) as [[| |b|n|s|xs|qs]|];
      try discriminate Hm; eexists; reflexivity.
  - apply andb_true_iff in H. destruct H as [Hs Hm].
    destruct segment as [| |b|n|s|xs|ps]; try discriminate Hs;
      try discriminate Hm.
    unfold ChunkFile.renderChunk. cbn [get_prop get_prop_opt obind] in *.
    destruct (lookup "metadata" ps) as [[| |b|n|s|xs|qs]|];
      try discriminate Hm; eexists; reflexivity.
  - destruct segment; try discriminate H; eexists; reflexivity.
Qed.

Lemma undrawable_throws (st : Stage.stage) (segment : value) :
  Lists.drawable st segment = false ->
  match st with
  | Stage.Load => exists e, LoadFile.renderChunk segment = Throw e
  | Stage.Chunk => exists e, ChunkFile.renderChunk segment = Throw e
  | Stage.Parse => exists e, ParseFile.renderItem segment = Throw e
  end.
Proof.
  destruct st; cbn [Lists.drawable]; intros H.
  - destruct segment as [| |b|n|s|xs|ps]; try discriminate H;
      try (eexists; reflexivity).
    unfold LoadFile.renderChunk. cbn [get_prop get_prop_opt obind nullish negb andb] in *.
    destruct (lookup "metadata" ps) as [[| |b|n|s|xs|qs]|];
      try discriminate H; eexists; reflexivity.
  - destruct segment as [| |b|n|s|xs|ps]; try discriminate H;
      try (eexists; reflexivity).
    unfold ChunkFile.renderChunk. cbn [get_prop get_prop_opt obind nullish negb andb] in *.
    destruct (lookup "metadata" ps) as [[| |b|n|s|xs|qs]|];
      try discriminate H; eexists; reflexivity.
  - destruct segment; try discriminate H; eexists; reflexivity.
Qed.

(** X16. When the segments field of a result is an array and every segment
    can be drawn (it is not [null], and in the Load and Chunk stages it has a
    [metadata]), the preview does not throw and shows one card per segment;
    the Parse preview of an empty array shows its empty-state text. *)
Theorem preview_draws_every_segment (st : Stage.stage) (result : value)
    (items : list value) :
  truthy result = true ->
  get_prop_opt result (Stage.segmentsField st) = VArr items ->
  forallb (Lists.drawable st) items = true ->
  Stage.render st result =
    Return (match st, items with
            | Stage.Parse, [] => Stage.ShowsEmptyState ParseFile.emptyText
            | _, _ => Stage.ShowsCards (length items)
            end).
Proof.
  intros Ht Hseg Hall.
  assert (Hdraw : forall x, In x items -> Lists.drawable st x = true).
  { intros x Hx. rewrite forallb_forall in Hall. now apply Hall. }
  destruct result as [| |b|n|s|xs|ps]; try discriminate Hseg.
  destruct st; cbn [Stage.segmentsField Stage.render get_prop_opt] in *.
  - unfold LoadFile.renderPreview, LoadFile.textMetadata.
    cbn [truthy get_prop obind].
    destruct (lookup "chunks" ps) as [segs|]; [|discriminate Hseg]. subst segs.
    destruct (mapO_returns LoadFile.renderChunk items) as (rows & Hrows & Hlen).
    { intros x Hx. exact (drawable_renders Stage.Load x (Hdraw x Hx)). }
    destruct (is_str _ "text");
      cbn [obind get_index LoadFile.array_map]; rewrite Hrows; cbn;
      now rewrite Hlen.
  - unfold ChunkFile.renderPreview. cbn [truthy get_prop obind].
    destruct (lookup "chunks" ps) as [segs|]; [|discriminate Hseg]. subst segs.
    destruct (mapO_returns ChunkFile.renderChunk items) as (rows & Hrows & Hlen).
    { intros x Hx. exact (drawable_renders Stage.Chunk x (Hdraw x Hx)). }
    rewrite Hrows. cbn. now rewrite Hlen.
  - unfold ParseFile.renderPreview. cbn [truthy get_prop_opt].
    destruct (lookup "content" ps) as [segs|]; [|discriminate Hseg]. subst segs.
    destruct items as [|i items]; [reflexivity|].
    destruct (mapO_returns ParseFile.renderItem (i :: items)) as (rows & Hrows & Hlen).
    { intros x Hx. exact (drawable_renders Stage.Parse x (Hdraw x Hx)). }
    rewrite Hrows. cbn [obind Stage.shape_of]. now rewrite Hlen.
Qed.

(** X17. One segment that cannot be drawn makes the whole preview throw: in
    the Load and Chunk stages a segment that is [null] or has no [metadata],
    in the Parse stage a segment that is [null]. *)
Theorem undrawable_segment_throws (st : Stage.stage) (result : value)
    (items : list value) :
  truthy result = true ->
  get_prop_opt result (Stage.segmentsField st) = VArr items ->
  forallb (Lists.drawable st) items = false ->
  exists e, Stage.render st result = Throw e.
Proof.
  intros Ht Hseg Hbad.
  assert (Hx : exists x, In x items /\ Lists.drawable st x = false).
  { clear -Hbad. induction items as [|x xs IH]; [discriminate|].
    cbn [forallb] in Hbad. apply andb_false_iff in Hbad.
    destruct Hbad as [H|H].
    - exists x. split; [now left|exact H].
    - destruct (IH H) as (y & Hy & Hd). exists y. split; [now right|exact Hd]. }
  destruct Hx as (x & Hin & Hd).
  destruct result as [| |b|n|s|xs|ps]; try discriminate Hseg.
  destruct st; cbn [Stage.segmentsField Stage.render get_prop_opt] in *.
  - unfold LoadFile.renderPreview, LoadFile.textMetadata.
    cbn [truthy get_prop obind].
    destruct (lookup "chunks" ps) as [segs|]; [|discriminate Hseg]. subst segs.
    destruct (mapO_throws LoadFile.renderChunk items x Hin
                (undrawable_throws Stage.Load x Hd)) as [e He].
    destruct (is_str _ "text");
      cbn [obind get_index LoadFile.array_map]; rewrite He;
      eexists; reflexivity.
  - unfold ChunkFile.renderPreview. cbn [truthy get_prop obind].
    destruct (lookup "chunks" ps) as [segs|]; [|discriminate Hseg]. subst segs.
    destruct (mapO_throws ChunkFile.renderChunk items x Hin
                (undrawable_throws Stage.Chunk x Hd)) as [e He].
    rewrite He. eexists; reflexivity.
  - unfold ParseFile.renderPreview. cbn [truthy get_prop_opt].
    destruct (lookup "content" ps) as [segs|]; [|discriminate Hseg]. subst segs.
    destruct items as [|i items]; [destruct Hin|].
    destruct (mapO_throws ParseFile.renderItem (i :: items) x Hin
                (undrawable_throws Stage.Parse x Hd)) as [e He].
    rewrite He. eexists; reflexivity.
Qed.

End Cards.

(** ** Refreshing the chunk page *)

Section ChunkRefresh.
Context {eng : engine} {env : environment}.

Lemma withDetails_run (doc : value) (w : world ChunkFile.state) :
  exists d w',
    ChunkFile.withDetails doc w = (Return d, w') /\
    store w' = store w /\
    (d = doc \/
     exists pages count method config time,
       d = VObj (obj_set "timestamp" time
                (obj_set "chunking_config" config
                (obj_set "chunking_method" method
                (obj_set "total_chunks" count
                (obj_set "total_pages" pages (spread doc))))))).
Proof.
  unfold ChunkFile.withDetails, try_catch, bind, lift, fetch, ret.
  destruct (get_prop doc "name") as [name|e]; cbn [fst snd store log];
    [|eexists _, _; split; [reflexivity|split; [reflexivity|now left]]].
  destruct (respond _ _) as [msg|rp]; cbn [fst snd store log emit];
    [eexists _, _; split; [reflexivity|split; [reflexivity|now left]]|].
  destruct (ok rp); cbn [negb fst snd store log];
    [|eexists _, _; split; [reflexivity|split; [reflexivity|now left]]].
  destruct (json rp) as [data|e]; cbn [fst snd store log];
    [|eexists _, _; split; [reflexivity|split; [reflexivity|now left]]].
  destruct data;
    cbn [get_prop fst snd store log];
    eexists _, _; (split; [reflexivity|]); (split; [reflexivity|]);
    first [now left | right; eexists _, _, _, _, _; reflexivity].
Qed.

Lemma mapM_withDetails_run (docs : list value) (w : world ChunkFile.state) :
  exists ds w',
    mapM ChunkFile.withDetails docs w = (Return ds, w') /\
    store w' = store w /\
    Forall2 (fun doc d =>
               d = doc \/
               exists pages count method config time,
                 d = VObj (obj_set "timestamp" time
                          (obj_set "chunking_config" config
                          (obj_set "chunking_method" method
                          (obj_set "total_chunks" count
                          (obj_set "total_pages" pages (spread doc)))))))
            docs ds.
Proof.
  revert w. induction docs as [|doc docs IH]; intros w.
  - exists [], w. repeat split. constructor.
  - destruct (withDetails_run doc w) as (d & w1 & E1 & S1 & R1).
    destruct (IH w1) as (ds & w2 & E2 & S2 & R2).
    exists (d :: ds), w2. cbn [mapM]. unfold bind at 1. rewrite E1.
    unfold bind at 1. rewrite E2. cbn [ret].
    split; [reflexivity|]. split; [congruence|]. now constructor.
Qed.

(** X18. When both registry lists can be read, the chunk page lists every
    chunked document of the reply, in the reply's order: each one as listed,
    or as listed and extended with the five detail fields.  A detail request
    that fails never drops a document and never stops the refresh. *)
Theorem chunked_list_keeps_every_document (w : world ChunkFile.state)
    (loaded chunked : reply) (data : value) (fields : list (string * value))
    (docs : list value) :
  respond (length (log w)) (Stage.listRequest Stage.Chunk) = Resolved loaded ->
  json loaded = Return data ->
  nullish data = false ->
  respond (S (length (log w))) (get (apiBaseUrl ++ "/documents?type=chunked")) =
    Resolved chunked ->
  ok chunked = true ->
  json chunked = Return (VObj fields) ->
  lookup "documents" fields = Some (VArr docs) ->
  let s' := store (snd (ChunkFile.fetchLoadedDocuments w)) in
  length (ChunkFile.chunkedDocuments s') = length docs /\
  Forall2 (fun doc d =>
             d = doc \/
             exists pages count method config time,
               d = VObj (obj_set "timestamp" time
                        (obj_set "chunking_config" config
                        (obj_set "chunking_method" method
                        (obj_set "total_chunks" count
                        (obj_set "total_pages" pages (spread doc)))))))
          docs (ChunkFile.chunkedDocuments s') /\
  ChunkFile.processingStatus s' = ChunkFile.processingStatus (store w) /\
  ChunkFile.chunks s' = ChunkFile.chunks (store w).
Proof.
  destruct w as [s l]. cbn [store log Stage.listRequest].
  intros Hl Hj Hd Hc Hok Hjc Hdocs. cbv zeta.
  destruct (get_prop_of_value data "documents" Hd) as [listed Hlisted].
  remember (ChunkFile.fetchLoadedDocuments {| store := s; log := l |})
    as run eqn:Hrun.
  unfold ChunkFile.fetchLoadedDocuments in Hrun.
  unfold try_catch at 1 in Hrun. unfold bind at 1, fetch at 1 in Hrun.
  cbn [store log] in Hrun. rewrite Hl in Hrun.
  unfold bind at 1, lift at 1 in Hrun. rewrite Hj in Hrun.
  unfold bind at 1, lift at 1 in Hrun. rewrite Hlisted in Hrun.
  unfold bind at 1, update at 1 in Hrun. unfold bind at 1, fetch at 1 in Hrun.
  unfold emit in Hrun. cbn [store log] in Hrun.
  rewrite length_app, Nat.add_1_r in Hrun. cbn [length] in Hrun.
  rewrite Hc, Hok in Hrun. cbn [negb] in Hrun.
  unfold bind at 1, lift at 1 in Hrun. rewrite Hjc in Hrun.
  unfold bind at 1, lift at 1 in Hrun. cbn [get_prop] in Hrun.
  rewrite Hdocs in Hrun. unfold bind at 1 in Hrun.
  match type of Hrun with
  | context [mapM ChunkFile.withDetails docs ?w2] =>
      destruct (mapM_withDetails_run docs w2) as (ds & w3 & E & S & R)
  end.
  rewrite E in Hrun. unfold update in Hrun. subst run.
  cbn [fst snd store log ChunkFile.chunkedDocuments ChunkFile.setChunkedDocuments
       ChunkFile.processingStatus ChunkFile.chunks].
  rewrite S. cbn [store].
  split; [symmetry; exact (Forall2_length R)|].
  split; [exact R|]. split; reflexivity.
Qed.

(** X19. When the list of chunked documents is answered with a status that is
    not 2xx, the refresh stops half way: the loaded documents are the new
    ones, the chunked documents are the old ones, and the failure is shown in
    the processing status. *)
Theorem chunked_list_refused (w : world ChunkFile.state)
    (loaded chunked : reply) (data : value) :
  respond (length (log w)) (Stage.listRequest Stage.Chunk) = Resolved loaded ->
  json loaded = Return data ->
  nullish data = false ->
  respond (S (length (log w))) (get (apiBaseUrl ++ "/documents?type=chunked")) =
    Resolved chunked ->
  ok chunked = false ->
  let s' := store (snd (ChunkFile.fetchLoadedDocuments w)) in
  ChunkFile.loadedDocuments s' = get_prop_opt data "documents" /\
  ChunkFile.chunkedDocuments s' = ChunkFile.chunkedDocuments (store w) /\
  ChunkFile.processingStatus s' =
    "Error fetching documents: HTTP error! status: " ++
    string_of_nat (status chunked) /\
  requests (snd (ChunkFile.fetchLoadedDocuments w)) =
    (requests w ++ [Stage.listRequest Stage.Chunk;
                    get (apiBaseUrl ++ "/documents?type=chunked")])%list.
Proof.
  destruct w as [s l]. cbn [store log Stage.listRequest].
  intros Hl Hj Hd Hc Hok. cbv zeta.
  assert (Hlisted : get_prop data "documents" = Return (get_prop_opt data "documents"))
    by (destruct data; try discriminate Hd; reflexivity).
  unfold ChunkFile.fetchLoadedDocuments, requests.
  unfold try_catch, bind, fetch, lift, update, throw, emit. cbn [store log].
  rewrite Hl. cbn [fst snd store log]. rewrite Hj, Hlisted.
  cbn [fst snd store log]. rewrite length_app, Nat.add_1_r. cbn [length].
  rewrite Hc. cbn [fst snd store log]. rewrite Hok. cbn [negb fst snd store log].
  repeat split. rewrite !flat_map_app. cbn. now rewrite <- app_assoc.
Qed.

End ChunkRefresh.

(** ** The loading options *)

Lemma lookup_obj_set (k k' : string) (v : value) (o : list (string * value)) :
  lookup k (obj_set k' v o) = if String.eqb k k' then Some v else lookup k o.
Proof.
  induction o as [|[k0 v0] o IH]; cbn [obj_set lookup].
  - destruct (String.eqb k k'); reflexivity.
  - destruct (String.eqb k' k0) eqn:E0; cbn [lookup].
    + apply String.eqb_eq in E0. subst k0.
      destruct (String.eqb k k'); reflexivity.
    + rewrite IH. destruct (String.eqb k k') eqn:E; [|reflexivity].
      apply String.eqb_eq in E. subst k. now rewrite E0.
Qed.

Section Options.

(** X20. A change of a loading option sends nothing and writes one key of one
    config object, the key named by the control: a checkbox stores its checked
    flag, every other control stores its text.  Every other key of that
    object and the other two config objects stay as they were. *)
Theorem config_change_writes_one_key (w : world LoadFile.state)
    (t : LoadFile.target) (k : string) :
  let written :=
    if String.eqb (LoadFile.type t) "checkbox" then VBool (LoadFile.checked t)
    else VStr (LoadFile.value_ t) in
  let text := snd (fire (LoadFile.handleTextConfigChange t) w) in
  let unstructured := snd (fire (LoadFile.handleUnstructuredConfigChange t) w) in
  let csv := snd (fire (LoadFile.handleCsvConfigChange t) w) in
  (LoadFile.prop (LoadFile.textConfig (store text)) k =
     (if String.eqb k (LoadFile.name t) then written
      else LoadFile.prop (LoadFile.textConfig (store w)) k) /\
   LoadFile.unstructuredConfig (store text) = LoadFile.unstructuredConfig (store w) /\
   LoadFile.csvConfig (store text) = LoadFile.csvConfig (store w) /\
   log text = log w) /\
  (LoadFile.prop (LoadFile.unstructuredConfig (store unstructured)) k =
     (if String.eqb k (LoadFile.name t) then written
      else LoadFile.prop (LoadFile.unstructuredConfig (store w)) k) /\
   LoadFile.textConfig (store unstructured) = LoadFile.textConfig (store w) /\
   LoadFile.csvConfig (store unstructured) = LoadFile.csvConfig (store w) /\
   log unstructured = log w) /\
  (LoadFile.prop (LoadFile.csvConfig (store csv)) k =
     (if String.eqb k (LoadFile.name t) then written
      else LoadFile.prop (LoadFile.csvConfig (store w)) k) /\
   LoadFile.textConfig (store csv) = LoadFile.textConfig (store w) /\
   LoadFile.unstructuredConfig (store csv) = LoadFile.unstructuredConfig (store w) /\
   log csv = log w).
Proof.
  cbv zeta. unfold fire, LoadFile.handleTextConfigChange,
    LoadFile.handleUnstructuredConfigChange, LoadFile.handleCsvConfigChange,
    update, LoadFile.prop, LoadFile.changed.
  cbn [fst snd store log LoadFile.textConfig LoadFile.unstructuredConfig
       LoadFile.csvConfig LoadFile.setTextConfig LoadFile.setUnstructuredConfig
       LoadFile.setCsvConfig].
  rewrite !lookup_obj_set.
  destruct (String.eqb k (LoadFile.name t)); repeat split.
Qed.

(** X21. After the language select of the unstructured options is changed,
    the next load request carries the chosen language as a text under
    [languages], where the initial options carry a list. *)
Theorem language_is_sent_as_text (w : world LoadFile.state) (t : LoadFile.target)
    (f : File) :
  LoadFile.name t = "languages" ->
  LoadFile.type t <> "checkbox" ->
  LoadFile.loadingMethod (store w) = "unstructured" ->
  exists options,
    In ("chunking_options", FormJson (VObj options))
       (LoadFile.formData f
          (store (snd (fire (LoadFile.handleUnstructuredConfigChange t) w)))) /\
    lookup "languages" options = Some (VStr (LoadFile.value_ t)).
Proof.
  destruct w as [s l]. cbn [store log]. intros Hn Ht Hm.
  apply String.eqb_neq in Ht.
  unfold fire, LoadFile.handleUnstructuredConfigChange, update.
  cbn [fst snd store log]. unfold LoadFile.formData.
  cbn [LoadFile.loadingMethod LoadFile.setUnstructuredConfig
       LoadFile.unstructuredConfig].
  rewrite Hm. cbn [String.eqb Ascii.eqb Bool.eqb].
  eexists. split.
  - cbn [app In]. right. right. right. left. reflexivity.
  - unfold LoadFile.prop, LoadFile.changed. rewrite Hn, Ht.
    rewrite !lookup_obj_set. reflexivity.
Qed.

End Options.

(** ** A registry reply without documents *)

Section MissingDocuments.
Context {eng : engine} {env : environment}.

(** X22. A registry list reply whose JSON object has no [documents] leaves
    [undefined] in the list hook of the Load page and of the Chunk page, and
    the next render of the list throws; the Parse page puts the empty list in
    its hook. *)
Theorem list_reply_without_documents :
  (forall (w : world LoadFile.state) (rp : reply) (fields : list (string * value)),
     respond (length (log w)) (Stage.listRequest Stage.Load) = Resolved rp ->
     json rp = Return (VObj fields) ->
     lookup "documents" fields = None ->
     let s' := store (snd (LoadFile.fetchDocuments w)) in
     LoadFile.documents s' = VUndefined /\
     exists e, Lists.loadDocuments (LoadFile.documents s') = Throw e) /\
  (forall (w : world ChunkFile.state) (rp : reply) (fields : list (string * value)),
     respond (length (log w)) (Stage.listRequest Stage.Chunk) = Resolved rp ->
     json rp = Return (VObj fields) ->
     lookup "documents" fields = None ->
     let s' := store (snd (ChunkFile.fetchLoadedDocuments w)) in
     ChunkFile.loadedDocuments s' = VUndefined /\
     exists e, Lists.documentOptions (ChunkFile.loadedDocuments s') = Throw e) /\
  (forall (w : world ParseFile.state) (rp : reply) (fields : list (string * value)),
     respond (length (log w)) (Stage.listRequest Stage.Parse) = Resolved rp ->
     json rp = Return (VObj fields) ->
     lookup "documents" fields = None ->
     ParseFile.parsedDocs (store (snd (ParseFile.fetchParsedDocs w))) = VArr []).
Proof.
  split; [|split].
  - intros w rp fields Hr Hj Hmiss. cbv zeta.
    destruct (fetchDocuments_run w) as (_ & _ & D & _).
    rewrite D, Hr. unfold Stage.relisted. rewrite Hj. cbn [obind get_prop].
    rewrite Hmiss. split; [reflexivity|]. eexists; reflexivity.
  - intros w rp fields Hr Hj Hmiss. cbv zeta.
    destruct (fetchLoadedDocuments_run w) as (_ & _ & D).
    rewrite D, Hr. unfold Stage.relisted. rewrite Hj. cbn [obind get_prop].
    rewrite Hmiss. split; [reflexivity|]. eexists; reflexivity.
  - intros [s l] rp fields Hr Hj Hmiss. cbn [store log Stage.listRequest] in *.
    unfold ParseFile.fetchParsedDocs.
    unfold bind, try_catch, update, lift, fetch. cbn [store log].
    rewrite Hr. cbn [fst snd store log]. rewrite Hj. cbn [get_prop].
    rewrite Hmiss. reflexivity.
Qed.

End MissingDocuments.

(** ** The further properties at sample inputs *)

(** X1 for the custom sentence separators [;|:] of the tuned chunk page. *)
Lemma sentence_separators_round_trip_witness :
  get_prop_opt (ChunkFile.chunkBody "report.json" Scenario.tuned)
    "sentence_separators" = VArr [VStr ";"; VStr ":"] /\
  exists preset custom parts,
    ChunkFile.read ChunkFile.SentenceSeparator
      (ChunkFile.parameters Scenario.tuned) = VStr preset /\
    ChunkFile.read ChunkFile.CustomSentenceSeparator
      (ChunkFile.parameters Scenario.tuned) = VStr custom /\
    get_prop_opt (ChunkFile.chunkBody "report.json" Scenario.tuned)
      "sentence_separators" = VArr (map VStr parts) /\
    parts <> [] /\
    Forall (fun part => includes part "|" = false) parts /\
    join "|" parts = Lists.effective preset custom.
Proof.
  split; [reflexivity|].
  apply (@sentence_separators_round_trip Scenario.tuned "report.json"
           {| Separators.key := "sentence_separators";
              Separators.type := Separators.SentenceType;
              Separators.preset := ChunkFile.SentenceSeparator;
              Separators.custom := ChunkFile.CustomSentenceSeparator |});
    [cbn; tauto|reflexivity].
Defined.

(** X2 for the key [min_page_words] and the method [hybrid]. *)
Lemma method_changes_one_entry_witness :
  get_prop_opt
    (ChunkFile.chunkBody "report.json"
       (ChunkFile.setChunkingOption "hybrid" Scenario.tuned)) "min_page_words" =
  get_prop_opt (ChunkFile.chunkBody "report.json" Scenario.tuned) "min_page_words".
Proof.
  apply (@method_changes_one_entry Scenario.tuned "report.json" "hybrid"
           "min_page_words").
  discriminate.
Defined.

(** X7 on the chunk page that shows a result, with no connection. *)
Lemma failed_view_keeps_result_witness :
  ChunkFile.chunks
    (store (snd (fire (ChunkFile.handleViewDocument (env := Samples.offline) "other")
                      (start Scenario.showingChunks)))) =
  Scenario.chunkedArtifact.
Proof.
  apply (proj2 (@failed_view_keeps_result Scenario.sampleEngine Samples.offline)
           (start Scenario.showingChunks) "other").
  reflexivity.
Defined.

(** X8 for a view that the service answers with status 404 and a JSON
    body. *)
Lemma parse_view_ignores_status_witness :
  ParseFile.parsedContent
    (store (snd (fire (ParseFile.handleViewParsed
                         (env := Samples.always 404
                                   (VObj [("detail", VStr "Not found")]) true) "a")
                      (start ParseFile.initial)))) =
    VObj [("detail", VStr "Not found")] /\
  ParseFile.tab
    (store (snd (fire (ParseFile.handleViewParsed
                         (env := Samples.always 404
                                   (VObj [("detail", VStr "Not found")]) true) "a")
                      (start ParseFile.initial)))) = "preview".
Proof.
  apply (proj1 (proj2 (@parse_view_ignores_status
                         (Samples.always 404 (VObj [("detail", VStr "Not found")]) true)
                         (start ParseFile.initial) "a")) 404).
  reflexivity.
Defined.

(** X9 for the document [report] of the sample registry. *)
Lemma load_delete_after_view_clears_witness :
  let env := Scenario.registry Scenario.chunkedArtifact in
  let w1 := snd (fire (LoadFile.handleViewDocument (env := env)
                         (VObj [("name", VStr "report")]))
                      (start LoadFile.initial)) in
  let w2 := snd (fire (LoadFile.handleDeleteDocument (env := env) "report") w1) in
  (LoadFile.loadedContent (store w1) = Scenario.chunkedArtifact /\
   LoadFile.selectedDoc (store w1) = VObj [("name", VStr "report")]) /\
  (LoadFile.loadedContent (store w2) = VNull /\
   LoadFile.selectedDoc (store w2) = VNull /\
   LoadFile.status (store w2) = "Document deleted successfully").
Proof.
  cbv zeta.
  apply (@load_delete_after_view_clears Scenario.sampleEngine
           (Scenario.registry Scenario.chunkedArtifact)
           (start LoadFile.initial) "report" [("name", VStr "report")]
           {| status := 200; content := JsonText Scenario.chunkedArtifact |}
           {| status := 200;
              content := JsonText (VObj [("status", VStr "success")]) |}
           Scenario.chunkedArtifact); reflexivity.
Defined.

(** X10 on a reply that is not JSON, with two documents listed: both stay
    listed and the error text is set. *)
Lemma fetchParsedDocs_settles_witness :
  let w' := snd (ParseFile.fetchParsedDocs (env := Samples.garbled)
                   (start Scenario.twoParsed)) in
  ParseFile.parsedDocs (store w') = ParseFile.parsedDocs Scenario.twoParsed /\
  ParseFile.parsedError (store w') = "获取解析文档失败" /\
  ParseFile.parsedLoading (store w') = false.
Proof.
  cbv zeta.
  pose proof (@fetchParsedDocs_settles Scenario.sampleEngine Samples.garbled
                (start Scenario.twoParsed)) as H.
  cbv zeta in H. destruct H as (_ & _ & Hl & _ & _ & _ & Hf).
  destruct (Hf (SyntaxError "Unexpected token < in JSON at position 0")
               eq_refl) as (He & Hd).
  split; [exact Hd|]. split; [exact He|exact Hl].
Defined.

(** X11 for an operator who declines. *)
Lemma parse_delete_without_effect_witness :
  let env := Samples.always 200 VNull false in
  store (snd (fire (ParseFile.handleDeleteParsed (env := env) "a")
                   (start Scenario.twoParsed))) = Scenario.twoParsed /\
  log (snd (fire (ParseFile.handleDeleteParsed (env := env) "a")
                 (start Scenario.twoParsed))) =
    [(Scenario.twoParsed, Confirm "确定要删除 a 吗？")].
Proof.
  cbv zeta.
  apply (proj1 (@parse_delete_without_effect Scenario.sampleEngine
                  (Samples.always 200 VNull false)
                  (start Scenario.twoParsed) "a")).
  reflexivity.
Defined.

(** X12 for a delete that the service refuses with status 500. *)
Lemma parse_delete_ignores_status_witness :
  let env := Samples.always 500 (VObj [("detail", VStr "Internal Server Error")]) true in
  ParseFile.parsedDocs
    (store (snd (fire (ParseFile.handleDeleteParsed (env := env) "a")
                      (start Scenario.twoParsed)))) =
    VArr [VObj [("name", VStr "b")]] /\
  ParseFile.parsedContent
    (store (snd (fire (ParseFile.handleDeleteParsed (env := env) "a")
                      (start Scenario.twoParsed)))) = VNull.
Proof.
  cbv zeta.
  apply (@parse_delete_ignores_status Scenario.sampleEngine
           (Samples.always 500 (VObj [("detail", VStr "Internal Server Error")]) true)
           (start Scenario.twoParsed) "a"
           [VObj [("name", VStr "a")]; VObj [("name", VStr "b")]]
           {| status := 500;
              content := JsonText (VObj [("detail", VStr "Internal Server Error")]) |});
    reflexivity.
Defined.

(** X13 for a click on the preview tab. *)
Lemma parse_tab_click_without_request_witness :
  fire (ParseFile.selectTab (env := Samples.offline) "preview")
       (start ParseFile.initial) =
    (Return tt, {| store := ParseFile.setTab "preview" ParseFile.initial; log := [] |}).
Proof.
  apply (@parse_tab_click_without_request Scenario.sampleEngine Samples.offline
           (start ParseFile.initial) "preview").
  left. discriminate.
Defined.

(** X14 on the chunk page, for a reply that is not JSON. *)
Lemma unreadable_reply_fails_witness :
  let w' := snd (fire (Stage.submit (env := Samples.garbled) Stage.Chunk)
                      (start Scenario.reportSelected)) in
  ChunkFile.status (store w') = "错误: Unexpected token < in JSON at position 0" /\
  Stage.result Stage.Chunk (store w') = VNull /\
  Stage.phase_of Stage.Chunk (store w') = Stage.Failed /\
  exists s1,
    log w' =
      ([] ++ [(s1, Fetch (ChunkFile.chunkRequest (env := Samples.garbled)
                            Scenario.reportSelected))])%list.
Proof.
  cbv zeta. split; [reflexivity|].
  apply (@unreadable_reply_fails Scenario.sampleEngine Samples.garbled
           Stage.Chunk (start Scenario.reportSelected)
           (ChunkFile.chunkRequest (env := Samples.garbled) Scenario.reportSelected)
           {| status := 200;
              content := NotJson "Unexpected token < in JSON at position 0" |});
    try reflexivity.
  left. eexists. reflexivity.
Defined.

(** X15 on the Parse page, for the reply [{}]. *)
Lemma success_without_result_witness :
  let env := Samples.always 200 (VObj []) true in
  let s' := store (snd (fire (ParseFile.handleProcess (env := env))
                             (start Scenario.reportPicked))) in
  ParseFile.status s' = "处理完成！" /\
  ParseFile.isProcessed s' = true /\
  ParseFile.parsedContent s' = VUndefined /\
  Stage.render Stage.Parse (ParseFile.parsedContent s') =
    Return Stage.ShowsPlaceholder.
Proof.
  cbv zeta.
  apply (proj2 (@success_without_result Scenario.sampleEngine
                  (Samples.always 200 (VObj []) true))
           (start Scenario.reportPicked) Scenario.report
           {| status := 200; content := JsonText (VObj []) |} []);
    try reflexivity; discriminate.
Defined.

(** X16 for the Chunk preview of the sample artifact. *)
Lemma preview_draws_every_segment_witness :
  Stage.render Stage.Chunk Scenario.chunkedArtifact = Return (Stage.ShowsCards 1).
Proof.
  apply (@preview_draws_every_segment Scenario.sampleEngine Stage.Chunk
           Scenario.chunkedArtifact
           [VObj [("content", VStr "hello");
                  ("metadata", VObj [("chunk_id", VNum 1);
                                     ("page_range", VStr "1");
                                     ("word_count", VNum 1)])]]);
    reflexivity.
Defined.

(** X17 for the Chunk preview of a result with a chunk without metadata. *)
Lemma undrawable_segment_throws_witness :
  exists e, Stage.render Stage.Chunk Samples.bareChunk = Throw e.
Proof.
  apply (@undrawable_segment_throws Scenario.sampleEngine Stage.Chunk
           Samples.bareChunk [VObj [("content", VStr "hello")]]);
    reflexivity.
Defined.

(** X18 for a registry that lists [a] and [b] and has no detail for them. *)
Lemma chunked_list_keeps_every_document_witness :
  ChunkFile.chunkedDocuments
    (store (snd (ChunkFile.fetchLoadedDocuments (env := Samples.listing)
                   (start ChunkFile.initial)))) =
    [VObj [("name", VStr "a")]; VObj [("name", VStr "b")]] /\
  length (ChunkFile.chunkedDocuments
            (store (snd (ChunkFile.fetchLoadedDocuments (env := Samples.listing)
                           (start ChunkFile.initial))))) = 2.
Proof.
  split; [reflexivity|].
  apply (@chunked_list_keeps_every_document Scenario.sampleEngine Samples.listing
           (start ChunkFile.initial)
           {| status := 200;
              content := JsonText (VObj [("documents",
                VArr [VObj [("name", VStr "a")]; VObj [("name", VStr "b")]])]) |}
           {| status := 200;
              content := JsonText (VObj [("documents",
                VArr [VObj [("name", VStr "a")]; VObj [("name", VStr "b")]])]) |}
           (VObj [("documents",
                VArr [VObj [("name", VStr "a")]; VObj [("name", VStr "b")]])])
           [("documents",
                VArr [VObj [("name", VStr "a")]; VObj [("name", VStr "b")]])]
           [VObj [("name", VStr "a")]; VObj [("name", VStr "b")]]);
    reflexivity.
Defined.

(** X19 for a service that refuses the second list. *)
Lemma chunked_list_refused_witness :
  let s' := store (snd (ChunkFile.fetchLoadedDocuments (env := Samples.halfway)
                          (start ChunkFile.initial))) in
  ChunkFile.loadedDocuments s' = VArr [VObj [("name", VStr "a")]] /\
  ChunkFile.chunkedDocuments s' = [] /\
  ChunkFile.processingStatus s' = "Error fetching documents: HTTP error! status: 500" /\
  requests (snd (ChunkFile.fetchLoadedDocuments (env := Samples.halfway)
                   (start ChunkFile.initial))) =
    [get (Scenario.base ++ "/documents?type=loaded");
     get (Scenario.base ++ "/documents?type=chunked")].
Proof.
  cbv zeta.
  apply (@chunked_list_refused Scenario.sampleEngine Samples.halfway
           (start ChunkFile.initial)
           {| status := 200;
              content := JsonText (VObj [("documents", VArr [VObj [("name", VStr "a")]])]) |}
           {| status := 500;
              content := JsonText (VObj [("detail", VStr "Internal Server Error")]) |}
           (VObj [("documents", VArr [VObj [("name", VStr "a")]])]));
    reflexivity.
Defined.

(** X21 for the language [chi_sim]. *)
Lemma language_is_sent_as_text_witness :
  exists options,
    In ("chunking_options", FormJson (VObj options))
       (LoadFile.formData Scenario.report
          (store (snd (fire (LoadFile.handleUnstructuredConfigChange Samples.chinese)
                            (start (LoadFile.setLoadingMethod "unstructured"
                                      LoadFile.initial)))))) /\
    lookup "languages" options = Some (VStr "chi_sim").
Proof.
  apply (@language_is_sent_as_text
           (start (LoadFile.setLoadingMethod "unstructured" LoadFile.initial))
           Samples.chinese Scenario.report); [reflexivity|discriminate|reflexivity].
Defined.

(** X22 on the Load page, for the list reply [{}]. *)
Lemma list_reply_without_documents_witness :
  let env := Samples.always 200 (VObj []) true in
  let s' := store (snd (LoadFile.fetchDocuments (env := env) (start LoadFile.initial))) in
  LoadFile.documents s' = VUndefined /\
  exists e, Lists.loadDocuments (LoadFile.documents s') = Throw e.
Proof.
  cbv zeta.
  apply (proj1 (@list_reply_without_documents Scenario.sampleEngine
                  (Samples.always 200 (VObj []) true))
           (start LoadFile.initial)
           {| status := 200; content := JsonText (VObj []) |} []);
    reflexivity.
Defined.

(** ** The document id *)

(** X23. [docId] is idempotent: the id made from a document name is sent
    unchanged when that id is itself selected, so a name with and without
    [.json] leads to the same [doc_id]. *)
Theorem docId_idempotent (selected : string) :
  ChunkFile.docId (ChunkFile.docId selected) = ChunkFile.docId selected /\
  ChunkFile.docId (selected ++ ".json") = selected ++ ".json".
Proof.
  split.
  - unfold ChunkFile.docId at 1. now rewrite docId_suffix.
  - unfold ChunkFile.docId. now rewrite endsWith_append.
Qed.
